(** * A shallow embedding of [crawler.py]

    The crawler is a single Python module.  Its pure helpers
    ([normalize_url], [same_domain], [looks_like_binary],
    [is_html_response]) are embedded as functions on strings, together
    with the parts of [urllib.parse] (CPython 3.11) they call.  The
    stateful part ([load_robots], [parse_sitemap], [crawl_peo], [main])
    is embedded in a small monad that threads the outside world, returns
    either a value or a raised exception, and records the effects the
    code performs as a chronological list of events.

    Python [str] values are modelled by [string]; a character is a code
    point below 256. *)

From Stdlib Require Import ZArith QArith Ascii String Sorted.
From stdpp Require Import base option list gmap strings.

Local Open Scope string_scope.
Local Open Scope Z_scope.
Local Open Scope list_scope.

(** ** Exceptions and results *)

Inductive Exn :=
| ValueError        (* urllib.parse rejects the URL *)
| ParseError        (* xml.etree.ElementTree.ParseError *)
| RecursionError    (* the interpreter's recursion limit is reached *)
| IndexError        (* deque.popleft() on an empty deque *)
| RequestException  (* anything raised by requests / urllib.request *)
| OverflowError     (* a number does not fit the C type it is converted to *)
| FileNotFoundError. (* os.makedirs on the empty path *)

Inductive Result (A : Type) :=
| Ok (a : A)
| Raise (e : Exn).
Arguments Ok {A} a.
Arguments Raise {A} e.

#[export] Instance Result_ret : MRet Result := fun _ a => Ok a.
#[export] Instance Result_bind : MBind Result := fun _ _ f r =>
  match r with
  | Ok a => f a
  | Raise e => Raise e
  end.

Definition is_ok {A} (r : Result A) : bool :=
  match r with Ok _ => true | Raise _ => false end.

(** ** Python string operations *)

Module PyStr.

Definition code (c : ascii) : N := N_of_ascii c.

Definition ascii_eqb (a b : ascii) : bool := Ascii.eqb a b.

(** [c in s] for a single character [c]. *)
Fixpoint has (c : ascii) (s : string) : bool :=
  match s with
  | EmptyString => false
  | String d s' => if ascii_eqb c d then true else has c s'
  end.

(** [s.find(c)]: the index of the first [c], if any. *)
Fixpoint find (c : ascii) (s : string) : option nat :=
  match s with
  | EmptyString => None
  | String d s' => if ascii_eqb c d then Some O else S <$> find c s'
  end.

(** [s.rfind(c)]: the index of the last [c], if any. *)
Fixpoint rfind (c : ascii) (s : string) : option nat :=
  match s with
  | EmptyString => None
  | String d s' =>
      match rfind c s' with
      | Some i => Some (S i)
      | None => if ascii_eqb c d then Some O else None
      end
  end.

(** [s[:n]] and [s[n:]] for [n >= 0]. *)
Fixpoint take (n : nat) (s : string) : string :=
  match n, s with
  | S n', String c s' => String c (take n' s')
  | _, _ => EmptyString
  end.

Fixpoint drop (n : nat) (s : string) : string :=
  match n, s with
  | S n', String _ s' => drop n' s'
  | _, _ => s
  end.

(** [s.find(c, start)] for [0 <= start]. *)
Definition find_from (c : ascii) (start : nat) (s : string) : option nat :=
  (fun i => (start + i)%nat) <$> find c (drop start s).

(** [s.startswith(p)]. *)
Fixpoint startswith (p s : string) : bool :=
  match p, s with
  | EmptyString, _ => true
  | String a p', String b s' => ascii_eqb a b && startswith p' s'
  | String _ _, EmptyString => false
  end.

(** [sub in s]. *)
Fixpoint contains (sub s : string) : bool :=
  startswith sub s ||
  match s with
  | EmptyString => false
  | String _ s' => contains sub s'
  end.

(** [s.endswith(suf)]. *)
Definition endswith (suf s : string) : bool :=
  (String.length suf <=? String.length s)%nat &&
  String.eqb (drop (String.length s - String.length suf) s) suf.

(** [s[:-1]]. *)
Definition drop_last (s : string) : string :=
  take (String.length s - 1) s.

(** [s.split(c, 1)] when [c] occurs in [s]; [(s, "")] otherwise is never
    used by the callers, who test [c in s] first. *)
Definition split_once (c : ascii) (s : string) : string * string :=
  match find c s with
  | Some i => (take i s, drop (S i) s)
  | None => (s, "")
  end.

(** [s.replace(c, "")]. *)
Fixpoint remove (c : ascii) (s : string) : string :=
  match s with
  | EmptyString => EmptyString
  | String d s' => if ascii_eqb c d then remove c s' else String d (remove c s')
  end.

Fixpoint forallb (p : ascii -> bool) (s : string) : bool :=
  match s with
  | EmptyString => true
  | String c s' => p c && forallb p s'
  end.

Fixpoint map (f : ascii -> ascii) (s : string) : string :=
  match s with
  | EmptyString => EmptyString
  | String c s' => String (f c) (map f s')
  end.

Fixpoint rev_onto (s acc : string) : string :=
  match s with
  | EmptyString => acc
  | String c s' => rev_onto s' (String c acc)
  end.

Definition rev (s : string) : string := rev_onto s "".

(** [s.lstrip(...)] for a set of characters given as a predicate. *)
Fixpoint lstrip_by (p : ascii -> bool) (s : string) : string :=
  match s with
  | EmptyString => EmptyString
  | String c s' => if p c then lstrip_by p s' else s
  end.

Definition rstrip_by (p : ascii -> bool) (s : string) : string :=
  rev (lstrip_by p (rev s)).

Definition in_range (lo hi : N) (c : ascii) : bool :=
  ((lo <=? code c) && (code c <=? hi))%N.

Definition is_upper_ascii : ascii -> bool := in_range 65 90.
Definition is_lower_ascii : ascii -> bool := in_range 97 122.
Definition is_digit : ascii -> bool := in_range 48 57.

(** [c.isascii() and c.isalpha()]. *)
Definition is_ascii_alpha (c : ascii) : bool :=
  is_upper_ascii c || is_lower_ascii c.

(** [str.isspace] on code points below 256. *)
Definition is_space (c : ascii) : bool :=
  in_range 9 13 c || in_range 28 32 c ||
  (code c =? 133)%N || (code c =? 160)%N.

(** [s.strip()]. *)
Definition strip (s : string) : string :=
  rstrip_by is_space (lstrip_by is_space s).

(** [str.lower] on code points below 256: the ASCII capitals and the
    Latin-1 capitals U+00C0..U+00DE other than the multiplication sign
    move up by 32; every other character is unchanged. *)
Definition lower_char (c : ascii) : ascii :=
  if is_upper_ascii c || (in_range 192 222 c && negb (code c =? 215)%N)
  then ascii_of_N (code c + 32)
  else c.

Definition lower (s : string) : string := map lower_char s.

(** [len(s.split())]: the number of maximal runs of non-space
    characters. *)
Fixpoint count_words (in_word : bool) (s : string) : nat :=
  match s with
  | EmptyString => O
  | String c s' =>
      if is_space c then count_words false s'
      else if in_word then count_words true s'
      else S (count_words true s')
  end.

End PyStr.

(** ** XML elements, as [xml.etree.ElementTree] presents them *)

#[warnings="-register-all"]
Inductive Element :=
| Elem (tag : string) (text : option string) (children : list Element).

Definition tag (e : Element) : string := let 'Elem t _ _ := e in t.
Definition text (e : Element) : option string := let 'Elem _ t _ := e in t.
Definition children (e : Element) : list Element := let 'Elem _ _ c := e in c.

(** ** Library code that is taken as given

    These are the operations of the Python standard library and of the
    third-party packages whose result is not computed by the embedding.
    Robots rules are kept as the lines of robots.txt, of which the
    parsed entries are a function. *)

Record Lib := {
  (* urllib.parse._check_bracketed_host(hostname) returns normally *)
  check_bracketed_host : string -> bool;
  (* urllib.parse.urljoin(base, url) *)
  urljoin : string -> string -> Result string;
  (* [a.get("href") for a in BeautifulSoup(html, "html.parser").find_all("a", href=True)] *)
  anchor_hrefs : string -> list string;
  (* xml.etree.ElementTree.fromstring(content) *)
  fromstring : string -> Result Element;
  (* the rule matching at the end of RobotFileParser.can_fetch, on the
     entries parsed from these lines *)
  rules_can_fetch : list string -> string -> string -> Result bool;
  (* the Sitemap: lines RobotFileParser.parse collects *)
  rules_sitemaps : list string -> list string;
  (* extract_main_text(html), a BeautifulSoup text transform *)
  extract_main_text : string -> string * string * string;
  (* os.path.join(out_dir, slug_for_file(url) + ".txt") *)
  txt_path : string -> string -> string
}.

(** ** [urllib.parse] *)

Module Urllib.

Import PyStr.

Definition mem (s : string) (l : list string) : bool :=
  existsb (String.eqb s) l.

Definition uses_netloc : list string :=
  [""; "ftp"; "http"; "gopher"; "nntp"; "telnet";
   "imap"; "wais"; "file"; "mms"; "https"; "shttp";
   "snews"; "prospero"; "rtsp"; "rtspu"; "rsync";
   "svn"; "svn+ssh"; "sftp"; "nfs"; "git"; "git+ssh";
   "ws"; "wss"].

Definition uses_params : list string :=
  [""; "ftp"; "hdl"; "prospero"; "http"; "imap";
   "https"; "shttp"; "rtsp"; "rtspu"; "sip"; "sips";
   "mms"; "sftp"; "tel"].

Definition scheme_char (c : ascii) : bool :=
  is_lower_ascii c || is_upper_ascii c || is_digit c ||
  has c "+-.".

(** [_WHATWG_C0_CONTROL_OR_SPACE]: code points 0 to 32. *)
Definition c0_control_or_space : ascii -> bool := in_range 0 32.

(** [_UNSAFE_URL_BYTES_TO_REMOVE]: tab, carriage return, line feed. *)
Definition remove_unsafe (url : string) : string :=
  remove "010" (remove "013" (remove "009" url)).

Record SplitResult := {
  sr_scheme : string; sr_netloc : string; sr_path : string;
  sr_query : string; sr_fragment : string
}.

Record ParseResult := {
  scheme : string; netloc : string; path : string;
  params : string; query : string; fragment : string
}.

(** [parsed._replace(path=p)]. *)
Definition replace_path (r : ParseResult) (p : string) : ParseResult :=
  {| scheme := scheme r; netloc := netloc r; path := p;
     params := params r; query := query r; fragment := fragment r |}.

(** [_splitnetloc(url, start)]. *)
Definition _splitnetloc (url : string) (start : nat) : string * string :=
  let step delim c :=
    match find_from c start url with
    | Some wdelim => Nat.min delim wdelim
    | None => delim
    end in
  let delim := fold_left step ["/"; "?"; "#"]%char (String.length url) in
  (take (delim - start) (drop start url), drop delim url).

(** [s.rpartition(c)[2]]. *)
Definition after_last (c : ascii) (s : string) : string :=
  match rfind c s with
  | Some i => drop (S i) s
  | None => s
  end.

(** [s.partition(c)]. *)
Definition partition (c : ascii) (s : string) : string * bool * string :=
  match find c s with
  | Some i => (take i s, true, drop (S i) s)
  | None => (s, false, "")
  end.

Section WithLib.

Variable lib : Lib.

(** [_check_bracketed_netloc(netloc)]: [true] when it returns, [false]
    when it raises [ValueError]. *)
Definition _check_bracketed_netloc (netloc : string) : bool :=
  let hostname_and_port := after_last "@" netloc in
  let '(before_bracket, have_open_br, bracketed) :=
    partition "[" hostname_and_port in
  if have_open_br then
    if negb (String.eqb before_bracket "") then false
    else
      let '(hostname, _, port) := partition "]" bracketed in
      if negb (String.eqb port "") && negb (startswith ":" port) then false
      else check_bracketed_host lib hostname
  else
    let '(hostname, _, _) := partition ":" hostname_and_port in
    check_bracketed_host lib hostname.

(** [urlsplit(url)], with the default [scheme=''] and
    [allow_fragments=True].  [_checknetloc] is absent: it returns at once
    on an ASCII netloc, and no character from 128 to 255 has one of
    [/?#@:] in its NFKC form, so it never raises on these strings. *)
Definition urlsplit (url : string) : Result SplitResult :=
  let url := lstrip_by c0_control_or_space url in
  let url := remove_unsafe url in
  let '(scheme, url) :=
    match find ":" url, url with
    | Some (S i'), String c0 _ =>
        if is_ascii_alpha c0 && forallb scheme_char (take (S i') url)
        then (lower (take (S i') url), drop (S (S i')) url)
        else ("", url)
    | _, _ => ("", url)
    end in
  '(netloc, url) ←
    (if startswith "//" url then
       let '(netloc, rest) := _splitnetloc url 2 in
       if (has "[" netloc && negb (has "]" netloc)) ||
          (has "]" netloc && negb (has "[" netloc))
       then Raise ValueError
       else if has "[" netloc && has "]" netloc
                && negb (_check_bracketed_netloc netloc)
       then Raise ValueError
       else Ok (netloc, rest)
     else Ok ("", url));
  let '(url, fragment) :=
    if has "#" url then split_once "#" url else (url, "") in
  let '(url, query) :=
    if has "?" url then split_once "?" url else (url, "") in
  Ok {| sr_scheme := scheme; sr_netloc := netloc; sr_path := url;
        sr_query := query; sr_fragment := fragment |}.

(** [_splitparams(url)]. *)
Definition _splitparams (url : string) : string * string :=
  if has "/" url then
    match rfind "/" url with
    | Some r =>
        match find_from ";" r url with
        | Some i => (take i url, drop (S i) url)
        | None => (url, "")
        end
    | None => (url, "")
    end
  else
    match find ";" url with
    | Some i => (take i url, drop (S i) url)
    | None => (url, "")
    end.

(** [urlparse(url)]. *)
Definition urlparse (url : string) : Result ParseResult :=
  sr ← urlsplit url;
  let '(url, params) :=
    if mem (sr_scheme sr) uses_params && has ";" (sr_path sr)
    then _splitparams (sr_path sr)
    else (sr_path sr, "") in
  Ok {| scheme := sr_scheme sr; netloc := sr_netloc sr; path := url;
        params := params; query := sr_query sr;
        fragment := sr_fragment sr |}.

(** [urlunsplit((scheme, netloc, url, query, fragment))]. *)
Definition urlunsplit (scheme netloc url query fragment : string) : string :=
  let url :=
    if negb (String.eqb netloc "") ||
       (negb (String.eqb scheme "") && mem scheme uses_netloc
        && negb (String.eqb (take 2 url) "//"))
    then
      let url :=
        if negb (String.eqb url "") && negb (String.eqb (take 1 url) "/")
        then "/" +:+ url else url in
      "//" +:+ netloc +:+ url
    else url in
  let url := if negb (String.eqb scheme "") then scheme +:+ ":" +:+ url else url in
  let url := if negb (String.eqb query "") then url +:+ "?" +:+ query else url in
  let url := if negb (String.eqb fragment "") then url +:+ "#" +:+ fragment else url in
  url.

(** [urlunparse(components)], which is also [ParseResult.geturl]. *)
Definition urlunparse (r : ParseResult) : string :=
  let url :=
    if negb (String.eqb (params r) "")
    then path r +:+ ";" +:+ params r else path r in
  urlunsplit (scheme r) (netloc r) url (query r) (fragment r).

Definition geturl (r : ParseResult) : string := urlunparse r.

(** [urldefrag(url)[0]]. *)
Definition urldefrag (url : string) : Result string :=
  if has "#" url then
    r ← urlparse url;
    Ok (urlunparse {| scheme := scheme r; netloc := netloc r; path := path r;
                      params := params r; query := query r; fragment := "" |})
  else Ok url.

End WithLib.

End Urllib.

(** ** The pure helpers of [crawler.py] *)

Section Helpers.

Import PyStr Urllib.

Variable lib : Lib.

(** [normalize_url(u)], lines 51-61. *)
Definition normalize_url (u : string) : Result string :=
  if String.eqb u "" then Ok u
  else
    u ← urldefrag lib u;
    parsed ← urlparse lib u;
    let path := if String.eqb (path parsed) "" then "/" else path parsed in
    let path :=
      if endswith "/" path && negb (String.eqb path "/")
      then drop_last path else path in
    let normalized := geturl (replace_path parsed path) in
    Ok normalized.

(** [same_domain(u, root)], lines 64-69: any exception gives [False]. *)
Definition same_domain (u root : string) : bool :=
  match urlparse lib u, urlparse lib root with
  | Ok pu, Ok pr => String.eqb (lower (netloc pu)) (lower (netloc pr))
  | _, _ => false
  end.

Definition EXCLUDED_EXTENSIONS : list string :=
  [".jpg"; ".jpeg"; ".png"; ".gif"; ".svg"; ".webp"; ".ico";
   ".css"; ".js"; ".map";
   ".pdf"; ".zip"; ".gz"; ".rar"; ".7z";
   ".mp4"; ".webm"; ".mp3"; ".wav"; ".avi";
   ".ttf"; ".woff"; ".woff2"; ".eot";
   ".xml"].

(** [looks_like_binary(u)], lines 82-84. *)
Definition looks_like_binary (u : string) : Result bool :=
  p ← urlparse lib u;
  let path := lower (path p) in
  Ok (existsb (fun ext => endswith ext path) EXCLUDED_EXTENSIONS).

End Helpers.

(** [is_html_response(resp)], lines 87-89, on the value of
    [resp.headers.get("Content-Type")]. *)
Definition is_html_ctype (content_type : option string) : bool :=
  let ctype := PyStr.lower (default "" content_type) in
  PyStr.contains "text/html" ctype || PyStr.contains "application/xhtml+xml" ctype.

(** [os.path.join(a, b)] of [posixpath] for two components. *)
Definition os_path_join (a b : string) : string :=
  if PyStr.startswith "/" b then b
  else if String.eqb a "" || PyStr.endswith "/" a then a +:+ b
  else a +:+ "/" +:+ b.

(** ** Responses, records and events *)

(** What the code reads of a [requests.Response]. *)
Record Response := {
  status_code : Z;
  content_type : option string;   (* resp.headers.get("Content-Type") *)
  content : string;               (* resp.content *)
  resp_text : string              (* resp.text *)
}.

Definition is_html_response (resp : Response) : bool :=
  is_html_ctype (content_type resp).

(** The dictionary handed to [append_manifest], lines 330-338. *)
Record ManifestRecord := {
  m_url : string; m_title : string; m_desc : string; m_path : string;
  m_crawled_at : string; m_host : string; m_word_count : nat
}.

(** What [urllib.request.urlopen] followed by [read], [decode] and
    [splitlines] does inside [RobotFileParser.read]. *)
Inductive UrlopenOutcome :=
| HTTPError (code : Z)            (* urlopen raised urllib.error.HTTPError *)
| OtherError (e : Exn)            (* anything else was raised *)
| Fetched (lines : list string).  (* the decoded lines of robots.txt *)

Inductive LogLine :=
| LogSeeded (n : nat) (max_pages : Z) (delay : Q)
| LogRobotsSkip (url : string)
| LogError (url : string) (e : Exn)
| LogStatus (code : Z) (url : string)
| LogSaved (count : Z) (url path : string)
| LogDone (count : Z) (pages_dir : string)
| LogManifest (manifest_path : string).

(** The effects of a run, in the order the code performs them.  The
    operations on the local [queue] and [seen] are recorded too. *)
Inductive Event :=
| EvRobotsRead (robots_url : string)      (* rp.read() *)
| EvGet (url : string)                    (* session.get(url, timeout=12) *)
| EvCanFetch (agent url : string)         (* rp.can_fetch(agent, url) *)
| EvPopleft (url : string)                (* queue.popleft() *)
| EvSeenAdd (url : string)                (* seen.add(url) *)
| EvAppend (url : string)                 (* queue.append(n) *)
| EvExtract (html : string)               (* extract_main_text(html) *)
| EvSaveTxt (path url title meta_desc text : string)  (* the file save_txt writes *)
| EvManifest (manifest_path : string) (record : ManifestRecord)
| EvExtractLinks (html url : string)      (* extract_links(html, url) *)
| EvMakedirs (path : string)              (* os.makedirs(path, exist_ok=True) *)
| EvSleep (delay : Q)                     (* time.sleep(delay) *)
| EvPrint (line : LogLine).

(** ** The outside world and the monad of the stateful code *)

Record Net (World : Type) := {
  (* session.get(url, timeout=12), after the adapter's retries *)
  session_get : string -> World -> Result Response * World;
  (* urlopen(robots_url) and the reading of its body *)
  urlopen_read : string -> World -> UrlopenOutcome * World;
  (* time.time() *)
  time_time : World -> Z;
  (* datetime.utcnow().isoformat() *)
  utcnow_isoformat : World -> string;
  (* what the conversion of the argument of time.sleep to the C time
     type raises: OverflowError for a delay that does not fit *)
  time_sleep_error : Q -> option Exn;
  (* the passing of time.sleep(delay) *)
  time_sleep : Q -> World -> World
}.
Arguments session_get {World}.
Arguments urlopen_read {World}.
Arguments time_time {World}.
Arguments utcnow_isoformat {World}.
Arguments time_sleep_error {World}.
Arguments time_sleep {World}.

Definition M (World A : Type) : Type :=
  World -> Result A * World * list Event.

#[export] Instance M_ret {World} : MRet (M World) :=
  fun _ a w => (Ok a, w, []).

#[export] Instance M_bind {World} : MBind (M World) := fun _ _ f m w =>
  match m w with
  | (Ok a, w1, t1) => let '(r, w2, t2) := f a w1 in (r, w2, t1 ++ t2)
  | (Raise e, w1, t1) => (Raise e, w1, t1)
  end.

Section Monad.

Context {World : Type}.

Definition emit (e : Event) : M World unit :=
  fun w => (Ok tt, w, [e]).

Definition lift {A} (r : Result A) : M World A :=
  fun w => (r, w, []).

Definition raise {A} (e : Exn) : M World A := lift (Raise e).

(** [try: m  except Exception as e: h e]. *)
Definition try_except {A} (m : M World A) (h : Exn -> M World A) : M World A :=
  fun w =>
    match m w with
    | (Ok a, w1, t1) => (Ok a, w1, t1)
    | (Raise e, w1, t1) => let '(r, w2, t2) := h e w1 in (r, w2, t1 ++ t2)
    end.

(** A [for] loop that collects one result per element. *)
Fixpoint for_each {A B} (f : A -> M World B) (l : list A) : M World (list B) :=
  match l with
  | [] => mret []
  | a :: l' => b ← f a; bs ← for_each f l'; mret (b :: bs)
  end.

Definition result_of {A} (x : Result A * World * list Event) : Result A := x.1.1.
Definition world_of {A} (x : Result A * World * list Event) : World := x.1.2.
Definition trace_of {A} (x : Result A * World * list Event) : list Event := x.2.

End Monad.

(** ** [urllib.robotparser.RobotFileParser] *)

Record RobotFileParser := {
  rp_url : string;
  rp_host : string;
  rp_path : string;
  disallow_all : bool;
  allow_all : bool;
  last_checked : Z;                  (* 0 until parse() has run *)
  rp_parsed : option (list string)   (* the lines parse() was given *)
}.

(** [RobotFileParser()]. *)
Definition new_RobotFileParser : RobotFileParser :=
  {| rp_url := ""; rp_host := ""; rp_path := "";
     disallow_all := false; allow_all := false;
     last_checked := 0; rp_parsed := None |}.

Definition with_flags (rp : RobotFileParser) (dis al : bool) : RobotFileParser :=
  {| rp_url := rp_url rp; rp_host := rp_host rp; rp_path := rp_path rp;
     disallow_all := dis; allow_all := al;
     last_checked := last_checked rp; rp_parsed := rp_parsed rp |}.

Definition with_parsed (rp : RobotFileParser) (now : Z) (lines : list string)
  : RobotFileParser :=
  {| rp_url := rp_url rp; rp_host := rp_host rp; rp_path := rp_path rp;
     disallow_all := disallow_all rp; allow_all := allow_all rp;
     last_checked := now; rp_parsed := Some lines |}.

(** The [User-Agent] header [make_session] installs, which
    [session.headers.get("User-Agent", "*")] reads back. *)
Definition USER_AGENT : string :=
  "CommunityMateCrawler/0.1 (+https://example.com/demo)".

Section Robots.

Context {World : Type}.
Variable lib : Lib.
Variable net : Net World.

(** [rp.set_url(url)]. *)
Definition set_url (rp : RobotFileParser) (url : string) : Result RobotFileParser :=
  p ← Urllib.urlparse lib url;
  Ok {| rp_url := url; rp_host := Urllib.netloc p; rp_path := Urllib.path p;
        disallow_all := disallow_all rp; allow_all := allow_all rp;
        last_checked := last_checked rp; rp_parsed := rp_parsed rp |}.

(** [rp.read()]: an [HTTPError] sets a flag or nothing; any other
    exception leaves the method before the object is changed; a body is
    handed to [parse], which starts by [modified()]. *)
Definition read (rp : RobotFileParser) : M World RobotFileParser :=
  fun w =>
    match urlopen_read net (rp_url rp) w with
    | (HTTPError code, w') =>
        let rp' :=
          if (code =? 401) || (code =? 403) then with_flags rp true (allow_all rp)
          else if (400 <=? code) && (code <? 500) then with_flags rp (disallow_all rp) true
          else rp in
        (Ok rp', w', [EvRobotsRead (rp_url rp)])
    | (OtherError e, w') => (Raise e, w', [EvRobotsRead (rp_url rp)])
    | (Fetched lines, w') =>
        (Ok (with_parsed rp (time_time net w') lines), w', [EvRobotsRead (rp_url rp)])
    end.

(** [rp.can_fetch(useragent, url)]. *)
Definition can_fetch (rp : RobotFileParser) (useragent url : string) : Result bool :=
  if disallow_all rp then Ok false
  else if allow_all rp then Ok true
  else if last_checked rp =? 0 then Ok false
  else rules_can_fetch lib (default [] (rp_parsed rp)) useragent url.

(** [rp.site_maps()], with [None] read as the empty list. *)
Definition site_maps (rp : RobotFileParser) : list string :=
  match rp_parsed rp with
  | Some lines => rules_sitemaps lib lines
  | None => []
  end.

(** [load_robots(start_url)], lines 92-101. *)
Definition load_robots (start_url : string) : M World RobotFileParser :=
  parsed ← lift (Urllib.urlparse lib start_url);
  let robots_url :=
    Urllib.scheme parsed +:+ "://" +:+ Urllib.netloc parsed +:+ "/robots.txt" in
  let rp := new_RobotFileParser in
  rp ← lift (set_url rp robots_url);
  try_except (read rp) (fun _ => mret rp).

(** [discover_sitemaps(rp, start_url)], lines 104-116. *)
Definition discover_sitemaps (rp : RobotFileParser) (start_url : string)
  : Result (list string) :=
  let sitemaps := site_maps rp in
  match sitemaps with
  | [] =>
      parsed ← Urllib.urlparse lib start_url;
      Ok [Urllib.scheme parsed +:+ "://" +:+ Urllib.netloc parsed +:+ "/sitemap.xml"]
  | _ => Ok sitemaps
  end.

End Robots.

(** ** [parse_sitemap] *)

Section Sitemap.

Context {World : Type}.
Variable lib : Lib.
Variable net : Net World.

(** The test [_prepare_tag] builds for a tag [{*}name]. *)
Definition tag_matches (name : string) (e : Element) : bool :=
  String.eqb (tag e) name || PyStr.endswith ("}" +:+ name) (tag e).

(** The elements [elem.iter()] yields other than [elem] itself, in
    document order. *)
Fixpoint descendants (e : Element) : list Element :=
  let 'Elem _ _ cs := e in
  (fix go (cs : list Element) : list Element :=
     match cs with
     | [] => []
     | c :: cs' => c :: descendants c ++ go cs'
     end) cs.

(** [root.findall(".//{*}outer/{*}inner")]. *)
Definition findall (root : Element) (outer inner : string) : list Element :=
  flat_map (fun o => filter (fun c => tag_matches inner c = true) (children o))
           (filter (fun d => tag_matches outer d = true) (descendants root)).

(** [(e.text or "").strip()] for each element, keeping the non-empty
    ones. *)
Definition loc_texts (es : list Element) : list string :=
  filter (fun loc => loc ≠ "")
         (map (fun e => PyStr.strip (default "" (text e))) es).

Definition get (url : string) : M World Response :=
  fun w =>
    let '(r, w') := session_get net url w in
    (r, w', [EvGet url]).

(** [parse_sitemap(session, url)], lines 119-143.  [depth] is the number
    of nested calls the interpreter's recursion limit still allows: at
    the limit the call made inside the [try] block raises
    [RecursionError], which [except Exception] catches like any other.
    Whenever a statement of the [try] block can raise, [urls] is still
    the empty list, so the handler's [return urls] returns [[]]. *)
Fixpoint parse_sitemap (depth : nat) (url : string) : M World (list string) :=
  try_except
    match depth with
    | O => raise RecursionError
    | S depth' =>
        r ← get url;
        if negb (status_code r =? 200) ||
           negb (PyStr.contains "xml" (PyStr.lower (default "" (content_type r))))
        then mret []
        else
          root ← lift (fromstring lib (content r));
          let tag := PyStr.lower (tag root) in
          if PyStr.endswith "sitemapindex" tag then
            urlss ← for_each (parse_sitemap depth')
                             (loc_texts (findall root "sitemap" "loc"));
            mret (concat urlss)
          else if PyStr.endswith "urlset" tag then
            mret (loc_texts (findall root "url" "loc"))
          else mret []
    end
    (fun _ => mret []).

End Sitemap.

(** ** [crawl_peo] *)

(** The local variables the main loop mutates. *)
Record Frontier := {
  queue : list string;     (* the deque, leftmost element first *)
  seen : gset string;
  count : Z
}.

Definition set_queue (st : Frontier) (q : list string) : Frontier :=
  {| queue := q; seen := seen st; count := count st |}.
Definition add_seen (st : Frontier) (url : string) : Frontier :=
  {| queue := queue st; seen := {[url]} ∪ seen st; count := count st |}.
Definition incr_count (st : Frontier) : Frontier :=
  {| queue := queue st; seen := seen st; count := count st + 1 |}.

(** [os.path.dirname(p)] of [posixpath]. *)
Definition os_path_dirname (p : string) : string :=
  let head :=
    match PyStr.rfind "/" p with
    | Some i => PyStr.take (S i) p
    | None => ""
    end in
  if negb (String.eqb head "") && negb (PyStr.forallb (Ascii.eqb "/") head)
  then PyStr.rstrip_by (Ascii.eqb "/") head
  else head.

(** What [os.makedirs(path, exist_ok=True)] raises for a path it cannot
    accept. *)
Definition makedirs_error (path : string) : option Exn :=
  if String.eqb path "" then Some FileNotFoundError
  else if PyStr.has "000" path then Some ValueError
  else None.

(** An output directory under which [crawl_peo] can create its
    directories: it is not empty and holds no null character. *)
Definition usable_dir (out_dir : string) : bool :=
  negb (String.eqb out_dir "") && negb (PyStr.has "000" out_dir).

Section Crawl.

Context {World : Type}.
Variable lib : Lib.
Variable net : Net World.

(** What [time.sleep(delay)] raises, if anything.  The delay is first
    converted to the C time type, which fails for a delay that does not
    fit; a negative delay is then refused with [ValueError] ("sleep
    length must be non-negative").  A delay is a rational number here:
    the floats [nan] and [inf], which [time.sleep] refuses as well, are
    not among the delays of the embedding. *)
Definition sleep_error (delay : Q) : option Exn :=
  match time_sleep_error net delay with
  | Some e => Some e
  | None => if Qle_bool 0 delay then None else Some ValueError
  end.

(** [time.sleep(delay)].  A refused sleep takes no time and leaves no
    event. *)
Definition sleep (delay : Q) : M World unit :=
  fun w =>
    match sleep_error delay with
    | Some e => (Raise e, w, [])
    | None => (Ok tt, time_sleep net delay w, [EvSleep delay])
    end.

(** [os.makedirs(path, exist_ok=True)].  The empty path is refused with
    [FileNotFoundError] and a path with a null character with
    [ValueError]; any other directory is taken to exist or to be
    created. *)
Definition makedirs (path : string) : M World unit :=
  match makedirs_error path with
  | Some e => raise e
  | None => emit (EvMakedirs path)
  end.

Definition print (line : LogLine) : M World unit := emit (EvPrint line).

Definition utcnow : M World string :=
  fun w => (Ok (utcnow_isoformat net w), w, []).

(** [extract_links(html, base_url)], lines 226-237. *)
Definition extract_links (html base_url : string) : Result (list string) :=
  (fix go (hrefs : list string) : Result (list string) :=
     match hrefs with
     | [] => Ok []
     | href :: rest =>
         if String.eqb href "" then go rest
         else if existsb (fun p => PyStr.startswith p href)
                         ["mailto:"; "tel:"; "javascript:"; "#"]
         then go rest
         else
           abs_url ← urljoin lib base_url href;
           links ← go rest;
           Ok (abs_url :: links)
     end) (anchor_hrefs lib html).

(** [save_txt(out_dir, url, title, meta_desc, text)], lines 202-217;
    once the directory is there, the file is taken to be written. *)
Definition save_txt (out_dir url title meta_desc text : string) : M World string :=
  makedirs out_dir;;
  let path := txt_path lib out_dir url in
  emit (EvSaveTxt path url title meta_desc text);;
  mret path.

(** [append_manifest(manifest_path, record)], lines 220-223. *)
Definition append_manifest (manifest_path : string) (record : ManifestRecord)
  : M World unit :=
  makedirs (os_path_dirname manifest_path);;
  emit (EvManifest manifest_path record).

Section Run.

Variables (start_url out_dir : string) (delay : Q) (max_pages : Z).
Variable rp : RobotFileParser.
Variable base_host : string.

Let agent : string := USER_AGENT.
Let pages_dir : string := os_path_join out_dir "pages".
Let manifest_path : string := os_path_join out_dir "manifest.jsonl".

(** Lines 268-271: the sitemap URLs of one sitemap enter the queue. *)
Fixpoint append_seeds (urls queue : list string) : M World (list string) :=
  match urls with
  | [] => mret queue
  | u :: urls' =>
      n ← lift (normalize_url lib u);
      binary ← lift (looks_like_binary lib n);
      if negb binary
      then emit (EvAppend n);; append_seeds urls' (queue ++ [n])
      else append_seeds urls' queue
  end.

(** Lines 264-272: the loop over the discovered sitemaps, on the
    variables [queue] and [seeded]. *)
Fixpoint seed_sitemaps (depth : nat) (sitemaps queue : list string) (seeded : bool)
  : M World (list string * bool) :=
  match sitemaps with
  | [] => mret (queue, seeded)
  | sm :: sitemaps' =>
      urls ← parse_sitemap lib net depth sm;
      let urls := filter (fun u => same_domain lib u start_url = true) urls in
      match urls with
      | [] => seed_sitemaps depth sitemaps' queue seeded
      | _ :: _ =>
          queue ← append_seeds urls queue;
          seed_sitemaps depth sitemaps' queue true
      end
  end.

(** Lines 258-276: the seeding of the queue. *)
Definition seed_queue (depth : nat) (use_sitemap : bool) : M World (list string) :=
  let queue := [] in
  if use_sitemap then
    sitemaps ← lift (discover_sitemaps lib rp start_url);
    '(queue, seeded) ← seed_sitemaps depth sitemaps queue false;
    if negb seeded then
      n ← lift (normalize_url lib start_url);
      emit (EvAppend n);; mret (queue ++ [n])
    else mret queue
  else
    n ← lift (normalize_url lib start_url);
    emit (EvAppend n);; mret (queue ++ [n]).

(** Line 345: [n not in seen and same_domain(n, start_url) and not
    looks_like_binary(n)], evaluated from left to right. *)
Definition qualifies (seen : gset string) (n : string) : Result bool :=
  if bool_decide (n ∈ seen) then Ok false
  else if negb (same_domain lib n start_url) then Ok false
  else binary ← looks_like_binary lib n; Ok (negb binary).

(** Lines 343-346: the links of a saved page enter the queue. *)
Fixpoint enqueue_links (links : list string) (st : Frontier) : M World Frontier :=
  match links with
  | [] => mret st
  | link :: links' =>
      n ← lift (normalize_url lib link);
      q ← lift (qualifies (seen st) n);
      if q : bool
      then emit (EvAppend n);; enqueue_links links' (set_queue st (queue st ++ [n]))
      else enqueue_links links' st
  end.

(** Lines 293-300: the robots check; [true] when the URL is skipped. *)
Definition robots_denied (url : string) : M World bool :=
  try_except
    (emit (EvCanFetch agent url);;
     allowed ← lift (can_fetch lib rp agent url);
     if negb allowed then
       print (LogRobotsSkip url);;
       sleep delay;;
       mret true
     else mret false)
    (fun _ => mret false).

(** Lines 306-311: the fetch; [None] when the URL is skipped. *)
Definition fetch (url : string) : M World (option Response) :=
  try_except
    (resp ← get net url; mret (Some resp))
    (fun e =>
       print (LogError url e);;
       sleep delay;;
       mret None).

(** Lines 323-349: extraction, persistence, link discovery and the
    closing sleep. *)
Definition save_page (url : string) (resp : Response) (st : Frontier)
  : M World Frontier :=
  let html := resp_text resp in
  emit (EvExtract html);;
  let '(title, meta_desc, main_text) := extract_main_text lib html in
  path ← save_txt pages_dir url title meta_desc main_text;
  let st := incr_count st in
  crawled_at ← utcnow;
  append_manifest manifest_path
    {| m_url := url; m_title := title; m_desc := meta_desc; m_path := path;
       m_crawled_at := crawled_at +:+ "Z"; m_host := base_host;
       m_word_count := PyStr.count_words false main_text |};;
  print (LogSaved (count st) url path);;
  emit (EvExtractLinks html url);;
  links ← lift (extract_links html url);
  st ← enqueue_links links st;
  sleep delay;;
  mret st.

(** Lines 282-349: one pass through the body of the [while] loop. *)
Definition loop_body (st : Frontier) : M World Frontier :=
  match queue st with
  | [] => raise IndexError
  | url :: rest =>
      emit (EvPopleft url);;
      let st := set_queue st rest in
      if bool_decide (url ∈ seen st) then
        sleep delay;; mret st
      else
        emit (EvSeenAdd url);;
        let st := add_seen st url in
        if negb (same_domain lib url start_url) then
          sleep delay;; mret st
        else
          denied ← robots_denied url;
          if denied : bool then mret st
          else
            binary ← lift (looks_like_binary lib url);
            if binary : bool then
              sleep delay;; mret st
            else
              fetched ← fetch url;
              match fetched : option Response with
              | None => mret st
              | Some resp =>
                  if negb (status_code resp =? 200) then
                    print (LogStatus (status_code resp) url);;
                    sleep delay;; mret st
                  else if negb (is_html_response resp) then
                    sleep delay;; mret st
                  else save_page url resp st
              end
  end.

(** The loop condition [queue and count < max_pages], line 281. *)
Definition loop_cond (st : Frontier) : bool :=
  negb (bool_decide (queue st = [])) && (count st <? max_pages).

(** The [while] loop, lines 281-349.  [fuel] bounds the number of
    passes the embedding follows; [None] is returned when it is used up
    before the loop condition fails. *)
Fixpoint crawl_loop (fuel : nat) (st : Frontier) : M World (option Frontier) :=
  if loop_cond st then
    match fuel with
    | O => mret None
    | S fuel' => st' ← loop_body st; crawl_loop fuel' st'
    end
  else mret (Some st).

End Run.

(** [crawl_peo(start_url, out_dir, delay, max_pages, use_sitemap)],
    lines 240-352.  [depth] is the recursion depth left to
    [parse_sitemap], [fuel] the bound on loop passes. *)
Definition crawl_peo (depth fuel : nat)
    (start_url out_dir : string) (delay : Q) (max_pages : Z) (use_sitemap : bool)
  : M World (option Frontier) :=
  rp ← load_robots lib net start_url;
  parsed ← lift (Urllib.urlparse lib start_url);
  let base_host := Urllib.netloc parsed in
  let pages_dir := os_path_join out_dir "pages" in
  let manifest_path := os_path_join out_dir "manifest.jsonl" in
  makedirs pages_dir;;
  queue ← seed_queue start_url rp depth use_sitemap;
  print (LogSeeded (length queue) max_pages delay);;
  final ← crawl_loop start_url out_dir delay max_pages rp base_host fuel
             {| queue := queue; seen := ∅; count := 0 |};
  match final : option Frontier with
  | None => mret None
  | Some st =>
      print (LogDone (count st) pages_dir);;
      print (LogManifest manifest_path);;
      mret (Some st)
  end.

(** The parsed command line, lines 356-362. *)
Record Args := {
  arg_start : string;
  arg_out : string;
  arg_delay : Q;
  arg_max_pages : Z;
  arg_no_sitemap : bool
}.

(** [main()], lines 355-373, after the arguments are parsed. *)
Definition main (depth fuel : nat) (args : Args) : M World (option Frontier) :=
  let max_pages := Z.min (arg_max_pages args) 20 in
  crawl_peo depth fuel (arg_start args) (arg_out args) (arg_delay args)
            max_pages (negb (arg_no_sitemap args)).

End Crawl.

(** ** Reading traces *)

Definition is_save (e : Event) : bool :=
  match e with EvSaveTxt _ _ _ _ _ => true | _ => false end.
Definition is_manifest (e : Event) : bool :=
  match e with EvManifest _ _ => true | _ => false end.
Definition is_extract (e : Event) : bool :=
  match e with EvExtract _ => true | _ => false end.
Definition is_sleep (e : Event) : bool :=
  match e with EvSleep _ => true | _ => false end.
Definition is_popleft (e : Event) : bool :=
  match e with EvPopleft _ => true | _ => false end.

(** The events that occur before the main loop starts. *)
Definition is_setup (e : Event) : bool :=
  match e with
  | EvRobotsRead _ | EvGet _ | EvAppend _ | EvMakedirs _
  | EvPrint (LogSeeded _ _ _) => true
  | _ => false
  end.

(** The two lines printed after the main loop. *)
Definition is_report (e : Event) : bool :=
  match e with
  | EvPrint (LogDone _ _) | EvPrint (LogManifest _) => true
  | _ => false
  end.

(** An event is a request. *)
Definition is_get (e : Event) : Prop := exists u, e = EvGet u.

(** How many events of a trace satisfy a test. *)
Definition count_events (p : Event -> bool) (tr : list Event) : Z :=
  Z.of_nat (length (List.filter p tr)).

(** The files written and the manifest lines appended. *)
Definition saves (tr : list Event) : Z := count_events is_save tr.
Definition manifests (tr : list Event) : Z := count_events is_manifest tr.

(** The URLs appended to the queue, added to [seen] and requested, in
    order. *)
Definition appended (tr : list Event) : list string :=
  omap (fun e => match e with EvAppend u => Some u | _ => None end) tr.
Definition seen_added (tr : list Event) : list string :=
  omap (fun e => match e with EvSeenAdd u => Some u | _ => None end) tr.
Definition requested (tr : list Event) : list string :=
  omap (fun e => match e with EvGet u => Some u | _ => None end) tr.

(** The position of each effect in the order of the transition rule:
    dequeue, already-seen, scope, robots, binary extension, fetch,
    status and content type, extraction and persistence, link
    discovery, enqueueing, and the closing sleep.  The scope check and
    the extension check are pure and leave no event; their ranks, 2 and
    4, are not taken by any event of a pass. *)
Definition stage_rank (e : Event) : nat :=
  match e with
  | EvPopleft _ => 0
  | EvSeenAdd _ => 1
  | EvCanFetch _ _ => 3
  | EvPrint (LogRobotsSkip _) => 3
  | EvGet _ => 5
  | EvPrint (LogError _ _) => 5
  | EvPrint (LogStatus _ _) => 6
  | EvExtract _ => 7
  | EvMakedirs _ => 7
  | EvSaveTxt _ _ _ _ _ => 7
  | EvManifest _ _ => 7
  | EvPrint (LogSaved _ _ _) => 7
  | EvExtractLinks _ _ => 8
  | EvAppend _ => 9
  | EvSleep _ => 10
  | _ => 11
  end%nat.

(** The politeness automaton: how many sleeps have happened since the
    last dequeue.  A dequeue is accepted only after exactly one sleep
    since the previous one; a sleep is accepted only with the configured
    duration. *)
Inductive Gap :=
| BeforeFirst
| Since (sleeps : nat).

#[export] Instance Q_eq_dec : EqDecision Q.
Proof. solve_decision. Defined.

Definition gap_step (delay : Q) (g : option Gap) (e : Event) : option Gap :=
  match g, e with
  | None, _ => None
  | Some BeforeFirst, EvPopleft _ => Some (Since 0)
  | Some (Since n), EvPopleft _ => if decide (n = 1%nat) then Some (Since 0) else None
  | Some BeforeFirst, EvSleep d => if decide (d = delay) then Some BeforeFirst else None
  | Some (Since n), EvSleep d => if decide (d = delay) then Some (Since (S n)) else None
  | Some g, _ => Some g
  end.

Definition gaps (delay : Q) (g : option Gap) (tr : list Event) : option Gap :=
  fold_left (gap_step delay) tr g.

(** ** The transition rule of the specification

    Section 4.8 of the specification names the terminal states of a URL
    and the order in which the checks decide between them. *)

Inductive Verdict :=
| SkippedDuplicate
| SkippedOutOfScope
| SkippedRobotsDenied
| SkippedBinary
| SkippedHTTPError
| SkippedNonHTML
| Saved.

Section Transition.

Context {World : Type}.
Variable lib : Lib.
Variable net : Net World.
Variable start_url : string.
Variable delay : Q.
Variable rp : RobotFileParser.

(** The checks of the transition rule, as predicates on the dequeued
    URL, in the order the rule lists them. *)
Definition already_seen (st : Frontier) (url : string) : bool :=
  bool_decide (url ∈ seen st).
Definition out_of_scope (url : string) : bool :=
  negb (same_domain lib url start_url).
Definition robots_refuses (url : string) : bool :=
  match can_fetch lib rp USER_AGENT url with
  | Ok false => true
  | _ => false
  end.
Definition binary_extension (url : string) : bool :=
  match looks_like_binary lib url with
  | Ok true => true
  | _ => false
  end.

(** The checks ahead of the fetch: the first that holds decides. *)
Definition gate (st : Frontier) (url : string) : option Verdict :=
  fst <$> List.find (fun c => snd c)
    [(SkippedDuplicate, already_seen st url);
     (SkippedOutOfScope, out_of_scope url);
     (SkippedRobotsDenied, robots_refuses url);
     (SkippedBinary, binary_extension url)].

(** The classification of a fetch outcome. *)
Definition classify (r : Result Response) : Verdict :=
  match r with
  | Raise _ => SkippedHTTPError
  | Ok resp =>
      if negb (status_code resp =? 200) then SkippedHTTPError
      else if negb (is_html_response resp) then SkippedNonHTML
      else Saved
  end.

(** The terminal state of the URL at the head of the queue. *)
Definition verdict (st : Frontier) (url : string) (w : World) : Verdict :=
  match gate st url with
  | Some v => v
  | None => classify (session_get net url w).1
  end.

(** The events of a pass between the dequeue and the closing sleep, for
    each way of skipping. *)
Definition skip_events (v : Verdict) (url : string) (w : World) : list Event :=
  match v with
  | SkippedDuplicate => []
  | SkippedOutOfScope => [EvSeenAdd url]
  | SkippedRobotsDenied =>
      [EvSeenAdd url; EvCanFetch USER_AGENT url; EvPrint (LogRobotsSkip url)]
  | SkippedBinary => [EvSeenAdd url; EvCanFetch USER_AGENT url]
  | SkippedHTTPError =>
      [EvSeenAdd url; EvCanFetch USER_AGENT url; EvGet url;
       match (session_get net url w).1 with
       | Raise e => EvPrint (LogError url e)
       | Ok resp => EvPrint (LogStatus (status_code resp) url)
       end]
  | SkippedNonHTML => [EvSeenAdd url; EvCanFetch USER_AGENT url; EvGet url]
  | Saved => []
  end.

(** The local state and the world a skipped URL leaves behind. *)
Definition skip_state (v : Verdict) (st : Frontier) (url : string) (rest : list string)
  : Frontier :=
  match v with
  | SkippedDuplicate => set_queue st rest
  | _ => add_seen (set_queue st rest) url
  end.

Definition skip_world (v : Verdict) (url : string) (w : World) : World :=
  match v with
  | SkippedHTTPError | SkippedNonHTML =>
      time_sleep net delay (session_get net url w).2
  | _ => time_sleep net delay w
  end.

End Transition.

(** ** The seeding rule of the specification *)

Section Seeding.

Variable lib : Lib.
Variable start_url : string.

(** The sitemap URLs that may enter the queue: each is normalised, and
    the ones with an excluded extension are left out. *)
Fixpoint seeds_of (urls : list string) : Result (list string) :=
  match urls with
  | [] => Ok []
  | u :: urls' =>
      n ← normalize_url lib u;
      binary ← looks_like_binary lib n;
      rest ← seeds_of urls';
      Ok (if binary : bool then rest else n :: rest)
  end.

(** The URLs of one sitemap that are on the host of the start URL. *)
Definition on_host (urls : list string) : list string :=
  filter (fun u => same_domain lib u start_url = true) urls.

Definition nonempty (l : list string) : bool :=
  match l with [] => false | _ :: _ => true end.

(** The seeded queue, given what each discovered sitemap resolved to:
    the start URL alone when no sitemap has a URL on the host, and
    otherwise the sitemap URLs on the host and nothing else. *)
Definition seeded_queue (urlss : list (list string)) : Result (list string) :=
  let found := map on_host urlss in
  if existsb nonempty found
  then seeds_of (concat found)
  else n ← normalize_url lib start_url; Ok [n].

End Seeding.

(** ** The classification of the specification *)

(** Section 4.6: a fetch outcome is accepted when the status is 200 and
    the content type names HTML. *)
Definition html_200 (out : Result Response) : Prop :=
  exists resp,
    out = Ok resp /\ status_code resp = 200 /\
    (PyStr.contains "text/html" (PyStr.lower (default "" (content_type resp))) = true \/
     PyStr.contains "application/xhtml+xml"
                    (PyStr.lower (default "" (content_type resp))) = true).

(** ** A small site, for concrete runs *)

Module Demo.

(** A host [h] with a start page linking twice to [/a], once to a PDF
    and once to [/c]; a sitemap index with one child sitemap that lists
    [/a], [/a/] and a URL of another host. *)
Definition sitemap_index : Element :=
  Elem "{http://www.sitemaps.org/schemas/sitemap/0.9}sitemapindex" None
    [Elem "{http://www.sitemaps.org/schemas/sitemap/0.9}sitemap" None
       [Elem "{http://www.sitemaps.org/schemas/sitemap/0.9}loc"
             (Some " http://h/sm1.xml ") []]].

Definition url_set : Element :=
  Elem "urlset" None
    [Elem "url" None [Elem "loc" (Some "http://h/a") []];
     Elem "url" None [Elem "loc" (Some "http://h/a/") []];
     Elem "url" None [Elem "loc" None []];
     Elem "url" None [Elem "loc" (Some "http://other/x") []]].

Definition lib : Lib := {|
  check_bracketed_host := fun _ => true;
  urljoin := fun _ href => Ok ("http://h" +:+ href);
  anchor_hrefs := fun html =>
    if String.eqb html "P0" then ["/a"; "/a"; "/b.pdf"; "/c"; "#top"] else [];
  fromstring := fun content =>
    if String.eqb content "IDX" then Ok sitemap_index
    else if String.eqb content "SM" then Ok url_set
    else Raise ParseError;
  rules_can_fetch := fun _ _ _ => Ok true;
  rules_sitemaps := fun _ => [];
  extract_main_text := fun html => ("title", "description", html);
  txt_path := fun out_dir _ => out_dir +:+ "/page.txt"
|}.

Definition response (status : Z) (ctype body : string) : Response :=
  {| status_code := status; content_type := Some ctype;
     content := body; resp_text := body |}.

Definition serve (url : string) : Result Response :=
  if String.eqb url "http://h/" then Ok (response 200 "text/html; charset=utf-8" "P0")
  else if String.eqb url "http://h/a" then Ok (response 200 "text/html" "PA")
  else if String.eqb url "http://h/c" then Ok (response 200 "application/pdf" "%PDF")
  else if String.eqb url "http://h/sitemap.xml" then Ok (response 200 "application/xml" "IDX")
  else if String.eqb url "http://h/sm1.xml" then Ok (response 200 "text/xml" "SM")
  else Ok (response 404 "text/html" "").

(** The world is the number of requests made so far. *)
Definition net : Net nat := {|
  session_get := fun url w => (serve url, S w);
  urlopen_read := fun _ w => (Fetched [], S w);
  time_time := fun _ => 1700000000;
  utcnow_isoformat := fun _ => "2025-01-01T00:00:00";
  time_sleep_error := fun _ => None;
  time_sleep := fun _ w => w
|}.

(** The same site when robots.txt cannot be fetched. *)
Definition net_robots_down : Net nat := {|
  session_get := session_get net;
  urlopen_read := fun _ w => (OtherError RequestException, S w);
  time_time := time_time net;
  utcnow_isoformat := utcnow_isoformat net;
  time_sleep_error := time_sleep_error net;
  time_sleep := time_sleep net
|}.

Definition start_url : string := "http://h/".

(** The parser after robots.txt was read, and the state in which the
    PDF of the site is at the head of the queue. *)
Definition rp : RobotFileParser :=
  with_parsed new_RobotFileParser 1700000000 [].
Definition pdf_first : Frontier :=
  {| queue := ["http://h/c"]; seen := ∅; count := 0 |}.
Definition pass_pdf :=
  loop_body lib net start_url "data/peo" 0%Q rp "h" pdf_first 0%nat.

(** A run from the start page alone, and one seeded from the sitemap. *)
Definition run_links :=
  crawl_peo lib net 5 50 start_url "data/peo" 0%Q 20 false 0%nat.
Definition run_sitemap :=
  crawl_peo lib net 5 50 start_url "data/peo" 0%Q 20 true 0%nat.
Definition run_capped :=
  crawl_peo lib net 5 50 start_url "data/peo" 0%Q 1 false 0%nat.
Definition run_robots_down :=
  crawl_peo lib net_robots_down 5 50 start_url "data/peo" 0%Q 20 false 0%nat.

End Demo.

(** ** File names: [slug_for_file] and the path [save_txt] writes *)

Section Slug.

Import PyStr.

(** [hashlib.sha1(s.encode("utf-8")).hexdigest()]. *)
Variable sha1_hexdigest : string -> string.
Variable lib : Lib.

(** The characters the pattern [[^a-zA-Z0-9\-_\.]+] leaves alone. *)
Definition slug_char (c : ascii) : bool :=
  is_lower_ascii c || is_upper_ascii c || is_digit c || has c "-_.".

(** [re.sub(r"[^a-zA-Z0-9\-_\.]+", "-", raw)]: every maximal run of other
    characters becomes one hyphen.  [in_run] tells that the previous
    character was replaced. *)
Fixpoint sub_unsafe (in_run : bool) (raw : string) : string :=
  match raw with
  | EmptyString => EmptyString
  | String c raw' =>
      if slug_char c then String c (sub_unsafe false raw')
      else if in_run then sub_unsafe true raw'
      else String "-" (sub_unsafe true raw')
  end.

(** [path.replace("/", "__")]. *)
Fixpoint replace_slashes (path : string) : string :=
  match path with
  | EmptyString => EmptyString
  | String c path' =>
      if Ascii.eqb c "/" then String "_" (String "_" (replace_slashes path'))
      else String c (replace_slashes path')
  end.

(** [path.strip("/")]. *)
Definition strip_slashes (path : string) : string :=
  rstrip_by (Ascii.eqb "/") (lstrip_by (Ascii.eqb "/") path).

(** [slug_for_file(url, maxlen)], lines 179-199. *)
Definition slug_for_file (url : string) (maxlen : nat) : Result string :=
  parsed ← Urllib.urlparse lib url;
  let path := strip_slashes (Urllib.path parsed) in
  let path := if String.eqb path "" then "home" else path in
  let qhash :=
    if negb (String.eqb (Urllib.query parsed) "")
    then take 8 (sha1_hexdigest (Urllib.query parsed)) else "" in
  let raw := replace_slashes path in
  let raw := sub_unsafe false raw in
  let raw := if (maxlen <? String.length raw)%nat then take maxlen raw else raw in
  let h := take 8 (sha1_hexdigest url) in
  let base := raw +:+ "__" +:+ h in
  let base := if negb (String.eqb qhash "") then base +:+ "_" +:+ qhash else base in
  Ok (lower base).

(** Lines 203-205 of [save_txt]: the directory is made, and the path is
    put together with the default [maxlen] of 180. *)
Definition save_txt_path (out_dir url : string) : Result string :=
  match makedirs_error out_dir with
  | Some e => Raise e
  | None =>
      slug ← slug_for_file url 180;
      Ok (os_path_join out_dir (slug +:+ ".txt"))
  end.

End Slug.

(** The characters of a slug: lower-case letters, digits, hyphen,
    underscore and full stop. *)
Definition plain_char (c : ascii) : bool :=
  PyStr.is_lower_ascii c || PyStr.is_digit c || PyStr.has c "-_.".

Definition hex_char (c : ascii) : bool :=
  PyStr.is_digit c || PyStr.in_range 97 102 c || PyStr.in_range 65 70 c.

(** A URL with a capital, spaces and a query, and the digests
    [hashlib.sha1] gives for it and for its query; any other string is
    given the digest of the empty string. *)
Module SlugDemo.

Definition url : string := "https://peo.gov.au/Learn/How Parliament Works/?page=2".

Definition sha1_hexdigest (s : string) : string :=
  if String.eqb s url then "e952ddedb46784e2878cc136b135c0c595f60d17"
  else if String.eqb s "page=2" then "b941a131dcbf32cc906cd9a100bc5b7eafebf9fb"
  else "da39a3ee5e6b4b0d3255bfef95601890afd80709".

End SlugDemo.

(** ** The white-space clean-up of [extract_main_text], lines 170-174 *)

(** [re.sub(p + "+", r, s)] for a character class [p]: every maximal run
    of characters of the class becomes the one character [r].  [in_run]
    tells that the previous character was of the class. *)
Fixpoint sub_runs (p : ascii -> bool) (r : ascii) (in_run : bool) (s : string)
  : string :=
  match s with
  | EmptyString => EmptyString
  | String c s' =>
      if p c then
        if in_run then sub_runs p r true s'
        else String r (sub_runs p r true s')
      else String c (sub_runs p r false s')
  end.

(** [re.sub(r"\n{3,}", "\n\n", s)]: of a run of three or more line feeds
    the first two are kept.  [n] counts the line feeds just before. *)
Fixpoint cap_newlines (n : nat) (s : string) : string :=
  match s with
  | EmptyString => EmptyString
  | String c s' =>
      if Ascii.eqb c "010" then
        if (n <? 2)%nat then String c (cap_newlines (S n) s')
        else cap_newlines (S n) s'
      else String c (cap_newlines 0 s')
  end.

Definition is_blank (c : ascii) : bool := Ascii.eqb c " " || Ascii.eqb c "009".

(** The three substitutions applied to the extracted text. *)
Definition clean_whitespace (text : string) : string :=
  let text := sub_runs (Ascii.eqb "013") "010" false text in
  let text := sub_runs is_blank " " false text in
  let text := cap_newlines 0 text in
  text.

(** No run of characters [q] is longer than [k], when [n] of them come
    just before. *)
Fixpoint runs_at_most (q : ascii -> bool) (k n : nat) (s : string) : bool :=
  match s with
  | EmptyString => true
  | String c s' =>
      if q c then (S n <=? k)%nat && runs_at_most q k (S n) s'
      else runs_at_most q k 0 s'
  end.

Fixpoint repeat_char (c : ascii) (m : nat) : string :=
  match m with
  | O => EmptyString
  | S m' => String c (repeat_char c m')
  end.

(** ** More readers of traces *)

(** The URLs dequeued, the URLs of the files written and the numbers
    printed with them, in order. *)
Definition popped (tr : list Event) : list string :=
  omap (fun e => match e with EvPopleft u => Some u | _ => None end) tr.
Definition saved_urls (tr : list Event) : list string :=
  omap (fun e => match e with EvSaveTxt _ u _ _ _ => Some u | _ => None end) tr.
Definition saved_numbers (tr : list Event) : list Z :=
  omap (fun e => match e with EvPrint (LogSaved n _ _) => Some n | _ => None end) tr.

(** What a written file and a manifest line say of a page: URL, path,
    title, description and word count. *)
Definition file_entries (tr : list Event)
  : list (string * string * string * string * nat) :=
  omap (fun e =>
          match e with
          | EvSaveTxt path url title meta_desc text =>
              Some (url, path, title, meta_desc, PyStr.count_words false text)
          | _ => None
          end) tr.
Definition manifest_entries (tr : list Event)
  : list (string * string * string * string * nat) :=
  omap (fun e =>
          match e with
          | EvManifest _ r =>
              Some (m_url r, m_path r, m_title r, m_desc r, m_word_count r)
          | _ => None
          end) tr.
Definition manifest_hosts (tr : list Event) : list string :=
  omap (fun e => match e with EvManifest _ r => Some (m_host r) | _ => None end) tr.

(** [extract_links] read as a filter and a map: the hrefs that count as
    navigation. *)
Definition navigational (href : string) : bool :=
  negb (String.eqb href "") &&
  negb (existsb (fun p => PyStr.startswith p href)
                ["mailto:"; "tel:"; "javascript:"; "#"]).

(** Every element in turn, stopping at the first that raises. *)
Fixpoint map_result {A B} (f : A -> Result B) (l : list A) : Result (list B) :=
  match l with
  | [] => Ok []
  | a :: l' => b ← f a; bs ← map_result f l'; Ok (b :: bs)
  end.

(** ** The small site with a link that cannot be resolved *)

Module BrokenLink.

(** The start page of the demo site links to [/a] and then to [//[],
    which [urljoin] rejects as an invalid IPv6 URL. *)
Definition lib : Lib := {|
  check_bracketed_host := check_bracketed_host Demo.lib;
  urljoin := fun base href =>
    if String.eqb href "//[" then Raise ValueError else urljoin Demo.lib base href;
  anchor_hrefs := fun html => if String.eqb html "P0" then ["/a"; "//["] else [];
  fromstring := fromstring Demo.lib;
  rules_can_fetch := rules_can_fetch Demo.lib;
  rules_sitemaps := rules_sitemaps Demo.lib;
  extract_main_text := extract_main_text Demo.lib;
  txt_path := txt_path Demo.lib
|}.

(** The state in which the start page is at the head of the queue. *)
Definition start_first : Frontier :=
  {| queue := ["http://h/"]; seen := ∅; count := 0 |}.

Definition pass_start :=
  loop_body lib Demo.net Demo.start_url "data/peo" 0%Q Demo.rp "h" start_first 0%nat.

(** The same pass on the site whose links all resolve. *)
Definition pass_start_ok :=
  loop_body Demo.lib Demo.net Demo.start_url "data/peo" 0%Q Demo.rp "h"
            start_first 0%nat.

(** A run on the site with the broken link, from the start page alone. *)
Definition run :=
  crawl_peo lib Demo.net 5 50 Demo.start_url "data/peo" 0%Q 20 false 0%nat.

End BrokenLink.

(** ** The small site when robots.txt is not there *)

Module RobotsDemo.

(** The demo site answering 404 for robots.txt. *)
Definition net_404 : Net nat := {|
  session_get := session_get Demo.net;
  urlopen_read := fun _ w => (HTTPError 404, S w);
  time_time := time_time Demo.net;
  utcnow_isoformat := utcnow_isoformat Demo.net;
  time_sleep_error := time_sleep_error Demo.net;
  time_sleep := time_sleep Demo.net
|}.

End RobotsDemo.

(** What line 345 asks of a discovered link [n]: not dequeued before, on
    the host of the start URL, and without an excluded extension. *)
Definition fresh_link (lib : Lib) (start_url : string) (seen : gset string)
    (n : string) : Prop :=
  (n ∉ seen) /\ same_domain lib n start_url = true /\
  looks_like_binary lib n = Ok false.

(** The record of lines 330-338 for a page, at the time [utcnow] is
    read. *)
Definition manifest_of {World} (lib : Lib) (net : Net World)
    (out_dir base_host url : string) (resp : Response) (w : World)
  : ManifestRecord :=
  let '(title, meta_desc, main_text) := extract_main_text lib (resp_text resp) in
  {| m_url := url; m_title := title; m_desc := meta_desc;
     m_path := txt_path lib (os_path_join out_dir "pages") url;
     m_crawled_at := utcnow_isoformat net w +:+ "Z"; m_host := base_host;
     m_word_count := PyStr.count_words false main_text |}.

(** Lines 343-346 as a function of the links of a page: the normalised
    links that line 345 lets into the queue, in order, and the exception
    that stops the walk, if one does.  [seen] is the seen-set of the
    pass, which does not change while links are enqueued. *)
Fixpoint links_enqueued (lib : Lib) (start_url : string) (seen : gset string)
    (links : list string) : list string * option Exn :=
  match links with
  | [] => ([], None)
  | link :: links' =>
      match normalize_url lib link with
      | Raise e => ([], Some e)
      | Ok n =>
          match qualifies lib start_url seen n with
          | Raise e => ([], Some e)
          | Ok q =>
              let '(app, stop) := links_enqueued lib start_url seen links' in
              (if q : bool then n :: app else app, stop)
          end
      end
  end.

(** The events of a saved page from link discovery on, lines 342-349,
    when the closing sleep is accepted: the appends of the links let in,
    and the sleep unless the walk over the links was stopped. *)
Definition link_events (lib : Lib) (start_url : string) (delay : Q)
    (seen : gset string) (found : Result (list string)) : list Event :=
  match found with
  | Raise _ => []
  | Ok links =>
      map EvAppend (links_enqueued lib start_url seen links).1 ++
      match (links_enqueued lib start_url seen links).2 with
      | None => [EvSleep delay]
      | Some _ => []
      end
  end.

(** ** The small site at the edges of the inputs *)

Module EdgeDemo.

(** A pass over the start page with a parser that was never read, which
    refuses every URL, at a given delay. *)
Definition pass_refused (delay : Q) :=
  loop_body Demo.lib Demo.net Demo.start_url "data/peo" delay
            new_RobotFileParser "h" BrokenLink.start_first 0%nat.

(** A run from the start page alone into a given directory. *)
Definition run_in (out_dir : string) :=
  crawl_peo Demo.lib Demo.net 5 50 Demo.start_url out_dir 0%Q 20 false 0%nat.

(** The same run at a given delay. *)
Definition run_at (delay : Q) :=
  crawl_peo Demo.lib Demo.net 5 50 Demo.start_url "data/peo" delay 20 false 0%nat.

End EdgeDemo.

(** * Properties *)

(** ** The pure helpers *)

Section HelperFacts.

Variable lib : Lib.

Lemma same_domain_parses (u root : string) :
  same_domain lib u root = true -> exists p, Urllib.urlparse lib u = Ok p.
Proof.
  unfold same_domain. destruct (Urllib.urlparse lib u) as [p|e]; [eauto|discriminate].
Qed.

Lemma same_domain_binary_ok (u root : string) :
  same_domain lib u root = true -> exists b, looks_like_binary lib u = Ok b.
Proof.
  intros [p Hp]%same_domain_parses. unfold looks_like_binary.
  rewrite Hp. simpl. eauto.
Qed.

End HelperFacts.

(** ** Traces *)

Lemma count_events_app (p : Event -> bool) (a b : list Event) :
  count_events p (a ++ b) = count_events p a + count_events p b.
Proof.
  unfold count_events. rewrite List.filter_app, length_app. lia.
Qed.

Lemma count_events_cons (p : Event -> bool) (e : Event) (a : list Event) :
  count_events p (e :: a) = (if p e then 1 else 0) + count_events p a.
Proof.
  unfold count_events. cbn. destruct (p e); cbn [length]; lia.
Qed.

Lemma count_events_nil (p : Event -> bool) : count_events p [] = 0.
Proof. reflexivity. Qed.

Lemma count_events_appends (p : Event -> bool) (l : list string) :
  (forall u, p (EvAppend u) = false) ->
  count_events p (map EvAppend l) = 0.
Proof.
  intros Hp. induction l as [|u l IH]; [reflexivity|].
  cbn [map]. rewrite count_events_cons, Hp, IH. reflexivity.
Qed.

Lemma seen_added_app (a b : list Event) :
  seen_added (a ++ b) = seen_added a ++ seen_added b.
Proof. apply omap_app. Qed.

Lemma seen_added_appends (l : list string) :
  seen_added (map EvAppend l) = [].
Proof. induction l as [|u l IH]; [reflexivity|exact IH]. Qed.

Lemma appended_app (a b : list Event) :
  appended (a ++ b) = appended a ++ appended b.
Proof. apply omap_app. Qed.

Lemma appended_appends (l : list string) :
  appended (map EvAppend l) = l.
Proof.
  induction l as [|u l IH]; [reflexivity|].
  change (u :: appended (map EvAppend l) = u :: l). by rewrite IH.
Qed.

Lemma requested_app (a b : list Event) :
  requested (a ++ b) = requested a ++ requested b.
Proof. apply omap_app. Qed.

Lemma requested_appends (l : list string) :
  requested (map EvAppend l) = [].
Proof. induction l as [|u l IH]; [reflexivity|exact IH]. Qed.

Lemma in_appends (e : Event) (l : list string) :
  In e (map EvAppend l) -> exists u, e = EvAppend u.
Proof. intros (u & <- & _)%in_map_iff. by exists u. Qed.

Lemma sorted_appends (html url : string) (l : list string) (tail : list Event) :
  tail = [] \/ (exists d, tail = [EvSleep d]) ->
  Sorted le (map stage_rank (EvExtractLinks html url :: map EvAppend l ++ tail)).
Proof.
  intros Htail. cbn [map stage_rank]. constructor.
  - induction l as [|u l IH]; cbn.
    + destruct Htail as [-> | [d ->]]; cbn; repeat constructor.
    + constructor; [exact IH|].
      destruct l; cbn; [|constructor; lia].
      destruct Htail as [-> | [d ->]]; cbn; constructor; lia.
  - destruct l; cbn; [|constructor; lia].
    destruct Htail as [-> | [d ->]]; cbn; constructor; lia.
Qed.

Lemma gaps_cons (delay : Q) (g : option Gap) (e : Event) (a : list Event) :
  gaps delay g (e :: a) = gaps delay (gap_step delay g e) a.
Proof. reflexivity. Qed.

Lemma gaps_app (delay : Q) (g : option Gap) (a b : list Event) :
  gaps delay g (a ++ b) = gaps delay (gaps delay g a) b.
Proof. apply fold_left_app. Qed.

Lemma gaps_appends (delay : Q) (g : Gap) (l : list string) :
  gaps delay (Some g) (map EvAppend l) = Some g.
Proof.
  induction l as [|u l IH]; [reflexivity|].
  cbn. destruct g; exact IH.
Qed.

#[local] Arguments normalize_url : simpl never.
#[local] Arguments same_domain : simpl never.
#[local] Arguments looks_like_binary : simpl never.
#[local] Arguments on_host : simpl never.
#[local] Arguments can_fetch : simpl never.
#[local] Arguments extract_links : simpl never.
#[local] Arguments gaps : simpl never.
#[local] Arguments os_path_join : simpl never.
#[local] Arguments os_path_dirname : simpl never.
#[local] Arguments sleep_error : simpl never.
#[local] Arguments makedirs_error : simpl never.

Ltac step_counts :=
  unfold manifests, saves in *;
  repeat (rewrite count_events_app || rewrite count_events_cons ||
          rewrite count_events_nil ||
          rewrite count_events_appends by reflexivity);
  cbn [is_save is_manifest is_sleep is_popleft].

Ltac step_gaps :=
  repeat (rewrite gaps_app || rewrite gaps_appends || rewrite gaps_cons);
  cbn; rewrite ?decide_True by reflexivity; cbn.

Lemma popped_app (a b : list Event) : popped (a ++ b) = popped a ++ popped b.
Proof. apply omap_app. Qed.
Lemma saved_urls_app (a b : list Event) :
  saved_urls (a ++ b) = saved_urls a ++ saved_urls b.
Proof. apply omap_app. Qed.
Lemma saved_numbers_app (a b : list Event) :
  saved_numbers (a ++ b) = saved_numbers a ++ saved_numbers b.
Proof. apply omap_app. Qed.
Lemma file_entries_app (a b : list Event) :
  file_entries (a ++ b) = file_entries a ++ file_entries b.
Proof. apply omap_app. Qed.
Lemma manifest_entries_app (a b : list Event) :
  manifest_entries (a ++ b) = manifest_entries a ++ manifest_entries b.
Proof. apply omap_app. Qed.
Lemma manifest_hosts_app (a b : list Event) :
  manifest_hosts (a ++ b) = manifest_hosts a ++ manifest_hosts b.
Proof. apply omap_app. Qed.

(** Appends to the queue are invisible to the other readers. *)
Lemma appends_only (l : list string) :
  popped (map EvAppend l) = [] /\ saved_urls (map EvAppend l) = [] /\
  saved_numbers (map EvAppend l) = [] /\ file_entries (map EvAppend l) = [] /\
  manifest_entries (map EvAppend l) = [] /\ manifest_hosts (map EvAppend l) = [].
Proof. induction l as [|u l IH]; [done|exact IH]. Qed.

Ltac read_trace :=
  repeat (rewrite popped_app || rewrite saved_urls_app ||
          rewrite saved_numbers_app || rewrite file_entries_app ||
          rewrite manifest_entries_app || rewrite manifest_hosts_app ||
          rewrite appended_app || rewrite requested_app ||
          rewrite seen_added_app);
  rewrite ?appended_appends, ?requested_appends, ?seen_added_appends,
    ?(proj1 (appends_only _)), ?(proj1 (proj2 (appends_only _))),
    ?(proj1 (proj2 (proj2 (appends_only _)))),
    ?(proj1 (proj2 (proj2 (proj2 (appends_only _))))),
    ?(proj1 (proj2 (proj2 (proj2 (proj2 (appends_only _)))))),
    ?(proj2 (proj2 (proj2 (proj2 (proj2 (appends_only _))))));
  cbn [popped saved_urls saved_numbers file_entries manifest_entries
       manifest_hosts appended requested seen_added omap list_omap
       Datatypes.app m_url m_path m_title m_desc m_word_count m_host].

(** ** The directories of a run *)

Section PathFacts.

Import PyStr.

Lemma path_append_cons (c : ascii) (a b : string) :
  String c a +:+ b = String c (a +:+ b).
Proof. reflexivity. Qed.

Lemma path_has_app (c : ascii) (a b : string) :
  has c (a +:+ b) = has c a || has c b.
Proof.
  induction a as [|d a IH]; [reflexivity|].
  rewrite path_append_cons. cbn [has]. rewrite IH. by destruct (ascii_eqb c d).
Qed.

Lemma path_has_take (c : ascii) (n : nat) (s : string) :
  has c s = false -> has c (take n s) = false.
Proof.
  revert n. induction s as [|d s IH]; intros [|n]; cbn [has take]; try done.
  destruct (ascii_eqb c d); [done|apply IH].
Qed.

Lemma path_has_drop (c : ascii) (n : nat) (s : string) :
  has c s = false -> has c (drop n s) = false.
Proof.
  revert n. induction s as [|d s IH]; intros [|n]; cbn [has drop]; try done.
  destruct (ascii_eqb c d); [done|apply IH].
Qed.

Lemma path_has_rev_onto (c : ascii) (s acc : string) :
  has c (rev_onto s acc) = has c s || has c acc.
Proof.
  revert acc. induction s as [|d s IH]; intros acc; [reflexivity|].
  cbn [rev_onto has]. rewrite IH. cbn [has].
  destruct (ascii_eqb c d); [by rewrite orb_true_r|reflexivity].
Qed.

Lemma path_has_lstrip (c : ascii) (p : ascii -> bool) (s : string) :
  has c s = false -> has c (lstrip_by p s) = false.
Proof.
  induction s as [|d s IH]; cbn [has lstrip_by]; [done|].
  destruct (ascii_eqb c d) eqn:Hcd; [done|]. intros Hs.
  destruct (p d); [by apply IH|]. cbn [has]. by rewrite Hcd.
Qed.

Lemma path_has_rstrip (c : ascii) (p : ascii -> bool) (s : string) :
  has c s = false -> has c (rstrip_by p s) = false.
Proof.
  intros Hs. unfold rstrip_by, rev.
  rewrite path_has_rev_onto, orb_false_r. apply path_has_lstrip.
  by rewrite path_has_rev_onto, Hs.
Qed.

Lemma path_forallb_rev_onto (p : ascii -> bool) (s acc : string) :
  forallb p (rev_onto s acc) = forallb p s && forallb p acc.
Proof.
  revert acc. induction s as [|d s IH]; intros acc; [reflexivity|].
  cbn [rev_onto forallb]. rewrite IH. cbn [forallb].
  destruct (p d); cbn; [reflexivity|]. by rewrite andb_false_r.
Qed.

Lemma path_rev_onto_empty (s acc : string) :
  rev_onto s acc = "" -> s = "" /\ acc = "".
Proof.
  revert acc. induction s as [|d s IH]; intros acc; [done|].
  cbn [rev_onto]. intros H. apply IH in H as [_ H]. discriminate.
Qed.

Lemma path_lstrip_empty (p : ascii -> bool) (s : string) :
  lstrip_by p s = "" -> forallb p s = true.
Proof.
  induction s as [|d s IH]; [done|]. cbn [lstrip_by forallb].
  destruct (p d); [exact IH|discriminate].
Qed.

Lemma path_rstrip_empty (p : ascii -> bool) (s : string) :
  rstrip_by p s = "" -> forallb p s = true.
Proof.
  unfold rstrip_by, rev. intros H.
  apply path_rev_onto_empty in H as [H _]. apply path_lstrip_empty in H.
  rewrite path_forallb_rev_onto in H. by apply andb_prop in H as [H _].
Qed.

Lemma path_rfind_none (c : ascii) (s : string) :
  rfind c s = None -> has c s = false.
Proof.
  induction s as [|d s IH]; [done|]. cbn [rfind has].
  destruct (rfind c s); [discriminate|].
  destruct (ascii_eqb c d); [discriminate|]. auto.
Qed.

Lemma path_endswith_has (c : ascii) (s : string) :
  endswith (String c "") s = true -> has c s = true.
Proof.
  unfold endswith. intros [_ H]%andb_prop. apply String.eqb_eq in H.
  destruct (has c s) eqn:Hc; [reflexivity|].
  apply (path_has_drop c (String.length s - String.length (String c ""))) in Hc.
  rewrite H in Hc. cbn [has] in Hc. unfold ascii_eqb in Hc.
  by rewrite Ascii.eqb_refl in Hc.
Qed.

Lemma path_app_empty (a b : string) : a +:+ b = "" -> a = "".
Proof. destruct a; [done|]. rewrite path_append_cons. discriminate. Qed.

(** The directory of the pages can be made unless the output directory
    holds a null character. *)
Lemma pages_dir_ok (out_dir : string) :
  makedirs_error (os_path_join out_dir "pages") =
  if has "000" out_dir then Some ValueError else None.
Proof.
  unfold makedirs_error, os_path_join.
  change (startswith "/" "pages") with false. cbv iota.
  destruct (String.eqb out_dir "" || endswith "/" out_dir).
  - destruct (String.eqb_spec (out_dir +:+ "pages") "") as [He|_].
    { pose proof (path_app_empty _ _ He) as ->. discriminate He. }
    rewrite path_has_app.
    replace (has "000" "pages") with false by reflexivity.
    by rewrite orb_false_r.
  - destruct (String.eqb_spec (out_dir +:+ "/" +:+ "pages") "") as [He|_].
    { destruct out_dir; discriminate. }
    rewrite !path_has_app.
    replace (has "000" "pages") with false by reflexivity.
    replace (has "000" "/") with false by reflexivity.
    by rewrite !orb_false_r.
Qed.

(** The directory of the manifest can be made when the output directory
    is usable; for the empty output directory it is the empty path. *)
Lemma manifest_dir_ok (out_dir : string) :
  usable_dir out_dir = true ->
  makedirs_error (os_path_dirname (os_path_join out_dir "manifest.jsonl")) = None.
Proof.
  unfold usable_dir. intros [Hne Hnul]%andb_prop.
  apply negb_true_iff in Hne, Hnul. apply String.eqb_neq in Hne.
  set (p := os_path_join out_dir "manifest.jsonl").
  assert (Hp : has "000" p = false /\ has "/" p = true).
  { unfold p, os_path_join.
    change (startswith "/" "manifest.jsonl") with false. cbv iota.
    destruct (String.eqb out_dir "" || endswith "/" out_dir) eqn:Hc.
    - rewrite !path_has_app, Hnul. split; [reflexivity|].
      apply orb_prop in Hc as [Hc|Hc]; [by apply String.eqb_eq in Hc|].
      by rewrite (path_endswith_has "/" out_dir Hc).
    - rewrite !path_has_app, Hnul. split; [reflexivity|].
      replace (has "/" "/") with true by reflexivity.
      by rewrite orb_true_r. }
  destruct Hp as [Hp0 Hps].
  unfold os_path_dirname.
  destruct (rfind "/" p) as [i|] eqn:Hr.
  2: { apply path_rfind_none in Hr. congruence. }
  set (head := take (S i) p).
  assert (Hh0 : has "000" head = false) by (by apply path_has_take).
  assert (Hhne : head <> "").
  { unfold head. destruct p; [discriminate|]. discriminate. }
  unfold makedirs_error.
  destruct (negb (String.eqb head "") && negb (forallb (Ascii.eqb "/") head)) eqn:Hc.
  - apply andb_prop in Hc as [_ Hall]. apply negb_true_iff in Hall.
    destruct (String.eqb_spec (rstrip_by (Ascii.eqb "/") head) "") as [He|_].
    { apply path_rstrip_empty in He. congruence. }
    by rewrite path_has_rstrip.
  - destruct (String.eqb_spec head "") as [He|_]; [done|]. by rewrite Hh0.
Qed.

Lemma manifest_dir_empty :
  makedirs_error (os_path_dirname (os_path_join "" "manifest.jsonl"))
    = Some FileNotFoundError.
Proof. vm_compute. reflexivity. Qed.

End PathFacts.

(** ** One pass of the loop *)

(** Run [tac] when the goal mentions [t]. *)
Ltac when_in_goal t tac := match goal with |- context [t] => tac end.

Section PassFacts.

Context {World : Type}.
Variable lib : Lib.
Variable net : Net World.
Variables (start_url out_dir : string) (delay : Q) (max_pages : Z).
Variable rp : RobotFileParser.
Variable base_host : string.

Local Abbreviation body := (loop_body lib net start_url out_dir delay rp base_host).
Local Abbreviation page := (save_page lib net start_url out_dir delay base_host).
Local Abbreviation links_in := (enqueue_links (World:=World) lib start_url).
Local Abbreviation rule := (verdict lib net start_url rp).
Local Abbreviation checks := (gate lib start_url rp).

Lemma gaps_nil (g : option Gap) : gaps delay g [] = g.
Proof. reflexivity. Qed.

Lemma sleep_accepted (w : World) :
  sleep_error net delay = None ->
  sleep net delay w = (Ok tt, time_sleep net delay w, [EvSleep delay]).
Proof. intros H. unfold sleep. by rewrite H. Qed.

Lemma sleep_refused (w : World) (e : Exn) :
  sleep_error net delay = Some e -> sleep net delay w = (Raise e, w, []).
Proof. intros H. unfold sleep. by rewrite H. Qed.

Lemma loop_body_skip (st : Frontier) (w : World) (url : string) (rest : list string) :
  sleep_error net delay = None ->
  queue st = url :: rest ->
  rule st url w <> Saved ->
  body st w =
    (Ok (skip_state (rule st url w) st url rest),
     skip_world net delay (rule st url w) url w,
     EvPopleft url :: skip_events net (rule st url w) url w ++ [EvSleep delay]).
Proof.
  intros Hsleep Hq Hv. unfold loop_body. rewrite Hq.
  unfold verdict, gate, already_seen, out_of_scope, robots_refuses,
    binary_extension, robots_denied, fetch, get, classify,
    skip_events, skip_world, skip_state in *.
  unfold mbind, M_bind, mret, M_ret, emit, sleep, print, lift, try_except.
  rewrite Hsleep.
  cbn in *.
  destruct (session_get net url w) as [[resp|e'] w1] eqn:Hget; cbn in *.
  all: destruct (bool_decide (url ∈ seen st)); cbn in *; [reflexivity|].
  all: destruct (same_domain lib url start_url) eqn:Hsd; cbn in *; [|reflexivity].
  all: destruct (same_domain_binary_ok lib _ _ Hsd) as [b Hb]; rewrite Hb in *.
  all: destruct (can_fetch lib rp USER_AGENT url) as [[|]|e]; cbn in *;
    try reflexivity.
  all: destruct b; cbn in *; try reflexivity.
  all: rewrite Hget; cbn in *; try reflexivity.
  all: destruct (status_code resp =? 200); cbn in *; try reflexivity.
  all: destruct (is_html_response resp); cbn in *; try reflexivity.
  all: congruence.
Qed.

Lemma gate_none (st : Frontier) (url : string) :
  checks st url = None <->
  (url ∉ seen st) /\ same_domain lib url start_url = true /\
  can_fetch lib rp USER_AGENT url <> Ok false /\
  looks_like_binary lib url = Ok false.
Proof.
  unfold gate, already_seen, out_of_scope, robots_refuses, binary_extension.
  cbn. case_bool_decide as Hs; cbn.
  { split; [discriminate|]. intros [? _]. contradiction. }
  destruct (same_domain lib url start_url) eqn:Hsd; cbn.
  2: { split; [discriminate|]. intros (_ & ? & _). discriminate. }
  destruct (same_domain_binary_ok lib _ _ Hsd) as [b Hb]. rewrite Hb.
  destruct (can_fetch lib rp USER_AGENT url) as [[|]|e]; cbn.
  all: destruct b; cbn.
  all: split; [try discriminate; intros _; repeat split; congruence|].
  all: intros (_ & _ & Hc & Hbin); congruence.
Qed.

Lemma loop_body_saved (st : Frontier) (w : World) (url : string) (rest : list string) :
  queue st = url :: rest ->
  rule st url w = Saved ->
  exists resp w1,
    session_get net url w = (Ok resp, w1) /\
    status_code resp = 200 /\ is_html_response resp = true /\
    checks st url = None /\
    body st w =
      (let '(r, w', t) := page url resp (add_seen (set_queue st rest) url) w1 in
       (r, w', [EvPopleft url; EvSeenAdd url; EvCanFetch USER_AGENT url; EvGet url] ++ t)).
Proof.
  intros Hq Hv. unfold verdict in Hv.
  destruct (checks st url) as [v|] eqn:Hg.
  { subst v. exfalso. revert Hg.
    unfold gate. cbn.
    repeat match goal with |- context [if ?c then _ else _] => destruct c end;
      cbn; congruence. }
  destruct (session_get net url w) as [[resp|e'] w1] eqn:Hget; cbn in Hv;
    [|discriminate].
  destruct (status_code resp =? 200) eqn:Hst; cbn in Hv; [|discriminate].
  destruct (is_html_response resp) eqn:Hh; cbn in Hv; [|discriminate].
  exists resp, w1. repeat split; auto; [lia|].
  apply gate_none in Hg as (Hs & Hsd & Hc & Hb).
  unfold loop_body. rewrite Hq.
  unfold robots_denied, fetch, get.
  unfold mbind, M_bind, mret, M_ret, emit, print, lift, try_except.
  cbn. rewrite bool_decide_eq_false_2 by exact Hs. cbn.
  rewrite Hsd. cbn.
  destruct (can_fetch lib rp USER_AGENT url) as [[|]|e]; cbn; try congruence.
  all: rewrite Hb; cbn; rewrite Hget; cbn; rewrite Hst, Hh; cbn.
  all: destruct (page url resp (add_seen (set_queue st rest) url) w1) as [[r w2] t];
    reflexivity.
Qed.


Lemma enqueue_links_filter (links : list string) (st : Frontier) (w : World) :
  exists app r,
    links_in links st w = (r, w, map EvAppend app) /\
    Forall (fresh_link lib start_url (seen st)) app /\
    (r = Ok (set_queue st (queue st ++ app)) \/ exists e, r = Raise e).
Proof.
  revert st. induction links as [|link links IH]; intros st.
  { exists [], (Ok st). cbn. repeat split; auto.
    left. destruct st; unfold set_queue; cbn. by rewrite app_nil_r. }
  cbn. unfold mbind, M_bind, mret, M_ret, emit, lift. cbn.
  destruct (normalize_url lib link) as [n|e]; cbn.
  2: { exists [], (Raise e). cbn. repeat split; eauto. }
  unfold qualifies. case_bool_decide as Hs; cbn.
  { destruct (IH st) as (app & r & -> & Hall & Hr). exists app, r. cbn. auto. }
  destruct (same_domain lib n start_url) eqn:Hsd; cbn.
  2: { destruct (IH st) as (app & r & -> & Hall & Hr). exists app, r. cbn. auto. }
  destruct (same_domain_binary_ok lib _ _ Hsd) as [b Hb]. rewrite Hb. cbn.
  destruct b; cbn.
  { destruct (IH st) as (app & r & -> & Hall & Hr). exists app, r. cbn. auto. }
  destruct (IH (set_queue st (queue st ++ [n]))) as (app & r & -> & Hall & Hr).
  exists (n :: app), r. cbn. split; [reflexivity|]. split.
  { constructor; [by repeat split|exact Hall]. }
  destruct Hr as [Hr | Hr]; [left|by right].
  rewrite Hr. unfold set_queue. cbn. by rewrite <- app_assoc.
Qed.

(** What [save_page] does, by the directories it can make: without the
    directory of the pages nothing is written; without the directory of
    the manifest the file is written and nothing else; with both, the
    page is recorded and its links are looked at. *)
Lemma save_page_cases (url : string) (resp : Response) (st : Frontier) (w : World) :
  match makedirs_error (os_path_join out_dir "pages") with
  | Some e => page url resp st w = (Raise e, w, [EvExtract (resp_text resp)])
  | None =>
      match makedirs_error
              (os_path_dirname (os_path_join out_dir "manifest.jsonl")) with
      | Some e =>
          page url resp st w =
            (Raise e, w,
             [EvExtract (resp_text resp);
              EvMakedirs (os_path_join out_dir "pages");
              EvSaveTxt (txt_path lib (os_path_join out_dir "pages") url) url
                        (extract_main_text lib (resp_text resp)).1.1
                        (extract_main_text lib (resp_text resp)).1.2
                        (extract_main_text lib (resp_text resp)).2])
      | None =>
          exists app r w' tail,
            page url resp st w =
              (r, w',
               [EvExtract (resp_text resp);
                EvMakedirs (os_path_join out_dir "pages");
                EvSaveTxt (txt_path lib (os_path_join out_dir "pages") url) url
                          (extract_main_text lib (resp_text resp)).1.1
                          (extract_main_text lib (resp_text resp)).1.2
                          (extract_main_text lib (resp_text resp)).2;
                EvMakedirs (os_path_dirname (os_path_join out_dir "manifest.jsonl"));
                EvManifest (os_path_join out_dir "manifest.jsonl")
                           (manifest_of lib net out_dir base_host url resp w);
                EvPrint (LogSaved (count st + 1) url
                                  (txt_path lib (os_path_join out_dir "pages") url));
                EvExtractLinks (resp_text resp) url]
               ++ map EvAppend app ++ tail) /\
            Forall (fresh_link lib start_url (seen st)) app /\
            ((r = Ok {| queue := queue st ++ app; seen := seen st;
                        count := count st + 1 |}
              /\ w' = time_sleep net delay w /\ tail = [EvSleep delay]
              /\ sleep_error net delay = None)
             \/ (exists e, r = Raise e /\ tail = []))
      end
  end.
Proof.
  unfold save_page, save_txt, append_manifest, utcnow, manifest_of, makedirs.
  destruct (extract_main_text lib (resp_text resp)) as [[title meta_desc] main_text].
  destruct (makedirs_error (os_path_join out_dir "pages")) as [e1|]; [reflexivity|].
  destruct (makedirs_error (os_path_dirname _)) as [e2|]; [reflexivity|].
  unfold mbind, M_bind, mret, M_ret, emit, sleep, print, lift. cbn.
  destruct (extract_links lib (resp_text resp) url) as [links|e]; cbn.
  2: { eexists [], (Raise e), w, []. cbn. split; [reflexivity|].
       split; [constructor|]. right. eauto. }
  destruct (enqueue_links_filter links (incr_count st) w) as (app & r & -> & Hall & Hr).
  destruct Hr as [-> | [e ->]]; cbn.
  - destruct (sleep_error net delay) as [es|] eqn:Hsl.
    + eexists app, (Raise es), _, []. rewrite app_nil_r.
      split; [reflexivity|]. split; [exact Hall|]. right. eauto.
    + eexists app, _, _, [EvSleep delay]. split; [reflexivity|].
      split; [exact Hall|]. left. repeat split; auto.
  - eexists app, (Raise e), w, []. rewrite app_nil_r.
    split; [reflexivity|]. split; [exact Hall|]. right. eauto.
Qed.


(** What the counting arguments need to know of [save_page]. *)
Lemma save_page_counts (url : string) (resp : Response) (st : Frontier) (w : World) :
  exists r w' tr,
    page url resp st w = (r, w', tr) /\
    count_events is_popleft tr = 0 /\
    count_events is_extract tr = 1 /\
    0 <= manifests tr /\ manifests tr <= saves tr /\ saves tr <= 1 /\
    count_events is_sleep tr = (if is_ok r then 1 else 0) /\
    gaps delay (Some (Since 0)) tr = Some (Since (if is_ok r then 1 else 0)) /\
    seen_added tr = [] /\
    (usable_dir out_dir = true -> saves tr = 1 /\ manifests tr = 1) /\
    (forall st',
       r = Ok st' ->
       saves tr = 1 /\ manifests tr = 1 /\ sleep_error net delay = None /\
       seen st' = seen st /\ count st' = count st + 1).
Proof.
  pose proof (save_page_cases url resp st w) as Hcases.
  pose proof (pages_dir_ok out_dir) as Hpages.
  pose proof (manifest_dir_ok out_dir) as Hmdir.
  destruct (makedirs_error (os_path_join out_dir "pages")) as [e1|].
  { rewrite Hcases. eexists _, _, _. split; [reflexivity|].
    step_counts. cbn [is_extract]. rewrite gaps_cons. cbn.
    split_and!; try lia; try reflexivity; try discriminate.
    intros Hu. unfold usable_dir in Hu. apply andb_prop in Hu as [_ Hu].
    apply negb_true_iff in Hu. rewrite Hu in Hpages. discriminate. }
  destruct (makedirs_error (os_path_dirname _)) as [e2|].
  { rewrite Hcases. eexists _, _, _. split; [reflexivity|].
    step_counts. cbn [is_extract]. rewrite !gaps_cons. cbn.
    split_and!; try lia; try reflexivity; try discriminate.
    intros Hu. specialize (Hmdir Hu). discriminate. }
  destruct Hcases as (app & r & w' & tail & -> & _ & Hr).
  eexists _, _, _. split; [reflexivity|].
  rewrite !seen_added_app, seen_added_appends.
  destruct Hr as [(-> & -> & -> & Hsl)|(e & -> & ->)]; step_counts;
    cbn [is_extract is_ok].
  all: split_and!; try lia; try reflexivity; try discriminate.
  all: try (intros _; split; lia).
  all: try (intros st' [= <-]; cbn; split_and!; try lia; done).
  all: repeat step_gaps.
  all: rewrite ?gaps_nil, ?gaps_appends, ?gaps_cons, ?gaps_nil; cbn.
  all: rewrite ?decide_True by reflexivity; reflexivity.
Qed.


(** What the loop-level arguments need to know of one pass, whatever the
    delay and the output directory are. *)
Lemma loop_body_summary (st : Frontier) (w : World) (url : string) (rest : list string) :
  queue st = url :: rest ->
  exists r w' tr,
    body st w = (r, w', tr) /\
    0 <= manifests tr /\ manifests tr <= saves tr /\ saves tr <= 1 /\
    seen_added tr = (if bool_decide (url ∈ seen st) then [] else [url]) /\
    (forall g, g = BeforeFirst \/ g = Since 1 ->
       gaps delay (Some g) tr = Some (Since (if is_ok r then 1 else 0))) /\
    count_events is_popleft tr = 1 /\
    count_events is_sleep tr = (if is_ok r then 1 else 0) /\
    (usable_dir out_dir = true -> manifests tr = saves tr) /\
    (sleep_error net delay <> None -> is_ok r = false) /\
    (forall st', r = Ok st' ->
       manifests tr = saves tr /\
       sleep_error net delay = None /\
       count st' = count st + saves tr /\
       seen st' = list_to_set (seen_added tr) ∪ seen st /\
       (saves tr = 0 -> queue st' = rest)).
Proof.
  intros Hq. unfold loop_body. rewrite Hq.
  unfold robots_denied, fetch, get.
  unfold mbind, M_bind, mret, M_ret, emit, sleep, print, lift, try_except.
  destruct (sleep_error net delay) as [es|] eqn:Hsl; cbn.
  all: case_bool_decide as Hs; cbn.
  all: try destruct (same_domain lib url start_url) eqn:Hsd; cbn.
  all: try (destruct (same_domain_binary_ok lib _ _ Hsd) as [b Hb]; rewrite Hb).
  all: try destruct (can_fetch lib rp USER_AGENT url) as [[|]|e]; cbn.
  all: try destruct b; cbn.
  all: try destruct (session_get net url w) as [[resp|e'] w1]; cbn.
  all: try destruct (status_code resp =? 200); cbn.
  all: try destruct (is_html_response resp); cbn.
  all: try (destruct (save_page_counts url resp (add_seen (set_queue st rest) url) w1)
              as (r & w2 & t & -> & Hp0 & _ & Hm0 & Hms & Hs1 & Hsl' & Hg & Hsa
                  & Hu & Hok); cbn).
  all: eexists _, _, _; (split; [reflexivity|]).
  all: unfold seen_added in *; cbn [omap list_omap Datatypes.app]; rewrite ?Hsa.
  all: step_counts; cbn [is_ok].
  all: split_and!; try lia; try reflexivity; try discriminate; try congruence.
  all: try (intros g [-> | ->]; repeat step_gaps;
            rewrite ?gaps_nil, ?Hg, ?gaps_nil; reflexivity).
  all: try (intros _; by destruct r).
  all: try (intros _; apply Hu in H; lia).
  all: try (intros Hu'; apply Hu in Hu'; lia).
  all: try (intros st' Heq; injection Heq; intros <-; cbn; split_and!;
            try lia; try reflexivity;
            by rewrite ?(right_id_L ∅ (∪)), ?(left_id_L ∅ (∪))).
  all: try (intros _; destruct r as [st'|]; [|reflexivity];
            destruct (Hok st' eq_refl) as (_ & _ & Hn & _); congruence).
  all: intros st' ->; destruct (Hok st' eq_refl) as (H1 & H2 & H3 & H4 & H5).
  all: cbn [add_seen set_queue seen count] in H4, H5.
  all: split_and!;
    [lia|congruence|lia
    |rewrite H4; cbn [list_to_set foldr]; by rewrite (right_id_L ∅ (∪))
    |intros; lia].
Qed.


Lemma usable_dir_pages :
  usable_dir out_dir = true ->
  makedirs_error (os_path_join out_dir "pages") = None.
Proof.
  intros [_ Hu]%andb_prop. apply negb_true_iff in Hu.
  by rewrite pages_dir_ok, Hu.
Qed.

(** [save_page], as the readers of traces see it. *)
Lemma save_page_reads (url : string) (resp : Response) (st : Frontier) (w : World) :
  exists r w' tr,
    page url resp st w = (r, w', tr) /\
    popped tr = [] /\ requested tr = [] /\
    Forall (fresh_link lib start_url (seen st)) (appended tr) /\
    ((saved_urls tr = [] /\ file_entries tr = [] /\ manifest_entries tr = [] /\
      manifest_hosts tr = [] /\ saved_numbers tr = [] /\ appended tr = [] /\
      is_ok r = false /\ usable_dir out_dir = false)
     \/
     (saved_urls tr = [url] /\
      exists entry,
        file_entries tr = [entry] /\
        ((manifest_entries tr = [entry] /\ manifest_hosts tr = [base_host] /\
          saved_numbers tr = [count st + 1])
         \/
         (manifest_entries tr = [] /\ manifest_hosts tr = [] /\
          saved_numbers tr = [] /\ appended tr = [] /\
          is_ok r = false /\ usable_dir out_dir = false)))) /\
    (forall st',
       r = Ok st' ->
       queue st' = queue st ++ appended tr /\ seen st' = seen st /\
       count st' = count st + 1 /\ saved_urls tr = [url] /\
       sleep_error net delay = None).
Proof.
  pose proof (save_page_cases url resp st w) as Hcases.
  pose proof usable_dir_pages as Hpages.
  pose proof (manifest_dir_ok out_dir) as Hmdir.
  assert (Hunusable : forall (p : option Exn) (e : Exn), (usable_dir out_dir = true -> p = None) ->
                                  p = Some e -> usable_dir out_dir = false).
  { intros p e Hp He. destruct (usable_dir out_dir); [|reflexivity].
    rewrite Hp in He by reflexivity. discriminate. }
  destruct (makedirs_error (os_path_join out_dir "pages")) as [e1|] eqn:H1.
  { rewrite Hcases. eexists _, _, _. split; [reflexivity|]. read_trace.
    split_and!; [reflexivity|reflexivity|constructor| |discriminate].
    left. split_and!; try reflexivity. exact (Hunusable _ _ Hpages eq_refl). }
  destruct (makedirs_error (os_path_dirname _)) as [e2|] eqn:H2.
  { rewrite Hcases. eexists _, _, _. split; [reflexivity|]. read_trace.
    split_and!; [reflexivity|reflexivity|constructor| |discriminate].
    right. split; [reflexivity|]. eexists. split; [reflexivity|].
    right. split_and!; try reflexivity. exact (Hunusable _ _ Hmdir eq_refl). }
  destruct Hcases as (app & r & w' & tail & -> & Hall & Hr).
  eexists _, _, _. split; [reflexivity|].
  unfold manifest_of.
  destruct (extract_main_text lib (resp_text resp)) as [[title meta_desc] main_text].
  destruct Hr as [(-> & -> & -> & Hsl)|(e & -> & ->)]; read_trace;
    rewrite ?app_nil_r.
  all: split_and!; [reflexivity|reflexivity|exact Hall| |].
  all: try (right; split; [reflexivity|]; eexists; split; [reflexivity|];
            left; by split_and!).
  - intros st' [= <-]. by split_and!.
  - discriminate.
Qed.


(** One pass, as the readers of traces see it.  The request, when one is
    made, is for the dequeued URL, which is new, in scope and not binary;
    that robots.txt allows it is known when the sleep is accepted. *)
Lemma loop_body_facts (st : Frontier) (w : World) (url : string) (rest : list string) :
  queue st = url :: rest ->
  exists r w' tr,
    body st w = (r, w', tr) /\
    popped tr = [url] /\
    (requested tr = [] \/
     (requested tr = [url] /\ fresh_link lib start_url (seen st) url /\
      (sleep_error net delay = None -> checks st url = None))) /\
    ((saved_urls tr = [] /\ file_entries tr = [] /\ manifest_entries tr = [] /\
      manifest_hosts tr = [] /\ saved_numbers tr = [] /\ appended tr = [] /\
      (sleep_error net delay = None -> usable_dir out_dir = true -> is_ok r = true))
     \/
     (saved_urls tr = [url] /\ requested tr = [url] /\
      fresh_link lib start_url (seen st) url /\
      (sleep_error net delay = None -> checks st url = None) /\
      (exists entry,
         file_entries tr = [entry] /\
         ((manifest_entries tr = [entry] /\ manifest_hosts tr = [base_host] /\
           saved_numbers tr = [count st + 1])
          \/
          (manifest_entries tr = [] /\ manifest_hosts tr = [] /\
           saved_numbers tr = [] /\ appended tr = [] /\
           is_ok r = false /\ usable_dir out_dir = false))) /\
      Forall (fresh_link lib start_url ({[url]} ∪ seen st)) (appended tr))) /\
    (forall st', r = Ok st' ->
       sleep_error net delay = None /\
       queue st' = rest ++ appended tr /\
       count st' = count st + Z.of_nat (length (saved_urls tr)) /\
       seen st' = if bool_decide (url ∈ seen st) then seen st
                  else {[url]} ∪ seen st).
Proof.
  intros Hq. unfold loop_body. rewrite Hq.
  pose proof (gate_none st url) as Hgate.
  remember (checks st url) as g eqn:Hg. clear Hg.
  unfold robots_denied, fetch, get.
  unfold mbind, M_bind, mret, M_ret, emit, sleep, print, lift, try_except.
  destruct (sleep_error net delay) as [es|] eqn:Hsl; cbn.
  all: case_bool_decide as Hs; cbn.
  all: try (when_in_goal (same_domain lib url start_url)
              ltac:(destruct (same_domain lib url start_url) eqn:Hsd; cbn)).
  all: try (when_in_goal (looks_like_binary lib url)
              ltac:(destruct (same_domain_binary_ok lib _ _ Hsd) as [b Hb];
                    rewrite Hb in * )).
  all: try (when_in_goal (can_fetch lib rp USER_AGENT url)
              ltac:(destruct (can_fetch lib rp USER_AGENT url) as [[|]|e] eqn:Hcf;
                    cbn)).
  all: try (destruct b; cbn).
  all: try (when_in_goal (session_get net url w)
              ltac:(destruct (session_get net url w) as [[resp|e'] w1]; cbn)).
  all: try (when_in_goal (status_code resp =? 200)
              ltac:(destruct (status_code resp =? 200); cbn)).
  all: try (when_in_goal (is_html_response resp)
              ltac:(destruct (is_html_response resp); cbn)).
  all: try (when_in_goal (page url resp)
              ltac:(destruct (save_page_reads url resp
                                (add_seen (set_queue st rest) url) w1)
                      as (r & w2 & t & -> & Hp0 & Hr0 & Hall & Hcases & Hok);
                    cbn)).
  all: eexists _, _, _; (split; [reflexivity|]).
  all: try (destruct Hcases as
              [(Hsu & Hfe & Hme & Hmh & Hsn & Hap & Hnok & Hunu)
              |(Hsu & entry & Hfe &
                [(Hme & Hmh & Hsn)|(Hme & Hmh & Hsn & Hap & Hnok & Hunu)])]).
  all: unfold popped, requested, saved_urls, file_entries, manifest_entries,
         manifest_hosts, saved_numbers, appended in *;
       cbn [omap list_omap Datatypes.app].
  all: rewrite ?Hp0, ?Hr0, ?Hsu, ?Hfe, ?Hme, ?Hmh, ?Hsn, ?Hap.
  all: split; [reflexivity|].
  all: try (assert (Hg : sleep_error net delay = None -> g = None)
              by (rewrite Hsl; intros Hn; first [discriminate Hn
                    | apply Hgate; split_and!; [done|done|congruence|done]]);
            rewrite Hsl in Hg).
  all: unfold fresh_link.
  all: split; [first [by left | right; by split_and!]|].
  all: split;
    [first [ left; split_and!; try reflexivity;
             intros Hn Hu; first [discriminate Hn | reflexivity | congruence]
           | right; split_and!;
             first [ reflexivity | assumption
                   | exists entry; split; [reflexivity|];
                     first [left; by split_and! | right; by split_and!]
                   | exact Hall | constructor ] ]|].
  all: intros st' Heq.
  all: try discriminate Heq.
  all: try (injection Heq as <-; cbn; rewrite ?app_nil_r;
            split_and!; first [reflexivity | lia]).
  all: try (rewrite Heq in Hnok; discriminate Hnok).
  all: destruct (Hok st' Heq) as (H1 & H2 & H3 & H4 & H5).
  all: try (rewrite Hsl in H5; discriminate H5).
  all: try (rewrite H4 in Hsu; discriminate Hsu).
  all: cbn [add_seen set_queue seen count queue] in H1, H2, H3.
  all: cbn [length]; split_and!; [reflexivity|exact H1|lia|exact H2].
Qed.

End PassFacts.

(** ** The loop *)

Section LoopFacts.

Context {World : Type}.
Variable lib : Lib.
Variable net : Net World.
Variables (start_url out_dir : string) (delay : Q) (max_pages : Z).
Variable rp : RobotFileParser.
Variable base_host : string.

Local Abbreviation body := (loop_body lib net start_url out_dir delay rp base_host).
Local Abbreviation loop :=
  (crawl_loop lib net start_url out_dir delay max_pages rp base_host).
Local Abbreviation cond := (loop_cond max_pages).

Lemma loop_cond_true (st : Frontier) :
  cond st = true ->
  (exists url rest, queue st = url :: rest) /\ count st < max_pages.
Proof.
  unfold loop_cond. intros [Hq Hc]%andb_prop. split; [|lia].
  destruct (queue st) as [|url rest]; [discriminate|eauto].
Qed.

Lemma loop_cond_false (st : Frontier) :
  cond st = false <-> queue st = [] \/ max_pages <= count st.
Proof.
  unfold loop_cond. rewrite andb_false_iff, negb_false_iff, bool_decide_eq_true.
  rewrite Z.ltb_ge. tauto.
Qed.

Lemma crawl_loop_unfold (fuel : nat) (st : Frontier) :
  loop fuel st =
  if cond st then
    match fuel with
    | O => mret None
    | S fuel' => st' ← body st; loop fuel' st'
    end
  else mret (Some st).
Proof. destruct fuel; reflexivity. Qed.

(** An invariant [I] of the local state and the trace so far, kept by
    every pass, gives a property [Q] of the trace of the whole loop,
    however the loop ends. *)
Lemma crawl_loop_invariant
    (I : Frontier -> list Event -> Prop) (Q : list Event -> Prop) :
  (forall st tr0, I st tr0 -> Q tr0) ->
  (forall st tr0 w r w' tr,
     I st tr0 -> cond st = true -> body st w = (r, w', tr) ->
     match r with
     | Ok st' => I st' (tr0 ++ tr)
     | Raise _ => Q (tr0 ++ tr)
     end) ->
  forall fuel st w tr0,
    I st tr0 ->
    Q (tr0 ++ trace_of (loop fuel st w)) /\
    (forall st', result_of (loop fuel st w) = Ok (Some st') ->
       I st' (tr0 ++ trace_of (loop fuel st w)) /\ cond st' = false).
Proof.
  intros HQ Hstep. induction fuel as [|fuel IH]; intros st w tr0 HI.
  all: rewrite crawl_loop_unfold; destruct (cond st) eqn:Hc.
  all: unfold trace_of, result_of; cbn.
  all: rewrite ?app_nil_r.
  - split; [eauto|discriminate].
  - split; [eauto|]. intros st' [= <-]. auto.
  - unfold mbind, M_bind.
    destruct (body st w) as [[r w'] tr] eqn:Hb.
    specialize (Hstep st tr0 w r w' tr HI Hc Hb).
    destruct r as [st1|e]; cbn.
    + destruct (IH st1 w' (tr0 ++ tr) Hstep) as [HQ' Hfin].
      unfold trace_of, result_of in *.
      destruct (loop fuel st1 w') as [[r2 w2] t2]; cbn in *.
      rewrite app_assoc. auto.
    + split; [exact Hstep|discriminate].
  - split; [eauto|]. intros st' [= <-]. auto.
Qed.

(** The loop ends: every pass either saves a page, of which at most
    [max_pages] can be saved, or leaves the queue one element shorter. *)
Lemma crawl_loop_terminates (st : Frontier) (w : World) :
  exists fuel, result_of (loop fuel st w) <> Ok None.
Proof.
  remember (Z.to_nat (max_pages - count st)) as n eqn:Hn.
  assert (Hle : (Z.to_nat (max_pages - count st) <= n)%nat) by lia. clear Hn.
  revert st w Hle. induction n as [|n IHn].
  { intros st w Hle. exists O. rewrite crawl_loop_unfold.
    destruct (cond st) eqn:Hc; [|discriminate].
    apply loop_cond_true in Hc as [_ Hc]. lia. }
  intros st. remember (length (queue st)) as k eqn:Hk.
  assert (Hlk : (length (queue st) <= k)%nat) by lia. clear Hk.
  revert st Hlk. induction k as [|k IHk]; intros st Hlk w Hle.
  { exists O. rewrite crawl_loop_unfold.
    destruct (cond st) eqn:Hc; [|discriminate].
    apply loop_cond_true in Hc as [(url & rest & Hq) _].
    rewrite Hq in Hlk. cbn in Hlk. lia. }
  destruct (cond st) eqn:Hc.
  2: { exists O. rewrite crawl_loop_unfold, Hc. discriminate. }
  pose proof Hc as Hc'. apply loop_cond_true in Hc' as [(url & rest & Hq) Hcount].
  destruct (loop_body_summary lib net start_url out_dir delay rp base_host
              st w url rest Hq)
    as (r & w' & tr & Hb & Hm0 & Hms & Hs1 & _ & _ & _ & _ & _ & _ & Hok).
  destruct r as [st'|e].
  2: { exists 1%nat. rewrite crawl_loop_unfold, Hc. unfold mbind, M_bind.
       rewrite Hb. discriminate. }
  destruct (Hok st' eq_refl) as (_ & _ & Hcnt & _ & Hqueue).
  assert (Hcase : saves tr = 0 \/ saves tr = 1) by lia.
  destruct Hcase as [H0|H1].
  - destruct (IHk st') with (w := w') as [fuel Hfuel].
    { rewrite (Hqueue H0). rewrite Hq in Hlk. cbn in Hlk. lia. }
    { lia. }
    exists (S fuel). rewrite crawl_loop_unfold, Hc. unfold mbind, M_bind.
    rewrite Hb. unfold result_of in *.
    destruct (loop fuel st' w') as [[r2 w2] t2]. exact Hfuel.
  - destruct (IHn st' w') as [fuel Hfuel]; [lia|].
    exists (S fuel). rewrite crawl_loop_unfold, Hc. unfold mbind, M_bind.
    rewrite Hb. unfold result_of in *.
    destruct (loop fuel st' w') as [[r2 w2] t2]. exact Hfuel.
Qed.

End LoopFacts.

(** ** Before the loop *)

Lemma setup_trace_facts (delay : Q) (tr : list Event) :
  Forall (fun e => is_setup e = true) tr ->
  saves tr = 0 /\ manifests tr = 0 /\ seen_added tr = [] /\
  gaps delay (Some BeforeFirst) tr = Some BeforeFirst.
Proof.
  induction 1 as [|e tr He _ (IH1 & IH2 & IH3 & IH4)]; [by repeat split|].
  unfold saves, manifests in *. rewrite !count_events_cons, gaps_cons.
  destruct e as [| | | | | | | | | | | |[]]; try discriminate; cbn; auto.
Qed.

Section SetupFacts.

Context {World : Type}.
Variable lib : Lib.
Variable net : Net World.

Lemma bind_run {A B} (m : M World A) (f : A -> M World B) (w : World) :
  (m ≫= f) w =
  match m w with
  | (Ok a, w1, t1) => let '(r, w2, t2) := f a w1 in (r, w2, t1 ++ t2)
  | (Raise e, w1, t1) => (Raise e, w1, t1)
  end.
Proof. reflexivity. Qed.

Lemma for_each_ok {A B} (P : Event -> Prop) (f : A -> M World B)
    (l : list A) (w : World) :
  (forall a w, exists b w' tr, f a w = (Ok b, w', tr) /\ Forall P tr) ->
  exists bs w' tr, for_each f l w = (Ok bs, w', tr) /\ Forall P tr.
Proof.
  intros Hf. revert w. induction l as [|a l IH]; intros w.
  { exists [], w, []. split; [reflexivity|constructor]. }
  cbn. unfold mbind, M_bind, mret, M_ret.
  destruct (Hf a w) as (b & w1 & t1 & -> & Ht1).
  destruct (IH w1) as (bs & w2 & t2 & -> & Ht2).
  eexists _, _, _. split; [reflexivity|].
  rewrite app_nil_r. by apply Forall_app.
Qed.

Lemma parse_sitemap_ok (depth : nat) (url : string) (w : World) :
  exists urls w' tr,
    parse_sitemap lib net depth url w = (Ok urls, w', tr) /\ Forall is_get tr.
Proof.
  revert url w. induction depth as [|depth IH]; intros url w.
  { exists [], w, []. split; [reflexivity|constructor]. }
  cbn. unfold try_except, mbind, M_bind, mret, M_ret, lift, get. cbn.
  assert (Hget : is_get (EvGet url)) by (by exists url).
  destruct (session_get net url w) as [[r|e] w1]; cbn.
  2: { eexists _, _, _. split; [reflexivity|]. by repeat constructor. }
  destruct (negb (status_code r =? 200) || _); cbn.
  { eexists _, _, _. split; [reflexivity|]. by repeat constructor. }
  destruct (fromstring lib (content r)) as [root|e]; cbn.
  2: { eexists _, _, _. split; [reflexivity|]. by repeat constructor. }
  destruct (PyStr.endswith "sitemapindex" _); cbn.
  { destruct (for_each_ok is_get (parse_sitemap lib net depth)
                (loc_texts (findall root "sitemap" "loc")) w1 IH)
      as (urlss & w2 & t2 & -> & Ht2).
    eexists _, _, _. split; [reflexivity|].
    rewrite app_nil_r. by constructor. }
  destruct (PyStr.endswith "urlset" _); cbn.
  all: eexists _, _, _; (split; [reflexivity|]); by repeat constructor.
Qed.

Lemma gets_are_setup (tr : list Event) :
  Forall is_get tr ->
  Forall (fun e => is_setup e = true) tr /\ appended tr = [].
Proof.
  induction 1 as [|e tr [u ->] _ [IH1 IH2]]; [by split|].
  split; [by constructor|exact IH2].
Qed.

End SetupFacts.

Section SeedFacts.

Context {World : Type}.
Variable lib : Lib.
Variable net : Net World.
Variable start_url : string.
Variable rp : RobotFileParser.

Local Abbreviation scoped := (on_host lib start_url).

Lemma seeds_of_app (a b : list string) :
  seeds_of lib (a ++ b) =
  (xs ← seeds_of lib a; ys ← seeds_of lib b; Ok (xs ++ ys)).
Proof.
  induction a as [|u a IH]; cbn.
  { destruct (seeds_of lib b); reflexivity. }
  destruct (normalize_url lib u) as [n|e]; cbn; [|reflexivity].
  destruct (looks_like_binary lib n) as [bin|e]; cbn; [|reflexivity].
  rewrite IH. destruct (seeds_of lib a) as [xs|e]; cbn; [|reflexivity].
  destruct (seeds_of lib b) as [ys|e]; cbn; [|reflexivity].
  destruct bin; reflexivity.
Qed.

Lemma append_seeds_spec (urls queue : list string) (w : World) :
  exists ns r,
    append_seeds (World:=World) lib urls queue w = (r, w, map EvAppend ns) /\
    match seeds_of lib urls with
    | Ok ns' => ns' = ns /\ r = Ok (queue ++ ns)
    | Raise e => r = Raise e
    end.
Proof.
  revert queue. induction urls as [|u urls IH]; intros queue.
  { exists [], (Ok queue). cbn. by rewrite app_nil_r. }
  cbn. unfold mbind, M_bind, Result_bind, lift, emit. cbn.
  destruct (normalize_url lib u) as [n|e]; cbn.
  2: { by exists [], (Raise e). }
  destruct (looks_like_binary lib n) as [bin|e]; cbn.
  2: { by exists [], (Raise e). }
  destruct bin; cbn.
  - destruct (IH queue) as (ns & r & -> & Hr). exists ns, r.
    split; [reflexivity|].
    destruct (seeds_of lib urls) as [ns'|e]; cbn; auto.
  - destruct (IH (queue ++ [n])) as (ns & r & -> & Hr). exists (n :: ns), r.
    split; [reflexivity|].
    destruct (seeds_of lib urls) as [ns'|e]; cbn; auto.
    destruct Hr as [-> ->]. by rewrite <- app_assoc.
Qed.

Lemma setup_appends (ns : list string) :
  Forall (fun e => is_setup e = true) (map EvAppend ns).
Proof. induction ns; by constructor. Qed.

Lemma seed_sitemaps_spec (depth : nat) (sitemaps queue : list string)
    (seeded : bool) (w : World) :
  exists urlss w1 tr1 r w' tr,
    for_each (parse_sitemap lib net depth) sitemaps w = (Ok urlss, w1, tr1) /\
    seed_sitemaps lib net start_url depth sitemaps queue seeded w = (r, w', tr) /\
    Forall (fun e => is_setup e = true) tr /\
    match seeds_of lib (concat (map scoped urlss)) with
    | Ok ns =>
        r = Ok (queue ++ ns, seeded || existsb nonempty (map scoped urlss)) /\
        appended tr = ns
    | Raise e => r = Raise e
    end.
Proof.
  revert queue seeded w.
  induction sitemaps as [|sm sitemaps IH]; intros queue seeded w.
  { exists [], w, [], (Ok (queue, seeded)), w, []. cbn.
    rewrite app_nil_r, orb_false_r. repeat split; constructor. }
  cbn [seed_sitemaps for_each]. rewrite !bind_run.
  destruct (parse_sitemap_ok lib net depth sm w) as (urls & w1 & t1 & -> & Ht1).
  apply gets_are_setup in Ht1 as [Ht1 Hno].
  cbv beta iota. fold (on_host lib start_url urls).
  destruct (scoped urls) as [|u0 us] eqn:Hsc.
  - destruct (IH queue seeded w1)
      as (urlss & w2 & t2 & r & w' & tr & Hfe & -> & Htr & Hr).
    rewrite bind_run, Hfe. cbn.
    eexists _, _, _, _, _, _. split; [reflexivity|]. split; [reflexivity|].
    split; [by apply Forall_app|].
    cbn. rewrite Hsc. cbn.
    destruct (seeds_of lib (concat (map scoped urlss))) as [ns|e]; [|exact Hr].
    destruct Hr as [-> Happ]. split; [reflexivity|].
    by rewrite appended_app, Happ, Hno.
  - rewrite <- Hsc. rewrite bind_run.
    match goal with |- context [(append_seeds ?l ?u ?q ≫= ?f) ?w] =>
      rewrite (bind_run (append_seeds l u q) f w) end.
    destruct (append_seeds_spec (scoped urls) queue w1) as (ns1 & r1 & -> & Hr1).
    destruct (seeds_of lib (scoped urls)) as [ns1'|e1] eqn:Hs1.
    + destruct Hr1 as [-> ->].
      destruct (IH (queue ++ ns1) true w1)
        as (urlss & w2 & t2 & r & w' & tr & Hfe & -> & Htr & Hr).
      rewrite Hfe. cbv beta iota. unfold mret, M_ret. cbv beta iota.
      eexists _, _, _, _, _, _. split; [reflexivity|]. split; [reflexivity|].
      split; [rewrite !Forall_app; split_and!; auto using setup_appends|].
      cbn [map concat existsb]. rewrite seeds_of_app, Hs1.
      assert (Hne : nonempty (scoped urls) = true) by (by rewrite Hsc).
      rewrite Hne. cbn [nonempty orb mbind Result_bind].
      destruct (seeds_of lib (concat (map scoped urlss))) as [ns|e];
        [|exact Hr].
      destruct Hr as [-> Happ]. rewrite !orb_true_r, <- app_assoc.
      split; [reflexivity|].
      by rewrite !appended_app, appended_appends, Happ, Hno.
    + subst r1.
      destruct (for_each_ok is_get (parse_sitemap lib net depth) sitemaps w1
                  (parse_sitemap_ok lib net depth))
        as (urlss & w2 & t2 & Hfe & _).
      rewrite Hfe. cbv beta iota. unfold mret, M_ret. cbv beta iota.
      eexists _, _, _, _, _, _. split; [reflexivity|]. split; [reflexivity|].
      split; [rewrite !Forall_app; split_and!; auto using setup_appends|].
      cbn [map concat]. rewrite seeds_of_app, Hs1. reflexivity.
Qed.

Lemma concat_none_nonempty (found : list (list string)) :
  existsb nonempty found = false -> concat found = [].
Proof.
  induction found as [|l found IH]; [reflexivity|].
  cbn. destruct l; cbn; [exact IH|discriminate].
Qed.

Lemma seed_queue_sitemap (depth : nat) (sitemaps : list string) (w : World) :
  discover_sitemaps lib rp start_url = Ok sitemaps ->
  exists urlss w1 tr1 r w' tr,
    for_each (parse_sitemap lib net depth) sitemaps w = (Ok urlss, w1, tr1) /\
    seed_queue lib net start_url rp depth true w = (r, w', tr) /\
    Forall (fun e => is_setup e = true) tr /\
    r = seeded_queue lib start_url urlss /\
    (forall q, r = Ok q -> appended tr = q).
Proof.
  intros Hd. unfold seed_queue. rewrite Hd.
  rewrite bind_run. cbn [lift]. cbv beta iota. rewrite bind_run.
  destruct (seed_sitemaps_spec depth sitemaps [] false w)
    as (urlss & w1 & tr1 & r0 & w' & tr & Hfe & -> & Htr & Hr).
  exists urlss, w1, tr1. unfold seeded_queue.
  destruct (existsb nonempty (map scoped urlss)) eqn:Hex.
  - destruct (seeds_of lib (concat (map scoped urlss))) as [ns|e].
    + destruct Hr as [-> Happ]. cbn. unfold mret, M_ret.
      eexists _, _, _. split; [exact Hfe|]. split; [reflexivity|].
      rewrite app_nil_r. split; [exact Htr|]. split; [reflexivity|].
      intros q [= <-]. exact Happ.
    + subst r0. cbn.
      eexists _, _, _. split; [exact Hfe|]. split; [reflexivity|].
      split; [exact Htr|]. split; [reflexivity|discriminate].
  - rewrite (concat_none_nonempty _ Hex) in Hr. cbn in Hr.
    destruct Hr as [-> Happ]. cbn. rewrite bind_run. cbn [lift].
    destruct (normalize_url lib start_url) as [n|e]; cbn.
    + eexists _, _, _. split; [exact Hfe|]. split; [reflexivity|].
      split; [rewrite !Forall_app; split_and!; auto; by repeat constructor|].
      split; [reflexivity|].
      intros q [= <-]. rewrite !appended_app, Happ. reflexivity.
    + eexists _, _, _. split; [exact Hfe|]. split; [reflexivity|].
      rewrite app_nil_r. split; [exact Htr|]. split; [reflexivity|discriminate].
Qed.

Lemma seed_queue_setup (depth : nat) (use_sitemap : bool) (w : World) :
  Forall (fun e => is_setup e = true)
         (trace_of (seed_queue lib net start_url rp depth use_sitemap w)).
Proof.
  destruct use_sitemap.
  - destruct (discover_sitemaps lib rp start_url) as [sitemaps|e] eqn:Hd.
    + destruct (seed_queue_sitemap depth sitemaps w Hd)
        as (? & ? & ? & r & w' & tr & _ & -> & Htr & _). exact Htr.
    + unfold seed_queue. rewrite Hd. constructor.
  - unfold seed_queue. rewrite bind_run. cbn [lift].
    destruct (normalize_url lib start_url) as [n|e]; cbn;
      by repeat constructor.
Qed.

Lemma load_robots_setup (w : World) :
  Forall (fun e => is_setup e = true) (trace_of (load_robots lib net start_url w)).
Proof.
  unfold load_robots. rewrite bind_run. cbn [lift].
  destruct (Urllib.urlparse lib start_url) as [parsed|e]; [|constructor].
  cbv beta iota. rewrite bind_run. cbn [lift].
  destruct (set_url lib new_RobotFileParser _) as [rp0|e]; [|constructor].
  cbv beta iota. unfold try_except, read.
  destruct (urlopen_read net (rp_url rp0) w) as [[code|e|lines] w1]; cbn;
    by repeat constructor.
Qed.

End SeedFacts.

(** ** The whole run *)

Lemma report_trace_facts (delay : Q) (g : option Gap) (tr : list Event) :
  Forall (fun e => is_report e = true) tr ->
  saves tr = 0 /\ manifests tr = 0 /\ seen_added tr = [] /\
  gaps delay g tr = g.
Proof.
  revert g. induction 1 as [|e tr He _ IH]; intros; [by repeat split|].
  unfold saves, manifests in *. rewrite !count_events_cons, gaps_cons.
  destruct e as [| | | | | | | | | | | |[]]; try discriminate; cbn.
  all: destruct g as [[]|]; cbn; apply IH.
Qed.

Section RunFacts.

Context {World : Type}.
Variable lib : Lib.
Variable net : Net World.

Lemma crawl_peo_shape (depth fuel : nat) (start_url out_dir : string)
    (delay : Q) (max_pages : Z) (use_sitemap : bool) (w : World) :
  exists pre,
    Forall (fun e => is_setup e = true) pre /\
    (((exists e, result_of (crawl_peo lib net depth fuel start_url out_dir delay
                                      max_pages use_sitemap w) = Raise e) /\
      trace_of (crawl_peo lib net depth fuel start_url out_dir delay
                          max_pages use_sitemap w) = pre)
     \/
     exists rp base_host q w1 post,
       trace_of (crawl_peo lib net depth fuel start_url out_dir delay
                           max_pages use_sitemap w) =
         pre ++ trace_of (crawl_loop lib net start_url out_dir delay max_pages
                            rp base_host fuel
                            {| queue := q; seen := ∅; count := 0 |} w1)
             ++ post /\
       result_of (crawl_peo lib net depth fuel start_url out_dir delay
                            max_pages use_sitemap w) =
         result_of (crawl_loop lib net start_url out_dir delay max_pages
                      rp base_host fuel
                      {| queue := q; seen := ∅; count := 0 |} w1) /\
       Forall (fun e => is_report e = true) post /\
       makedirs_error (os_path_join out_dir "pages") = None).
Proof.
  unfold crawl_peo. rewrite bind_run.
  pose proof (load_robots_setup lib net start_url w) as Hl.
  destruct (load_robots lib net start_url w) as [[[rp|e] w1] t1];
    unfold trace_of in Hl; cbn in Hl.
  2: { exists t1. split; [exact Hl|]. left. split; [by exists e|reflexivity]. }
  rewrite bind_run. cbn [lift].
  destruct (Urllib.urlparse lib start_url) as [parsed|e].
  2: { exists t1. split; [exact Hl|]. left. rewrite app_nil_r.
       split; [by exists e|reflexivity]. }
  cbv beta iota. rewrite bind_run. unfold makedirs.
  destruct (makedirs_error (os_path_join out_dir "pages")) as [e|] eqn:Hmk.
  { exists t1. split; [exact Hl|]. left. cbn. rewrite app_nil_r.
    split; [by exists e|reflexivity]. }
  cbn [emit]. cbv beta iota. rewrite bind_run.
  pose proof (seed_queue_setup lib net start_url rp depth use_sitemap w1) as Hs.
  destruct (seed_queue lib net start_url rp depth use_sitemap w1)
    as [[[q|e] w2] t2]; unfold trace_of in Hs; cbn in Hs.
  2: { eexists. split; cycle 1.
       { left. split; [by exists e|reflexivity]. }
       unfold trace_of; cbn [snd].
       rewrite !Forall_app. split_and!; auto; by repeat constructor. }
  rewrite bind_run. cbn [print emit]. cbv beta iota. rewrite bind_run.
  exists (t1 ++ [] ++ [EvMakedirs (os_path_join out_dir "pages")] ++ t2
          ++ [EvPrint (LogSeeded (length q) max_pages delay)]).
  split; [rewrite !Forall_app; split_and!; auto; by repeat constructor|].
  right. exists rp, (Urllib.netloc parsed), q, w2.
  destruct (crawl_loop _ _ _ _ _ _ _ _ _ _ w2) as [[[[st|]|e] w3] t3];
    cbn [trace_of result_of fst snd].
  - exists [EvPrint (LogDone (count st) (os_path_join out_dir "pages"));
            EvPrint (LogManifest (os_path_join out_dir "manifest.jsonl"))].
    unfold mbind, M_bind, mret, M_ret, print, emit. cbn.
    split; [by repeat (rewrite <- app_assoc; cbn)|].
    split; [reflexivity|]. split; [by repeat constructor|reflexivity].
  - exists []. cbn.
    split; [by rewrite ?app_nil_r; repeat (rewrite <- app_assoc; cbn)|].
    split; [reflexivity|]. split; [constructor|reflexivity].
  - exists []. cbn.
    split; [by rewrite ?app_nil_r; repeat (rewrite <- app_assoc; cbn)|].
    split; [reflexivity|]. split; [constructor|reflexivity].
Qed.

End RunFacts.

(** * The claims *)

(** ** URL normalisation *)

(** C9: for the empty string [normalize_url] returns the empty string
    unchanged: it neither rewrites the empty path to "/", nor strips a
    fragment, nor raises.  The rewrite of an empty path to "/" is seen
    on a non-empty URL. *)
Theorem normalize_url_empty_string (lib : Lib) :
  normalize_url lib "" = Ok "" /\
  normalize_url lib "https://peo.gov.au" = Ok "https://peo.gov.au/".
Proof. split; vm_compute; reflexivity. Qed.

(** C5: [normalize_url] at a URL whose path ends in two slashes.  One
    slash is removed, so the result still ends in a slash, and a second
    application removes it: normalising twice differs from normalising
    once. *)
Theorem normalize_url_two_trailing_slashes (lib : Lib) :
  normalize_url lib "https://peo.gov.au/learn//" = Ok "https://peo.gov.au/learn/" /\
  normalize_url lib "https://peo.gov.au/learn/" = Ok "https://peo.gov.au/learn" /\
  (normalize_url lib "https://peo.gov.au/learn//" ≫= normalize_url lib)
    <> normalize_url lib "https://peo.gov.au/learn//".
Proof.
  split; [vm_compute; reflexivity|]. split; [vm_compute; reflexivity|].
  vm_compute. discriminate.
Qed.

(** ** The robots policy *)

Section RobotsClaims.

Context {World : Type}.
Variable lib : Lib.
Variable net : Net World.

(** C1: when reading robots.txt raises, the parser [load_robots] returns
    has never been marked as read, and [can_fetch] answers [False] for
    every agent and every URL. *)
Theorem load_robots_read_failure_denies_all
    (start_url : string) (w w' w1 : World) (rp : RobotFileParser)
    (tr : list Event) (e : Exn) :
  load_robots lib net start_url w = (Ok rp, w', tr) ->
  urlopen_read net (rp_url rp) w = (OtherError e, w1) ->
  forall agent url, can_fetch lib rp agent url = Ok false.
Proof.
  unfold load_robots. intros Hload Hread agent url.
  rewrite bind_run in Hload. cbn [lift] in Hload.
  destruct (Urllib.urlparse lib start_url) as [parsed|e0]; [|discriminate].
  cbv beta iota in Hload. rewrite bind_run in Hload. cbn [lift] in Hload.
  unfold set_url in Hload.
  destruct (Urllib.urlparse lib _) as [p|e0]; [|discriminate].
  cbn in Hload. unfold try_except, read in Hload. cbn in Hload.
  destruct (urlopen_read net _ w) as [[code|e1|lines] w2] eqn:Hopen.
  - destruct ((code =? 401) || (code =? 403));
      [|destruct ((400 <=? code) && (code <? 500))];
      injection Hload as <- <- <-; cbn in Hread; congruence.
  - injection Hload as <- <- <-. reflexivity.
  - injection Hload as <- <- <-. cbn in Hread. congruence.
Qed.

End RobotsClaims.

Lemma load_robots_read_failure_witness :
  exists rp w' tr,
    load_robots Demo.lib Demo.net_robots_down Demo.start_url 0%nat = (Ok rp, w', tr) /\
    can_fetch Demo.lib rp USER_AGENT Demo.start_url = Ok false.
Proof.
  eexists _, _, _. split; [vm_compute; reflexivity|].
  eapply (load_robots_read_failure_denies_all Demo.lib Demo.net_robots_down
            Demo.start_url 0%nat); vm_compute; reflexivity.
Defined.

(** With robots.txt unreachable the demo run denies its start page and
    saves nothing. *)
Example robots_down_saves_nothing :
  saves (trace_of Demo.run_robots_down) = 0 /\
  In (EvPrint (LogRobotsSkip "http://h/")) (trace_of Demo.run_robots_down) /\
  saves (trace_of Demo.run_links) = 2.
Proof. vm_compute. repeat split; auto 10. Qed.

(** ** Sitemaps *)

Section SitemapClaims.

Context {World : Type}.
Variable lib : Lib.
Variable net : Net World.

Local Abbreviation resolve := (parse_sitemap lib net).
Local Abbreviation ctype_of r := (PyStr.lower (default "" (content_type r))).

(** C7: [parse_sitemap] never raises.  It returns the empty list when the
    status is not 200, when the content type does not contain "xml", and
    when the body does not parse.  For a sitemap index it returns the
    concatenation of the lists its [sitemap/loc] entries resolve to, in
    order; for a url-set it returns the [url/loc] texts, stripped of
    surrounding white space, that are not empty. *)
Theorem parse_sitemap_resolves (depth : nat) (url : string) (w : World) :
  (exists urls, result_of (resolve depth url w) = Ok urls) /\
  (forall r w1,
     session_get net url w = (Ok r, w1) ->
     (status_code r <> 200 -> result_of (resolve (S depth) url w) = Ok []) /\
     (PyStr.contains "xml" (ctype_of r) = false ->
      result_of (resolve (S depth) url w) = Ok []) /\
     (status_code r = 200 ->
      PyStr.contains "xml" (ctype_of r) = true ->
      match fromstring lib (content r) with
      | Raise _ => result_of (resolve (S depth) url w) = Ok []
      | Ok root =>
          if PyStr.endswith "sitemapindex" (PyStr.lower (tag root)) then
            exists urlss,
              result_of (for_each (resolve depth)
                           (loc_texts (findall root "sitemap" "loc")) w1)
                = Ok urlss /\
              result_of (resolve (S depth) url w) = Ok (concat urlss)
          else if PyStr.endswith "urlset" (PyStr.lower (tag root)) then
            result_of (resolve (S depth) url w)
              = Ok (loc_texts (findall root "url" "loc"))
          else result_of (resolve (S depth) url w) = Ok []
      end)).
Proof.
  split.
  { destruct (parse_sitemap_ok lib net depth url w) as (urls & w' & tr & -> & _).
    by exists urls. }
  intros r w1 Hget.
  cbn [parse_sitemap].
  unfold try_except, mbind, M_bind, mret, M_ret, lift, get, result_of.
  rewrite Hget. cbn.
  split_and!.
  - intros Hs. apply Z.eqb_neq in Hs. by rewrite Hs.
  - intros Hc. rewrite Hc, orb_true_r. reflexivity.
  - intros Hs Hc. apply Z.eqb_eq in Hs. rewrite Hs, Hc. cbn.
    destruct (fromstring lib (content r)) as [root|e]; cbn; [|reflexivity].
    destruct (PyStr.endswith "sitemapindex" _); cbn.
    + destruct (for_each_ok is_get (resolve depth)
                  (loc_texts (findall root "sitemap" "loc")) w1
                  (parse_sitemap_ok lib net depth))
        as (urlss & w2 & t2 & -> & _).
      exists urlss. cbn. by split.
    + destruct (PyStr.endswith "urlset" _); reflexivity.
Qed.

(** C10: with sitemap seeding enabled, the queue is what the rule of
    [seeded_queue] gives for the lists the discovered sitemaps resolve
    to: the normalised start URL alone when no sitemap has a URL on the
    host, and otherwise the normalised sitemap URLs on the host that
    have no excluded extension, the start URL not being appended.  The
    URLs appended during seeding are exactly that queue. *)
Theorem sitemap_seeding_start_url
    (start_url : string) (rp : RobotFileParser) (depth : nat)
    (sitemaps : list string) (w : World) :
  discover_sitemaps lib rp start_url = Ok sitemaps ->
  exists urlss,
    result_of (for_each (resolve depth) sitemaps w) = Ok urlss /\
    result_of (seed_queue lib net start_url rp depth true w)
      = seeded_queue lib start_url urlss /\
    (existsb nonempty (map (on_host lib start_url) urlss) = false ->
     result_of (seed_queue lib net start_url rp depth true w)
       = (n ← normalize_url lib start_url; Ok [n])) /\
    (existsb nonempty (map (on_host lib start_url) urlss) = true ->
     result_of (seed_queue lib net start_url rp depth true w)
       = seeds_of lib (concat (map (on_host lib start_url) urlss))) /\
    (forall q,
       result_of (seed_queue lib net start_url rp depth true w) = Ok q ->
       appended (trace_of (seed_queue lib net start_url rp depth true w)) = q).
Proof.
  intros Hd.
  destruct (seed_queue_sitemap lib net start_url rp depth sitemaps w Hd)
    as (urlss & w1 & tr1 & r & w' & tr & Hfe & Hsq & _ & Hr & Happ).
  exists urlss. rewrite Hfe, Hsq. unfold result_of, trace_of. cbn.
  split_and!; auto.
  - intros Hex. rewrite Hr. unfold seeded_queue. by rewrite Hex.
  - intros Hex. rewrite Hr. unfold seeded_queue. by rewrite Hex.
Qed.

End SitemapClaims.

Lemma parse_sitemap_resolves_witness :
  result_of (parse_sitemap Demo.lib Demo.net 2 "http://h/sitemap.xml" 0%nat)
    = Ok ["http://h/a"; "http://h/a/"; "http://other/x"] /\
  result_of (parse_sitemap Demo.lib Demo.net 2 "http://h/missing.xml" 0%nat)
    = Ok [].
Proof.
  destruct (parse_sitemap_resolves Demo.lib Demo.net 1 "http://h/sitemap.xml" 0%nat)
    as [_ Hidx].
  destruct (Hidx (Demo.response 200 "application/xml" "IDX") 1%nat eq_refl)
    as (_ & _ & Hroot).
  specialize (Hroot eq_refl ltac:(vm_compute; reflexivity)).
  vm_compute in Hroot. destruct Hroot as (urlss & Hchildren & Hres).
  injection Hchildren as <-.
  split; [vm_compute; exact Hres|].
  destruct (parse_sitemap_resolves Demo.lib Demo.net 1 "http://h/missing.xml" 0%nat)
    as [_ Hmiss].
  destruct (Hmiss (Demo.response 404 "text/html" "") 1%nat
              ltac:(vm_compute; reflexivity)) as (Hstatus & _).
  apply Hstatus. vm_compute. discriminate.
Defined.

Lemma sitemap_seeding_witness :
  result_of (seed_queue Demo.lib Demo.net Demo.start_url
               new_RobotFileParser 5 true 0%nat)
    = Ok ["http://h/a"; "http://h/a"].
Proof.
  destruct (sitemap_seeding_start_url Demo.lib Demo.net Demo.start_url
              new_RobotFileParser 5 ["http://h/sitemap.xml"] 0%nat
              ltac:(vm_compute; reflexivity))
    as (urlss & Hres & Hq & _).
  vm_compute in Hres. injection Hres as <-.
  rewrite Hq. vm_compute. reflexivity.
Defined.

(** ** A saved page, event by event *)

Section PassTrace.

Context {World : Type}.
Variable lib : Lib.
Variable net : Net World.
Variables (start_url out_dir : string) (delay : Q).
Variable rp : RobotFileParser.
Variable base_host : string.

Local Abbreviation page := (save_page lib net start_url out_dir delay base_host).
Local Abbreviation links_in := (enqueue_links (World:=World) lib start_url).
Local Abbreviation let_in := (links_enqueued lib start_url).

Lemma enqueue_links_exact (links : list string) (st : Frontier) (w : World) :
  links_in links st w =
    (match (let_in (seen st) links).2 with
     | None => Ok (set_queue st (queue st ++ (let_in (seen st) links).1))
     | Some e => Raise e
     end, w, map EvAppend (let_in (seen st) links).1).
Proof.
  revert st. induction links as [|link links IH]; intros st.
  { cbn. destruct st; unfold set_queue; cbn. by rewrite app_nil_r. }
  cbn [enqueue_links links_enqueued].
  unfold mbind, M_bind, mret, M_ret, emit, lift.
  destruct (normalize_url lib link) as [n|e]; cbn; [|reflexivity].
  destruct (qualifies lib start_url (seen st) n) as [[|]|e]; cbn; [| |reflexivity].
  all: rewrite IH; cbn [seen set_queue queue].
  all: destruct (let_in (seen st) links) as [app stop]; cbn.
  all: destruct stop; try reflexivity.
  unfold set_queue. cbn. by rewrite <- app_assoc.
Qed.

(** With a directory that can be made and a delay the clock accepts,
    the events of [save_page] are fixed by the page and its links. *)
Lemma save_page_exact (url : string) (resp : Response) (st : Frontier) (w : World) :
  sleep_error net delay = None ->
  usable_dir out_dir = true ->
  trace_of (page url resp st w) =
    [EvExtract (resp_text resp);
     EvMakedirs (os_path_join out_dir "pages");
     EvSaveTxt (txt_path lib (os_path_join out_dir "pages") url) url
               (extract_main_text lib (resp_text resp)).1.1
               (extract_main_text lib (resp_text resp)).1.2
               (extract_main_text lib (resp_text resp)).2;
     EvMakedirs (os_path_dirname (os_path_join out_dir "manifest.jsonl"));
     EvManifest (os_path_join out_dir "manifest.jsonl")
                (manifest_of lib net out_dir base_host url resp w);
     EvPrint (LogSaved (count st + 1) url
                       (txt_path lib (os_path_join out_dir "pages") url));
     EvExtractLinks (resp_text resp) url]
    ++ link_events lib start_url delay (seen st)
         (extract_links lib (resp_text resp) url) /\
  (forall st',
     result_of (page url resp st w) = Ok st' ->
     exists links,
       extract_links lib (resp_text resp) url = Ok links /\
       (let_in (seen st) links).2 = None /\
       st' = {| queue := queue st ++ (let_in (seen st) links).1;
                seen := seen st; count := count st + 1 |}).
Proof.
  intros Hsl Hu.
  unfold save_page, save_txt, append_manifest, utcnow, manifest_of, makedirs.
  rewrite (usable_dir_pages out_dir Hu), (manifest_dir_ok out_dir Hu).
  destruct (extract_main_text lib (resp_text resp)) as [[title meta_desc] main_text].
  unfold mbind, M_bind, mret, M_ret, emit, sleep, print, lift. rewrite Hsl. cbn.
  destruct (extract_links lib (resp_text resp) url) as [links|e]; cbn.
  2: { split; [reflexivity|discriminate]. }
  rewrite enqueue_links_exact. cbn [seen incr_count].
  destruct (let_in (seen st) links) as [app stop] eqn:Hle; cbn.
  destruct stop as [e|]; cbn.
  { rewrite app_nil_r. split; [reflexivity|discriminate]. }
  split; [reflexivity|]. intros st' [= <-]. exists links. by rewrite Hle.
Qed.

(** Whatever stops it, [save_page] begins with the extraction, and its
    events come in the order of the transition rule. *)
Lemma save_page_shape (url : string) (resp : Response) (st : Frontier) (w : World) :
  exists tail,
    trace_of (page url resp st w) = EvExtract (resp_text resp) :: tail /\
    Sorted le (map stage_rank (EvExtract (resp_text resp) :: tail)) /\
    Forall (fun e => (7 <= stage_rank e)%nat) tail.
Proof.
  pose proof (save_page_cases lib net start_url out_dir delay base_host
                url resp st w) as Hc.
  destruct (makedirs_error (os_path_join out_dir "pages")) as [e1|].
  { rewrite Hc. exists []. cbn. repeat constructor. }
  destruct (makedirs_error (os_path_dirname _)) as [e2|].
  { rewrite Hc. eexists. split; [reflexivity|]. cbn.
    split; repeat (constructor; try lia). }
  destruct Hc as (app & r & w' & tail & -> & _ & Hr).
  assert (Htail : tail = [] \/ (exists d, tail = [EvSleep d])).
  { destruct Hr as [(_ & _ & -> & _) | (e & _ & ->)]; eauto. }
  eexists. split; [reflexivity|]. cbn [trace_of snd Datatypes.app]. split.
  - pose proof (sorted_appends (resp_text resp) url app tail Htail) as Hsorted.
    cbn [map stage_rank] in *.
    repeat (constructor; [|constructor; lia]). exact Hsorted.
  - repeat (constructor; [cbn; lia|]).
    apply Forall_app. split.
    + apply Forall_forall. intros e [u ->]%list_elem_of_In%in_appends. cbn. lia.
    + destruct Htail as [-> | [d ->]]; repeat constructor; cbn; lia.
Qed.

End PassTrace.

(** ** One pass: classification and order *)

Section PassClaims.

Context {World : Type}.
Variable lib : Lib.
Variable net : Net World.
Variables (start_url out_dir : string) (delay : Q).
Variable rp : RobotFileParser.
Variable base_host : string.

Local Abbreviation body := (loop_body lib net start_url out_dir delay rp base_host).
Local Abbreviation page := (save_page lib net start_url out_dir delay base_host).
Local Abbreviation rule := (verdict lib net start_url rp).
Local Abbreviation checks := (gate lib start_url rp).

Lemma classify_saved (out : Result Response) :
  classify out = Saved <-> html_200 out.
Proof.
  unfold classify, html_200, is_html_response, is_html_ctype.
  destruct out as [resp|e].
  2: { split; [discriminate|]. by intros (resp & ? & _). }
  destruct (status_code resp =? 200) eqn:Hs; cbn.
  2: { split; [discriminate|]. intros (resp' & [= <-] & Hs' & _). lia. }
  destruct (PyStr.contains "text/html" _ || _) eqn:Hc; cbn.
  - split; [|done]. intros _. exists resp. split; [done|]. split; [lia|].
    by apply orb_prop.
  - split; [discriminate|]. intros (resp' & [= <-] & _ & Hc').
    apply orb_false_elim in Hc as [H1 H2]. destruct Hc'; congruence.
Qed.

Lemma verdict_first_match (st : Frontier) (url : string) (w : World) :
  match rule st url w with
  | SkippedDuplicate => already_seen st url = true
  | SkippedOutOfScope =>
      already_seen st url = false /\ out_of_scope lib start_url url = true
  | SkippedRobotsDenied =>
      already_seen st url = false /\ out_of_scope lib start_url url = false /\
      robots_refuses lib rp url = true
  | SkippedBinary =>
      already_seen st url = false /\ out_of_scope lib start_url url = false /\
      robots_refuses lib rp url = false /\ binary_extension lib url = true
  | v => checks st url = None /\ classify (session_get net url w).1 = v
  end.
Proof.
  unfold verdict, gate. cbn.
  destruct (already_seen st url); cbn; [done|].
  destruct (out_of_scope lib start_url url); cbn; [done|].
  destruct (robots_refuses lib rp url); cbn; [done|].
  destruct (binary_extension lib url); cbn; [done|].
  unfold classify. destruct (session_get net url w).1 as [resp|e]; [|done].
  destruct (negb (status_code resp =? 200)); [done|].
  destruct (negb (is_html_response resp)); done.
Qed.

Lemma gate_none_checks (st : Frontier) (url : string) :
  checks st url = None ->
  already_seen st url = false /\ out_of_scope lib start_url url = false /\
  robots_refuses lib rp url = false /\ binary_extension lib url = false.
Proof.
  unfold gate. cbn.
  destruct (already_seen st url); cbn; [discriminate|].
  destruct (out_of_scope lib start_url url); cbn; [discriminate|].
  destruct (robots_refuses lib rp url); cbn; [discriminate|].
  destruct (binary_extension lib url); cbn; [discriminate|done].
Qed.

(** The file of a saved page is written once the directory of the pages
    can be made. *)
Lemma save_page_saves (url : string) (resp : Response) (st : Frontier) (w : World) :
  makedirs_error (os_path_join out_dir "pages") = None ->
  saves (trace_of (page url resp st w)) = 1.
Proof.
  intros Hp. pose proof (save_page_cases lib net start_url out_dir delay base_host
                           url resp st w) as Hc.
  rewrite Hp in Hc.
  destruct (makedirs_error (os_path_dirname _)) as [e|].
  { rewrite Hc. reflexivity. }
  destruct Hc as (app & r & w' & tail & -> & _ & Hr).
  unfold trace_of. cbn [snd].
  destruct Hr as [(_ & _ & -> & _)|(e & _ & ->)]; step_counts; reflexivity.
Qed.

(** C3: a dequeued URL reaches the fetch step when the four checks ahead
    of it pass (and, for a delay the clock accepts, only then).  For a
    URL that reaches it, exactly that URL is requested.  When the
    response has status 200 and a content type (in lower case) that
    contains "text/html" or "application/xhtml+xml", the page is
    extracted once, and its file and its manifest line are written once
    when the output directory can be used.  Every other outcome of the
    fetch leaves no call of [extract_main_text], no file and no manifest
    line: for a delay the clock accepts the pass is one terminal skip
    that ends with one sleep, and for a delay it refuses the pass raises
    what [time.sleep] raises. *)
Theorem fetched_page_saved_iff_html_200
    (st : Frontier) (w : World) (url : string) (rest : list string) :
  queue st = url :: rest ->
  (checks st url = None -> In (EvGet url) (trace_of (body st w))) /\
  (In (EvGet url) (trace_of (body st w)) ->
   (sleep_error net delay = None -> checks st url = None) /\
   requested (trace_of (body st w)) = [url] /\
   (html_200 (session_get net url w).1 ->
    count_events is_extract (trace_of (body st w)) = 1 /\
    manifests (trace_of (body st w)) <= saves (trace_of (body st w)) /\
    saves (trace_of (body st w)) <= 1 /\
    (makedirs_error (os_path_join out_dir "pages") = None ->
     saves (trace_of (body st w)) = 1) /\
    (usable_dir out_dir = true ->
     saves (trace_of (body st w)) = 1 /\
     manifests (trace_of (body st w)) = 1)) /\
   (~ html_200 (session_get net url w).1 ->
    (classify (session_get net url w).1 = SkippedHTTPError \/
     classify (session_get net url w).1 = SkippedNonHTML) /\
    count_events is_extract (trace_of (body st w)) = 0 /\
    saves (trace_of (body st w)) = 0 /\
    manifests (trace_of (body st w)) = 0 /\
    (sleep_error net delay = None ->
     rule st url w = classify (session_get net url w).1 /\
     body st w =
       (Ok (add_seen (set_queue st rest) url),
        time_sleep net delay (session_get net url w).2,
        EvPopleft url :: skip_events net (rule st url w) url w ++ [EvSleep delay]) /\
     count_events is_sleep (trace_of (body st w)) = 1) /\
    (forall e,
       sleep_error net delay = Some e ->
       result_of (body st w) = Raise e /\
       count_events is_sleep (trace_of (body st w)) = 0))).
Proof.
  intros Hq.
  pose proof (gate_none lib start_url rp st url) as Hgate.
  assert (Hrule : checks st url = None ->
                  rule st url w = classify (session_get net url w).1).
  { intros H. unfold verdict. by rewrite H. }
  pose proof (classify_saved (session_get net url w).1) as Hcl.
  destruct (session_get net url w) as [out w1] eqn:Hget. cbn [fst snd] in *.
  remember (checks st url) as g eqn:Hg. clear Hg.
  remember (rule st url w) as v eqn:Hv. clear Hv.
  unfold loop_body. rewrite Hq.
  unfold robots_denied, fetch, get.
  unfold mbind, M_bind, mret, M_ret, emit, sleep, print, lift, try_except.
  rewrite ?Hget.
  destruct (sleep_error net delay) as [es|] eqn:Hsl; cbn.
  all: case_bool_decide as Hs; cbn.
  all: try (when_in_goal (same_domain lib url start_url)
              ltac:(destruct (same_domain lib url start_url) eqn:Hsd; cbn)).
  all: try (when_in_goal (looks_like_binary lib url)
              ltac:(destruct (same_domain_binary_ok lib _ _ Hsd) as [b Hb];
                    rewrite Hb in * )).
  all: try (when_in_goal (can_fetch lib rp USER_AGENT url)
              ltac:(destruct (can_fetch lib rp USER_AGENT url) as [[|]|e] eqn:Hcf;
                    cbn)).
  all: try (destruct b; cbn).
  all: rewrite ?Hget; cbn.
  all: destruct out as [resp|e']; cbn.
  all: unfold classify in *.
  all: try (when_in_goal (status_code resp =? 200)
              ltac:(destruct (status_code resp =? 200) eqn:Hst; cbn in * )).
  all: try (when_in_goal (is_html_response resp)
              ltac:(destruct (is_html_response resp) eqn:Hh; cbn in * )).
  all: try (when_in_goal (page url resp)
              ltac:(pose proof (save_page_saves url resp
                                  (add_seen (set_queue st rest) url) w1) as Hsaves;
                    destruct (save_page_counts lib net start_url out_dir delay
                                base_host url resp
                                (add_seen (set_queue st rest) url) w1)
                      as (r & w2 & t & Hpage & Hp0 & Hex & Hm0 & Hms & Hs1 & Hsl'
                          & Hgp & Hsa & Hu & Hok);
                    destruct (save_page_reads lib net start_url out_dir delay
                                base_host url resp
                                (add_seen (set_queue st rest) url) w1)
                      as (r' & w2' & t' & Hpage' & _ & Hr0 & _);
                    rewrite Hpage in Hpage'; injection Hpage' as <- <- <-;
                    rewrite Hpage in *; cbn)).
  all: unfold trace_of, result_of in *; cbn [fst snd] in *.
  all: split;
    [intros Hn; try discriminate Hn;
     apply Hgate in Hn as (Hn1 & Hn2 & Hn3 & Hn4);
     try contradiction; try congruence; cbn; auto 10
    |intros Hin].
  all: try (exfalso; cbn in Hin; intuition discriminate).
  all: assert (Hg : sleep_error net delay = None -> g = None)
    by (rewrite Hsl; intros Hn; first [discriminate Hn
          | apply Hgate; split_and!; [done|done|congruence|done]]).
  all: unfold requested in *; cbn [omap list_omap]; rewrite ?Hr0.
  all: rewrite Hsl in Hg.
  all: split; [exact Hg|].
  all: split; [reflexivity|].
  all: split;
    [first [ intros Hgood; apply Hcl in Hgood; discriminate Hgood
           | intros _; step_counts; cbn [is_extract];
             split_and!; [lia|lia|lia|intros Hp; specialize (Hsaves Hp); lia
                         |intros Hu'; specialize (Hu Hu'); lia] ]|].
  all: intros Hbad.
  all: try (exfalso; apply Hbad, Hcl; reflexivity).
  all: split; [auto|].
  all: step_counts; cbn [is_extract].
  all: split_and!; try reflexivity.
  all: try (intros Hn; discriminate Hn).
  all: try (intros e0 He0; discriminate He0).
  all: try (intros e0 [= <-]; split; reflexivity).
  all: intros _; rewrite (Hrule (Hg eq_refl)); cbn [skip_events Datatypes.app];
    rewrite ?Hget; cbn [fst snd]; step_counts; split_and!; reflexivity.
Qed.

(** C8: for a delay the clock accepts, the terminal state of a dequeued
    URL is decided by the first check that fires, in the order
    already-seen, scope, robots, binary extension, and then by the
    status and content type of the response.  A skipped URL leaves
    exactly the events of the checks up to the one that fired, followed
    by the sleep.  A saved URL is fetched and extracted; when the output
    directory can be used its page is then persisted and mined for
    links, the links [extract_links] returns are normalised and the
    qualifying ones appended in their order, and the pass that
    completes leaves them at the back of the queue.  The robots policy
    is consulted only for an unseen URL in scope, a request happens only
    when all four checks ahead of it pass, and the events of a pass come
    in the order of the rule. *)
Theorem transition_rule_order
    (st : Frontier) (w : World) (url : string) (rest : list string) :
  sleep_error net delay = None ->
  queue st = url :: rest ->
  match rule st url w with
  | SkippedDuplicate => already_seen st url = true
  | SkippedOutOfScope =>
      already_seen st url = false /\ out_of_scope lib start_url url = true
  | SkippedRobotsDenied =>
      already_seen st url = false /\ out_of_scope lib start_url url = false /\
      robots_refuses lib rp url = true
  | SkippedBinary =>
      already_seen st url = false /\ out_of_scope lib start_url url = false /\
      robots_refuses lib rp url = false /\ binary_extension lib url = true
  | v => checks st url = None /\ classify (session_get net url w).1 = v
  end /\
  (rule st url w <> Saved ->
   body st w =
     (Ok (skip_state (rule st url w) st url rest),
      skip_world net delay (rule st url w) url w,
      EvPopleft url :: skip_events net (rule st url w) url w ++ [EvSleep delay])) /\
  (rule st url w = Saved ->
   exists resp,
     (session_get net url w).1 = Ok resp /\
     (exists tail,
        trace_of (body st w) =
          [EvPopleft url; EvSeenAdd url; EvCanFetch USER_AGENT url; EvGet url;
           EvExtract (resp_text resp)] ++ tail) /\
     (usable_dir out_dir = true ->
      trace_of (body st w) =
        [EvPopleft url; EvSeenAdd url; EvCanFetch USER_AGENT url; EvGet url;
         EvExtract (resp_text resp);
         EvMakedirs (os_path_join out_dir "pages");
         EvSaveTxt (txt_path lib (os_path_join out_dir "pages") url) url
                   (extract_main_text lib (resp_text resp)).1.1
                   (extract_main_text lib (resp_text resp)).1.2
                   (extract_main_text lib (resp_text resp)).2;
         EvMakedirs (os_path_dirname (os_path_join out_dir "manifest.jsonl"));
         EvManifest (os_path_join out_dir "manifest.jsonl")
                    (manifest_of lib net out_dir base_host url resp
                       (session_get net url w).2);
         EvPrint (LogSaved (count st + 1) url
                           (txt_path lib (os_path_join out_dir "pages") url));
         EvExtractLinks (resp_text resp) url]
        ++ link_events lib start_url delay ({[url]} ∪ seen st)
             (extract_links lib (resp_text resp) url) /\
      (forall st',
         result_of (body st w) = Ok st' ->
         exists links,
           extract_links lib (resp_text resp) url = Ok links /\
           (links_enqueued lib start_url ({[url]} ∪ seen st) links).2 = None /\
           queue st' =
             rest ++ (links_enqueued lib start_url ({[url]} ∪ seen st) links).1 /\
           count st' = count st + 1))) /\
  (In (EvCanFetch USER_AGENT url) (trace_of (body st w)) ->
   already_seen st url = false /\ out_of_scope lib start_url url = false) /\
  (forall u, In (EvGet u) (trace_of (body st w)) ->
             u = url /\ checks st url = None) /\
  (forall e, In e (trace_of (body st w)) ->
             (7 <= stage_rank e <= 9)%nat -> rule st url w = Saved) /\
  Sorted le (map stage_rank (trace_of (body st w))).
Proof.
  intros Hsl Hq.
  pose proof (verdict_first_match st url w) as Hfm.
  split; [exact Hfm|].
  split; [apply (loop_body_skip lib net start_url out_dir delay rp base_host);
          [exact Hsl|exact Hq]|].
  destruct (rule st url w) eqn:Hv.
  7: {
    destruct (loop_body_saved lib net start_url out_dir delay rp base_host
                st w url rest Hq Hv)
      as (resp & w1 & Hget & Hst & Hh & Hg & Hb).
    destruct (save_page_shape lib net start_url out_dir delay base_host
                url resp (add_seen (set_queue st rest) url) w1)
      as (tail & Htr & Hsorted & Hranks).
    pose proof (save_page_exact lib net start_url out_dir delay base_host
                  url resp (add_seen (set_queue st rest) url) w1 Hsl) as Hexact.
    destruct (page url resp (add_seen (set_queue st rest) url) w1)
      as [[r w'] t] eqn:Hp.
    unfold trace_of, result_of in Htr, Hexact. cbn [fst snd] in Htr, Hexact.
    subst t. rewrite Hb. unfold trace_of, result_of. cbn [fst snd].
    rewrite Hget. cbn [fst snd].
    pose proof (proj1 (gate_none lib start_url rp st url) Hg) as (Hs & Hsd & _).
    split_and!.
    - intros _. exists resp. split; [reflexivity|].
      split; [by exists tail|].
      intros Hu. destruct (Hexact Hu) as [Htail Hok].
      cbn [add_seen set_queue seen count queue] in Htail, Hok.
      split; [cbn [Datatypes.app]; by rewrite Htail|].
      intros st' Hst'. destruct (Hok st' Hst') as (links & Hl & Hstop & ->).
      exists links. by split_and!.
    - intros _. unfold already_seen, out_of_scope.
      rewrite bool_decide_eq_false_2 by exact Hs. by rewrite Hsd.
    - intros u Hin. split; [|exact Hg].
      cbn in Hin.
      destruct Hin as [?|[?|[?|[?|[?|Hin]]]]]; try congruence.
      exfalso. rewrite Forall_forall in Hranks.
      apply list_elem_of_In, Hranks in Hin. cbn in Hin. lia.
    - done.
    - cbn [Datatypes.app map stage_rank] in *.
      repeat (constructor; [|constructor; lia]). exact Hsorted.
  }
  all: rewrite (loop_body_skip lib net start_url out_dir delay rp base_host
                  st w url rest Hsl Hq) by (rewrite Hv; discriminate).
  all: rewrite Hv; unfold trace_of; cbn [snd skip_events skip_state skip_world Datatypes.app].
  all: split_and!; try done.
  all: try (intros Hin; cbn in Hin; intuition congruence).
  all: try (intros u Hin; cbn in Hin;
            destruct (session_get net url w).1; intuition congruence).
  all: try (intros e Hin Hrank; exfalso; cbn in Hin;
            destruct (session_get net url w).1;
            repeat (destruct Hin as [<- | Hin]; [cbn in Hrank; lia|]);
            exact Hin).
  all: try (cbn [map stage_rank];
            destruct (session_get net url w).1; cbn;
            repeat (constructor; try lia)).
  all: cbn in Hfm;
    try (destruct Hfm as [Hg0 _]; apply gate_none_checks in Hg0);
    intuition.
Qed.

End PassClaims.

Lemma pdf_is_skipped_witness :
  (saves (trace_of Demo.pass_pdf) = 0 /\
   count_events is_extract (trace_of Demo.pass_pdf) = 0 /\
   requested (trace_of Demo.pass_pdf) = ["http://h/c"] /\
   count_events is_sleep (trace_of Demo.pass_pdf) = 1) /\
  (count_events is_extract (trace_of BrokenLink.pass_start_ok) = 1 /\
   saves (trace_of BrokenLink.pass_start_ok) = 1 /\
   manifests (trace_of BrokenLink.pass_start_ok) = 1).
Proof.
  split.
  - destruct (fetched_page_saved_iff_html_200 Demo.lib Demo.net Demo.start_url
                "data/peo" 0%Q Demo.rp "h" Demo.pdf_first 0%nat "http://h/c" []
                eq_refl)
      as [Hreach Hfetch].
    destruct (Hfetch (Hreach ltac:(vm_compute; reflexivity)))
      as (_ & Hreq & _ & Hskip).
    destruct Hskip as (_ & Hextract & Hsaves & _ & Hsl & _).
    { intros (resp & Hout & _ & Hc). vm_compute in Hout. injection Hout as <-.
      vm_compute in Hc. destruct Hc; discriminate. }
    destruct (Hsl eq_refl) as (_ & _ & Hsleeps).
    repeat split; assumption.
  - destruct (fetched_page_saved_iff_html_200 Demo.lib Demo.net Demo.start_url
                "data/peo" 0%Q Demo.rp "h" BrokenLink.start_first 0%nat
                "http://h/" [] eq_refl)
      as [Hreach Hfetch].
    destruct (Hfetch (Hreach ltac:(vm_compute; reflexivity)))
      as (_ & _ & Hsaved & _).
    destruct Hsaved as (Hextract & _ & _ & _ & Hfiles).
    { eexists. split; [vm_compute; reflexivity|].
      split; [reflexivity|]. left. vm_compute. reflexivity. }
    destruct (Hfiles eq_refl) as [Hsaves Hmanifests].
    repeat split; assumption.
Defined.

Lemma transition_rule_witness :
  verdict Demo.lib Demo.net Demo.start_url Demo.rp Demo.pdf_first "http://h/c" 0%nat
    = SkippedNonHTML /\
  trace_of Demo.pass_pdf =
    [EvPopleft "http://h/c"; EvSeenAdd "http://h/c";
     EvCanFetch USER_AGENT "http://h/c"; EvGet "http://h/c"; EvSleep 0] /\
  trace_of BrokenLink.pass_start_ok =
    [EvPopleft "http://h/"; EvSeenAdd "http://h/";
     EvCanFetch USER_AGENT "http://h/"; EvGet "http://h/"; EvExtract "P0";
     EvMakedirs "data/peo/pages";
     EvSaveTxt "data/peo/pages/page.txt" "http://h/" "title" "description" "P0";
     EvMakedirs "data/peo";
     EvManifest "data/peo/manifest.jsonl"
       {| m_url := "http://h/"; m_title := "title"; m_desc := "description";
          m_path := "data/peo/pages/page.txt";
          m_crawled_at := "2025-01-01T00:00:00Z"; m_host := "h";
          m_word_count := 1 |};
     EvPrint (LogSaved 1 "http://h/" "data/peo/pages/page.txt");
     EvExtractLinks "P0" "http://h/";
     EvAppend "http://h/a"; EvAppend "http://h/a"; EvAppend "http://h/c";
     EvSleep 0] /\
  (forall st',
     result_of BrokenLink.pass_start_ok = Ok st' ->
     queue st' = ["http://h/a"; "http://h/a"; "http://h/c"]).
Proof.
  destruct (transition_rule_order Demo.lib Demo.net Demo.start_url
              "data/peo" 0%Q Demo.rp "h" Demo.pdf_first 0%nat "http://h/c" []
              eq_refl eq_refl)
    as (_ & Hskip & _).
  assert (Hv : verdict Demo.lib Demo.net Demo.start_url Demo.rp Demo.pdf_first
                       "http://h/c" 0%nat = SkippedNonHTML)
    by (vm_compute; reflexivity).
  split; [exact Hv|].
  split.
  { unfold Demo.pass_pdf. rewrite Hskip by (rewrite Hv; discriminate).
    rewrite Hv. reflexivity. }
  destruct (transition_rule_order Demo.lib Demo.net Demo.start_url
              "data/peo" 0%Q Demo.rp "h" BrokenLink.start_first 0%nat
              "http://h/" [] eq_refl eq_refl)
    as (_ & _ & Hsaved & _).
  destruct (Hsaved ltac:(vm_compute; reflexivity)) as (resp & Hresp & _ & Hfull).
  vm_compute in Hresp. injection Hresp as <-.
  destruct (Hfull eq_refl) as [Htrace Hqueue].
  split.
  { unfold BrokenLink.pass_start_ok. rewrite Htrace. vm_compute. reflexivity. }
  intros st' Hst'. destruct (Hqueue st' Hst') as (links & Hlinks & _ & -> & _).
  vm_compute in Hlinks. injection Hlinks as <-. vm_compute. reflexivity.
Defined.

(** ** The whole run: politeness, page budget, deduplication *)

(** Once the directory of the pages was made, as it is before the loop
    starts, the output directory can be used unless it is the empty
    path. *)
Lemma usable_dir_run (out_dir : string) :
  makedirs_error (os_path_join out_dir "pages") = None ->
  out_dir <> "" ->
  usable_dir out_dir = true.
Proof.
  rewrite pages_dir_ok. unfold usable_dir. intros Hp Hne.
  destruct (PyStr.has "000" out_dir); [discriminate|].
  destruct (String.eqb_spec out_dir ""); [contradiction|reflexivity].
Qed.

Section RunClaims.

Context {World : Type}.
Variable lib : Lib.
Variable net : Net World.

Local Abbreviation run := (crawl_peo lib net).
Local Abbreviation body := (loop_body lib net).
Local Abbreviation loop := (crawl_loop lib net).

(** C6: in the trace of every run, however it ends, every dequeue after
    the first comes after exactly one sleep since the previous dequeue,
    and every sleep has the configured duration; when the run ends
    normally the last dequeue too is followed by exactly one sleep.  In
    every pass there is one dequeue, and one sleep if the pass
    completes, whichever branch it takes.  A sleep is counted when it
    takes place: a call of [time.sleep] that raises, as every call does
    for a negative delay, is not one, and with such a delay no pass
    completes, so that no second dequeue follows. *)
Theorem one_sleep_between_dequeues
    (depth fuel : nat) (start_url out_dir : string) (delay : Q)
    (max_pages : Z) (use_sitemap : bool) (w : World) :
  (exists g,
     gaps delay (Some BeforeFirst)
          (trace_of (run depth fuel start_url out_dir delay max_pages use_sitemap w))
       = Some g) /\
  (forall st,
     result_of (run depth fuel start_url out_dir delay max_pages use_sitemap w)
       = Ok (Some st) ->
     gaps delay (Some BeforeFirst)
          (trace_of (run depth fuel start_url out_dir delay max_pages use_sitemap w))
       = Some BeforeFirst \/
     gaps delay (Some BeforeFirst)
          (trace_of (run depth fuel start_url out_dir delay max_pages use_sitemap w))
       = Some (Since 1)) /\
  (forall rp base_host st w0 url rest,
     queue st = url :: rest ->
     count_events is_popleft
       (trace_of (body start_url out_dir delay rp base_host st w0)) = 1 /\
     count_events is_sleep
       (trace_of (body start_url out_dir delay rp base_host st w0)) =
       if is_ok (result_of (body start_url out_dir delay rp base_host st w0))
       then 1 else 0) /\
  (forall rp base_host st w0 url rest,
     queue st = url :: rest ->
     sleep_error net delay <> None ->
     is_ok (result_of (body start_url out_dir delay rp base_host st w0)) = false).
Proof.
  assert (Hrefused : forall rp base_host st w0 url rest,
     queue st = url :: rest ->
     sleep_error net delay <> None ->
     is_ok (result_of (body start_url out_dir delay rp base_host st w0)) = false).
  { intros rp base_host st w0 url rest Hq Hsl.
    destruct (loop_body_summary lib net start_url out_dir delay rp base_host
                st w0 url rest Hq)
      as (r & w' & tr & -> & _ & _ & _ & _ & _ & _ & _ & _ & Hsr & _).
    exact (Hsr Hsl). }
  assert (Hpass : forall rp base_host st w0 url rest,
     queue st = url :: rest ->
     count_events is_popleft
       (trace_of (body start_url out_dir delay rp base_host st w0)) = 1 /\
     count_events is_sleep
       (trace_of (body start_url out_dir delay rp base_host st w0)) =
       if is_ok (result_of (body start_url out_dir delay rp base_host st w0))
       then 1 else 0).
  { intros rp base_host st w0 url rest Hq.
    destruct (loop_body_summary lib net start_url out_dir delay rp base_host
                st w0 url rest Hq)
      as (r & w' & tr & -> & _ & _ & _ & _ & _ & Hpop & Hsleep & _).
    by split. }
  destruct (crawl_peo_shape lib net depth fuel start_url out_dir delay
              max_pages use_sitemap w) as (pre & Hpre & Hshape).
  destruct (setup_trace_facts delay pre Hpre) as (_ & _ & _ & Hgpre).
  destruct Hshape
    as [[[e He] Htr] | (rp & base & q & w1 & post & Htr & Hres & Hpost & _)].
  { rewrite Htr, He. split_and!; [eauto|discriminate|exact Hpass|exact Hrefused]. }
  rewrite Htr, Hres.
  destruct (crawl_loop_invariant lib net start_url out_dir delay max_pages
              rp base
              (fun _ tr => gaps delay (Some BeforeFirst) tr = Some BeforeFirst \/
                           gaps delay (Some BeforeFirst) tr = Some (Since 1))
              (fun tr => exists g, gaps delay (Some BeforeFirst) tr = Some g))
    with (fuel := fuel) (st := {| queue := q; seen := ∅; count := 0 |})
         (w := w1) (tr0 := pre) as [HQ Hfin].
  { intros st tr0 [Hg | Hg]; eauto. }
  { intros st tr0 w0 r w' tr HI Hc Hb.
    apply loop_cond_true in Hc as [(url & rest & Hq) _].
    destruct (loop_body_summary lib net start_url out_dir delay rp base
                st w0 url rest Hq)
      as (r' & w'' & tr' & Hb' & _ & _ & _ & _ & Hg & _).
    rewrite Hb in Hb'. injection Hb' as <- <- <-.
    rewrite gaps_app.
    destruct HI as [HI | HI]; rewrite HI, Hg by auto;
      destruct r; cbn; eauto. }
  { by left. }
  split_and!; [| |exact Hpass|exact Hrefused].
  - destruct HQ as [g Hg]. exists g.
    rewrite app_assoc, gaps_app, Hg.
    by destruct (report_trace_facts delay (Some g) post Hpost) as (_ & _ & _ & ->).
  - intros st Hst. destruct (Hfin st Hst) as [HI _].
    rewrite app_assoc, gaps_app.
    destruct HI as [HI | HI]; rewrite HI;
      destruct (report_trace_facts delay (Some BeforeFirst) post Hpost)
        as (_ & _ & _ & Hp1);
      destruct (report_trace_facts delay (Some (Since 1)) post Hpost)
        as (_ & _ & _ & Hp2); auto.
Qed.

Lemma saves_within_budget
    (depth fuel : nat) (start_url out_dir : string) (delay : Q)
    (max_pages : Z) (use_sitemap : bool) (w : World) :
  manifests (trace_of (run depth fuel start_url out_dir delay max_pages use_sitemap w))
    <= saves (trace_of (run depth fuel start_url out_dir delay max_pages use_sitemap w)) /\
  saves (trace_of (run depth fuel start_url out_dir delay max_pages use_sitemap w))
    <= Z.max 0 max_pages /\
  (out_dir <> "" ->
   manifests (trace_of (run depth fuel start_url out_dir delay max_pages use_sitemap w))
     = saves (trace_of (run depth fuel start_url out_dir delay max_pages use_sitemap w))).
Proof.
  destruct (crawl_peo_shape lib net depth fuel start_url out_dir delay
              max_pages use_sitemap w) as (pre & Hpre & Hshape).
  destruct (setup_trace_facts delay pre Hpre) as (Hs0 & Hm0 & _ & _).
  destruct Hshape
    as [[_ Htr] | (rp & base & q & w1 & post & Htr & _ & Hpost & Hdir)].
  { rewrite Htr. lia. }
  rewrite Htr.
  destruct (crawl_loop_invariant lib net start_url out_dir delay max_pages
              rp base
              (fun st tr => manifests tr <= saves tr /\ saves tr = count st /\
                            count st <= Z.max 0 max_pages /\
                            (out_dir <> "" -> manifests tr = saves tr))
              (fun tr => manifests tr <= saves tr /\
                         saves tr <= Z.max 0 max_pages /\
                         (out_dir <> "" -> manifests tr = saves tr)))
    with (fuel := fuel) (st := {| queue := q; seen := ∅; count := 0 |})
         (w := w1) (tr0 := pre) as [HQ _].
  { intros st tr0 (? & ? & ? & ?). split_and!; [lia|lia|assumption]. }
  { intros st tr0 w0 r w' tr (Hm & Hs & Hc & He) Hcond Hb.
    apply loop_cond_true in Hcond as [(url & rest & Hq) Hlt].
    destruct (loop_body_summary lib net start_url out_dir delay rp base
                st w0 url rest Hq)
      as (r' & w'' & tr' & Hb' & Hm0' & Hms' & Hs1' & _ & _ & _ & _ & Hu & _ & Hok).
    rewrite Hb in Hb'. injection Hb' as <- <- <-.
    assert (Heq : out_dir <> "" -> manifests (tr0 ++ tr) = saves (tr0 ++ tr)).
    { intros Hne. specialize (He Hne).
      specialize (Hu (usable_dir_run out_dir Hdir Hne)).
      unfold manifests, saves in *. rewrite !count_events_app. lia. }
    unfold manifests, saves in *. rewrite !count_events_app in *.
    destruct r as [st'|e].
    - destruct (Hok st' eq_refl) as (_ & _ & Hcnt & _). split_and!; [lia|lia|lia|exact Heq].
    - split_and!; [lia|lia|exact Heq]. }
  { cbn. split_and!; lia. }
  destruct (report_trace_facts delay None post Hpost) as (Hsp & Hmp & _).
  unfold manifests, saves in *.
  rewrite app_assoc, !(count_events_app _ (pre ++ _) post). 
  destruct HQ as (H1 & H2 & H3). split_and!; [lia|lia|intros Hne; specialize (H3 Hne); lia].
Qed.

(** C4: with a page cap that is not negative, the manifest lines
    appended are at most the files written, which are at most the cap;
    the two are equally many unless the output directory is the empty
    path, for which the directory of the manifest cannot be made and the
    run raises after its first file.  Run through [main] the files are
    at most 20 whatever cap was requested.  The loop makes a pass
    exactly while the queue is not empty and the counter is below the
    cap; it always ends, and when it ends normally the queue is empty or
    the counter has reached the cap. *)
Theorem saved_pages_within_cap
    (depth fuel : nat) (start_url out_dir : string) (delay : Q)
    (max_pages : Z) (use_sitemap : bool) (w : World) :
  0 <= max_pages ->
  (manifests (trace_of (run depth fuel start_url out_dir delay max_pages use_sitemap w))
     <= saves (trace_of (run depth fuel start_url out_dir delay max_pages use_sitemap w)) /\
   saves (trace_of (run depth fuel start_url out_dir delay max_pages use_sitemap w))
     <= max_pages /\
   (out_dir <> "" ->
    manifests (trace_of (run depth fuel start_url out_dir delay max_pages use_sitemap w))
      = saves (trace_of (run depth fuel start_url out_dir delay max_pages use_sitemap w)))) /\
  (forall args,
     manifests (trace_of (main lib net depth fuel args w))
       <= saves (trace_of (main lib net depth fuel args w)) /\
     saves (trace_of (main lib net depth fuel args w)) <= 20 /\
     (arg_out args <> "" ->
      manifests (trace_of (main lib net depth fuel args w))
        = saves (trace_of (main lib net depth fuel args w)))) /\
  (forall rp base_host st w0,
     (loop_cond max_pages st = true <-> queue st <> [] /\ count st < max_pages) /\
     (exists fuel',
        result_of (loop start_url out_dir delay max_pages rp base_host fuel' st w0)
          <> Ok None) /\
     (forall fuel' st',
        result_of (loop start_url out_dir delay max_pages rp base_host fuel' st w0)
          = Ok (Some st') ->
        queue st' = [] \/ max_pages <= count st')).
Proof.
  intros Hcap. split_and!.
  - apply saves_within_budget.
  - pose proof (saves_within_budget depth fuel start_url out_dir delay
                  max_pages use_sitemap w) as (_ & H & _). lia.
  - apply saves_within_budget.
  - intros args. unfold main.
    pose proof (saves_within_budget depth fuel (arg_start args) (arg_out args)
                  (arg_delay args) (Z.min (arg_max_pages args) 20)
                  (negb (arg_no_sitemap args)) w) as (Hm & Hs & He).
    split_and!; [exact Hm|lia|exact He].
  - intros rp base_host st w0. split_and!.
    + unfold loop_cond. rewrite andb_true_iff, negb_true_iff, bool_decide_eq_false.
      rewrite Z.ltb_lt. tauto.
    + apply crawl_loop_terminates.
    + intros fuel' st' Hres.
      destruct (crawl_loop_invariant lib net start_url out_dir delay max_pages
                  rp base_host (fun _ _ => True) (fun _ => True))
        with (fuel := fuel') (st := st) (w := w0) (tr0 := @nil Event)
        as [_ Hfin]; auto.
      { intros; by destruct r. }
      destruct (Hfin st' Hres) as [_ Hc]. by apply loop_cond_false in Hc.
Qed.

(** C2, as amended: a URL is added to the seen-set, and so taken past
    the already-seen check, at most once in a run; the seen-set of a
    pass, and of the whole loop, contains the seen-set it started
    from.  (The same URL may be appended to the queue several times.) *)
Theorem dequeued_once_seen_grows
    (depth fuel : nat) (start_url out_dir : string) (delay : Q)
    (max_pages : Z) (use_sitemap : bool) (w : World) :
  NoDup (seen_added
           (trace_of (run depth fuel start_url out_dir delay max_pages use_sitemap w))) /\
  (forall rp base_host st w0 st',
     result_of (body start_url out_dir delay rp base_host st w0) = Ok st' ->
     seen st ⊆ seen st') /\
  (forall rp base_host fuel' st w0 st',
     result_of (loop start_url out_dir delay max_pages rp base_host fuel' st w0)
       = Ok (Some st') ->
     seen st ⊆ seen st').
Proof.
  assert (Hpass : forall rp base_host st w0 st',
     result_of (body start_url out_dir delay rp base_host st w0) = Ok st' ->
     seen st ⊆ seen st').
  { intros rp base_host st w0 st' Hres.
    destruct (queue st) as [|url rest] eqn:Hq.
    { unfold loop_body in Hres. rewrite Hq in Hres. discriminate. }
    destruct (loop_body_summary lib net start_url out_dir delay rp base_host
                st w0 url rest Hq)
      as (r & w' & tr & Hb & _ & _ & _ & _ & _ & _ & _ & _ & _ & Hok).
    rewrite Hb in Hres. cbn in Hres. subst r.
    destruct (Hok st' eq_refl) as (_ & _ & _ & -> & _). apply union_subseteq_r. }
  split_and!; [|exact Hpass|].
  2: { intros rp base_host fuel' st w0 st' Hres.
       destruct (crawl_loop_invariant lib net start_url out_dir delay max_pages
                   rp base_host (fun st1 _ => seen st ⊆ seen st1) (fun _ => True))
         with (fuel := fuel') (st := st) (w := w0) (tr0 := @nil Event)
         as [_ Hfin]; auto.
       { intros st1 tr0 w2 r w' tr HI _ Hb. destruct r as [st2|e]; [|done].
         etrans; [exact HI|]. apply (Hpass rp base_host st1 w2).
         by rewrite Hb. }
       by destruct (Hfin st' Hres) as [HI _]. }
  destruct (crawl_peo_shape lib net depth fuel start_url out_dir delay
              max_pages use_sitemap w) as (pre & Hpre & Hshape).
  destruct (setup_trace_facts delay pre Hpre) as (_ & _ & Hsa & _).
  destruct Hshape
    as [[_ Htr] | (rp & base & q & w1 & post & Htr & _ & Hpost & _)].
  { rewrite Htr, Hsa. constructor. }
  rewrite Htr.
  destruct (crawl_loop_invariant lib net start_url out_dir delay max_pages
              rp base
              (fun st tr => NoDup (seen_added tr) /\
                            forall u, u ∈ seen_added tr -> u ∈ seen st)
              (fun tr => NoDup (seen_added tr)))
    with (fuel := fuel) (st := {| queue := q; seen := ∅; count := 0 |})
         (w := w1) (tr0 := pre) as [HQ _].
  { by intros st tr0 [? _]. }
  { intros st tr0 w0 r w' tr [Hnd Hsub] Hcond Hb.
    apply loop_cond_true in Hcond as [(url & rest & Hq) _].
    destruct (loop_body_summary lib net start_url out_dir delay rp base
                st w0 url rest Hq)
      as (r' & w'' & tr' & Hb' & _ & _ & _ & Hadd & _ & _ & _ & _ & _ & Hok).
    rewrite Hb in Hb'. injection Hb' as <- <- <-.
    rewrite seen_added_app, Hadd.
    assert (Hnd' : NoDup (seen_added tr0 ++
                          (if bool_decide (url ∈ seen st) then [] else [url]))).
    { case_bool_decide as Hs; [by rewrite app_nil_r|].
      apply NoDup_app. split_and!; [done| |apply NoDup_singleton].
      intros u Hu ->%list_elem_of_singleton. apply Hs, Hsub, Hu. }
    destruct r as [st'|e]; [|exact Hnd'].
    split; [exact Hnd'|].
    destruct (Hok st' eq_refl) as (_ & _ & _ & -> & _). rewrite Hadd.
    intros u [Hu|Hu]%elem_of_app.
    - apply elem_of_union_r, Hsub, Hu.
    - apply elem_of_union_l, elem_of_list_to_set, Hu. }
  { rewrite Hsa. split; [constructor|]. intros u Hu. by apply not_elem_of_nil in Hu. }
  destruct (report_trace_facts delay None post Hpost) as (_ & _ & Hsp & _).
  rewrite app_assoc, seen_added_app, Hsp, app_nil_r. exact HQ.
Qed.

End RunClaims.

Lemma one_sleep_witness :
  count_events is_popleft (trace_of Demo.pass_pdf) = 1 /\
  count_events is_sleep (trace_of Demo.pass_pdf) = 1.
Proof.
  destruct (one_sleep_between_dequeues Demo.lib Demo.net 5 50 Demo.start_url
              "data/peo" 0%Q 20 false 0%nat) as (_ & _ & Hpass & _).
  destruct (Hpass Demo.rp "h" Demo.pdf_first 0%nat "http://h/c" [] eq_refl)
    as [Hpop Hsleep].
  split; [exact Hpop|].
  unfold Demo.pass_pdf. rewrite Hsleep. vm_compute. reflexivity.
Defined.

Lemma saved_pages_within_cap_witness :
  saves (trace_of Demo.run_capped) <= 1 /\
  manifests (trace_of Demo.run_capped) = saves (trace_of Demo.run_capped).
Proof.
  destruct (saved_pages_within_cap Demo.lib Demo.net 5 50 Demo.start_url
              "data/peo" 0%Q 1 false 0%nat ltac:(lia)) as ((_ & Hs & Hm) & _).
  split; [exact Hs|apply Hm; discriminate].
Defined.

(** The capped run of the demo site saves exactly one page, the
    uncapped one both HTML pages. *)
Example demo_saves :
  saves (trace_of Demo.run_capped) = 1 /\ saves (trace_of Demo.run_links) = 2.
Proof. split; vm_compute; reflexivity. Qed.

(** C2, as stated, fails: in the demo runs [http://h/a] is appended to
    the queue twice, once by link discovery from a page that links to it
    twice, and once by sitemap seeding from a sitemap that lists it with
    and without a trailing slash. *)
Lemma frontier_append_repeats :
  ~ NoDup (appended (trace_of Demo.run_links)) /\
  ~ NoDup (appended (trace_of Demo.run_sitemap)).
Proof.
  split; intros H; vm_compute in H.
  - apply NoDup_cons in H as [_ H]. apply NoDup_cons in H as [Hn _].
    apply Hn. left.
  - apply NoDup_cons in H as [Hn _]. apply Hn. left.
Qed.

Lemma dequeued_once_witness :
  NoDup (seen_added (trace_of Demo.run_links)) /\
  exists st', result_of Demo.pass_pdf = Ok st' /\ seen Demo.pdf_first ⊆ seen st'.
Proof.
  destruct (dequeued_once_seen_grows Demo.lib Demo.net 5 50 Demo.start_url
              "data/peo" 0%Q 20 false 0%nat) as (Hnd & Hpass & _).
  split; [exact Hnd|].
  eexists. split; [vm_compute; reflexivity|].
  apply (Hpass Demo.rp "h" _ 0%nat). vm_compute. reflexivity.
Defined.

(** ** The edges of the inputs *)

(** With a negative delay every call of [time.sleep] raises.  In the
    robots branch the exception is swallowed with the others, so a URL
    that robots.txt refuses is fetched and saved, and the pass raises at
    its closing sleep; with a delay of zero the same URL is skipped. *)
Example negative_delay_fetches_refused_url :
  requested (trace_of (EdgeDemo.pass_refused (-1)%Q)) = ["http://h/"] /\
  saves (trace_of (EdgeDemo.pass_refused (-1)%Q)) = 1 /\
  result_of (EdgeDemo.pass_refused (-1)%Q) = Raise ValueError /\
  requested (trace_of (EdgeDemo.pass_refused 0%Q)) = [] /\
  is_ok (result_of (EdgeDemo.pass_refused 0%Q)) = true.
Proof. vm_compute. repeat split. Qed.

(** A run with a negative delay ends in its first pass. *)
Example negative_delay_stops_the_run :
  result_of (EdgeDemo.run_at (-1)%Q) = Raise ValueError /\
  popped (trace_of (EdgeDemo.run_at (-1)%Q)) = ["http://h/"] /\
  count_events is_sleep (trace_of (EdgeDemo.run_at (-1)%Q)) = 0.
Proof. vm_compute. repeat split. Qed.

(** With the empty path as output directory the first page is written
    to [pages/], and line 221 then raises: no manifest line is
    appended and nothing is printed for the page. *)
Example empty_out_dir_stops_at_manifest :
  result_of (EdgeDemo.run_in "") = Raise FileNotFoundError /\
  saves (trace_of (EdgeDemo.run_in "")) = 1 /\
  manifests (trace_of (EdgeDemo.run_in "")) = 0 /\
  saved_numbers (trace_of (EdgeDemo.run_in "")) = [].
Proof. vm_compute. repeat split. Qed.

(** * Further properties of the code *)

(** ** Strings *)

Module PyStrFacts.

Import PyStr.

Lemma append_cons (c : ascii) (a b : string) :
  String c a +:+ b = String c (a +:+ b).
Proof. reflexivity. Qed.

Lemma forallb_app (p : ascii -> bool) (a b : string) :
  forallb p (a +:+ b) = forallb p a && forallb p b.
Proof.
  induction a as [|c a IH]; [reflexivity|].
  rewrite append_cons. cbn. rewrite IH. by rewrite andb_assoc.
Qed.

Lemma forallb_take (p : ascii -> bool) (n : nat) (s : string) :
  forallb p s = true -> forallb p (take n s) = true.
Proof.
  revert n. induction s as [|c s IH]; intros [|n]; cbn; try done.
  intros [Hc Hs]%andb_prop. rewrite Hc. cbn. by apply IH.
Qed.

Lemma forallb_map (p : ascii -> bool) (f : ascii -> ascii) (s : string) :
  forallb p (map f s) = forallb (fun c => p (f c)) s.
Proof. induction s as [|c s IH]; [reflexivity|]. cbn. by rewrite IH. Qed.

Lemma forallb_impl (p q : ascii -> bool) (s : string) :
  (forall c, p c = true -> q c = true) ->
  forallb p s = true -> forallb q s = true.
Proof.
  intros Hpq. induction s as [|c s IH]; [done|].
  cbn. intros [Hc Hs]%andb_prop. rewrite (Hpq c Hc). cbn. by apply IH.
Qed.

Lemma forallb_has (p : ascii -> bool) (c : ascii) (s : string) :
  p c = false -> forallb p s = true -> has c s = false.
Proof.
  intros Hc. induction s as [|d s IH]; [done|].
  cbn. intros [Hd Hs]%andb_prop. unfold ascii_eqb.
  destruct (Ascii.eqb_spec c d) as [->|_]; [congruence|by apply IH].
Qed.

Lemma length_app (a b : string) :
  String.length (a +:+ b) = (String.length a + String.length b)%nat.
Proof.
  induction a as [|c a IH]; [reflexivity|].
  rewrite append_cons. cbn. by rewrite IH.
Qed.

Lemma length_map (f : ascii -> ascii) (s : string) :
  String.length (map f s) = String.length s.
Proof. induction s as [|c s IH]; [reflexivity|]. cbn. by rewrite IH. Qed.

Lemma length_take (n : nat) (s : string) :
  (String.length (take n s) <= n)%nat.
Proof.
  revert n. induction s as [|c s IH]; intros [|n]; cbn; try lia.
  specialize (IH n). lia.
Qed.

Lemma lower_char_idempotent (c : ascii) :
  lower_char (lower_char c) = lower_char c.
Proof. destruct c as [[] [] [] [] [] [] [] []]; reflexivity. Qed.

Lemma lower_idempotent (s : string) : lower (lower s) = lower s.
Proof.
  unfold lower. induction s as [|c s IH]; [reflexivity|].
  cbn. by rewrite lower_char_idempotent, IH.
Qed.

End PyStrFacts.

(** ** The parts of a run *)

Lemma setup_trace_silent (tr : list Event) :
  Forall (fun e => is_setup e = true) tr ->
  popped tr = [] /\ saved_urls tr = [] /\ saved_numbers tr = [] /\
  file_entries tr = [] /\ manifest_entries tr = [] /\ manifest_hosts tr = [].
Proof.
  induction 1 as [|e tr He _ IH]; [by repeat split|].
  destruct e as [| | | | | | | | | | | |[]]; try discriminate; exact IH.
Qed.

Section RunParts.

Context {World : Type}.
Variable lib : Lib.
Variable net : Net World.

Lemma load_robots_appends_nothing (start_url : string) (w : World) :
  appended (trace_of (load_robots lib net start_url w)) = [].
Proof.
  unfold load_robots. rewrite bind_run. cbn [lift].
  destruct (Urllib.urlparse lib start_url) as [parsed|e]; [|reflexivity].
  cbv beta iota. rewrite bind_run. cbn [lift].
  destruct (set_url lib new_RobotFileParser _) as [rp0|e]; [|reflexivity].
  cbv beta iota. unfold try_except, read.
  destruct (urlopen_read net (rp_url rp0) w) as [[code|e|lines] w1]; reflexivity.
Qed.

(** The queue the loop starts from is what the seeding appended. *)
Lemma seed_queue_appended (start_url : string) (rp : RobotFileParser)
    (depth : nat) (use_sitemap : bool) (w : World) (q : list string) :
  result_of (seed_queue lib net start_url rp depth use_sitemap w) = Ok q ->
  appended (trace_of (seed_queue lib net start_url rp depth use_sitemap w)) = q.
Proof.
  destruct use_sitemap.
  - destruct (discover_sitemaps lib rp start_url) as [sitemaps|e] eqn:Hd.
    + destruct (seed_queue_sitemap lib net start_url rp depth sitemaps w Hd)
        as (? & ? & ? & r & w' & tr & _ & -> & _ & _ & Happ).
      unfold result_of, trace_of. cbn. exact (Happ q).
    + unfold seed_queue. rewrite Hd. discriminate.
  - unfold seed_queue. rewrite bind_run. cbn [lift].
    destruct (normalize_url lib start_url) as [n|e]; cbn; [|discriminate].
    by intros [= <-].
Qed.

Lemma load_robots_requests_nothing (start_url : string) (w : World) :
  requested (trace_of (load_robots lib net start_url w)) = [].
Proof.
  unfold load_robots. rewrite bind_run. cbn [lift].
  destruct (Urllib.urlparse lib start_url) as [parsed|e]; [|reflexivity].
  cbv beta iota. rewrite bind_run. cbn [lift].
  destruct (set_url lib new_RobotFileParser _) as [rp0|e]; [|reflexivity].
  cbv beta iota. unfold try_except, read.
  destruct (urlopen_read net (rp_url rp0) w) as [[code|e|lines] w1]; reflexivity.
Qed.

(** Seeding from the start URL alone makes no request. *)
Lemma seed_queue_start_requests_nothing (start_url : string)
    (rp : RobotFileParser) (depth : nat) (w : World) :
  requested (trace_of (seed_queue lib net start_url rp depth false w)) = [].
Proof.
  unfold seed_queue. rewrite bind_run. cbn [lift].
  destruct (normalize_url lib start_url) as [n|e]; reflexivity.
Qed.

Lemma crawl_peo_parts_requests (depth fuel : nat) (start_url out_dir : string)
    (delay : Q) (max_pages : Z) (use_sitemap : bool) (w : World) :
  ((exists e, result_of (crawl_peo lib net depth fuel start_url out_dir delay
                                   max_pages use_sitemap w) = Raise e) /\
   Forall (fun e => is_setup e = true)
          (trace_of (crawl_peo lib net depth fuel start_url out_dir delay
                               max_pages use_sitemap w)) /\
   (use_sitemap = false ->
    requested (trace_of (crawl_peo lib net depth fuel start_url out_dir delay
                                   max_pages use_sitemap w)) = []))
  \/
  exists rp parsed q w1 pre post,
    result_of (load_robots lib net start_url w) = Ok rp /\
    Urllib.urlparse lib start_url = Ok parsed /\
    Forall (fun e => is_setup e = true) pre /\ appended pre = q /\
    (use_sitemap = false -> requested pre = []) /\
    trace_of (crawl_peo lib net depth fuel start_url out_dir delay
                        max_pages use_sitemap w) =
      pre ++ trace_of (crawl_loop lib net start_url out_dir delay max_pages
                         rp (Urllib.netloc parsed) fuel
                         {| queue := q; seen := ∅; count := 0 |} w1)
          ++ post /\
    result_of (crawl_peo lib net depth fuel start_url out_dir delay
                         max_pages use_sitemap w) =
      result_of (crawl_loop lib net start_url out_dir delay max_pages
                   rp (Urllib.netloc parsed) fuel
                   {| queue := q; seen := ∅; count := 0 |} w1) /\
    post = match result_of (crawl_loop lib net start_url out_dir delay max_pages
                              rp (Urllib.netloc parsed) fuel
                              {| queue := q; seen := ∅; count := 0 |} w1) with
           | Ok (Some st) =>
               [EvPrint (LogDone (count st) (os_path_join out_dir "pages"));
                EvPrint (LogManifest (os_path_join out_dir "manifest.jsonl"))]
           | _ => []
           end /\
    makedirs_error (os_path_join out_dir "pages") = None.
Proof.
  unfold crawl_peo. rewrite bind_run.
  pose proof (load_robots_setup lib net start_url w) as Hl.
  pose proof (load_robots_appends_nothing start_url w) as Hla.
  pose proof (load_robots_requests_nothing start_url w) as Hlr.
  destruct (load_robots lib net start_url w) as [[[rp|e] w1] t1];
    unfold trace_of in Hl, Hla, Hlr; cbn in Hl; cbn [snd] in Hla, Hlr.
  2: { left. split_and!; [by exists e|exact Hl|done]. }
  rewrite bind_run. cbn [lift].
  destruct (Urllib.urlparse lib start_url) as [parsed|e].
  2: { left. rewrite app_nil_r. split_and!; [by exists e|exact Hl|done]. }
  cbv beta iota. rewrite bind_run. unfold makedirs.
  destruct (makedirs_error (os_path_join out_dir "pages")) as [e|] eqn:Hmk.
  { left. cbn. rewrite app_nil_r. split_and!; [by exists e|exact Hl|done]. }
  cbn [emit]. cbv beta iota. rewrite bind_run.
  pose proof (seed_queue_setup lib net start_url rp depth use_sitemap w1) as Hs.
  pose proof (seed_queue_appended start_url rp depth use_sitemap w1) as Hsa.
  assert (Hsr : use_sitemap = false ->
                requested (trace_of (seed_queue lib net start_url rp depth
                                                use_sitemap w1)) = []).
  { intros ->. apply seed_queue_start_requests_nothing. }
  destruct (seed_queue lib net start_url rp depth use_sitemap w1)
    as [[[q|e] w2] t2]; unfold trace_of, result_of in Hs, Hsa, Hsr; cbn in Hs;
    cbn [fst snd] in Hsa, Hsr.
  2: { left. split; [by exists e|].
       unfold trace_of; cbn [snd]. split.
       - rewrite !Forall_app. split_and!; auto; by repeat constructor.
       - intros Hno. rewrite !requested_app, Hlr, (Hsr Hno). reflexivity. }
  specialize (Hsa q eq_refl).
  rewrite bind_run. cbn [print emit]. cbv beta iota. rewrite bind_run.
  right. exists rp, parsed, q, w2.
  exists (t1 ++ [] ++ [EvMakedirs (os_path_join out_dir "pages")] ++ t2
          ++ [EvPrint (LogSeeded (length q) max_pages delay)]).
  exists (match result_of (crawl_loop lib net start_url out_dir delay max_pages
                             rp (Urllib.netloc parsed) fuel
                             {| queue := q; seen := ∅; count := 0 |} w2) with
          | Ok (Some st) =>
              [EvPrint (LogDone (count st) (os_path_join out_dir "pages"));
               EvPrint (LogManifest (os_path_join out_dir "manifest.jsonl"))]
          | _ => []
          end).
  split; [reflexivity|]. split; [reflexivity|].
  split; [rewrite !Forall_app; split_and!; auto; by repeat constructor|].
  split.
  { rewrite !appended_app, Hla, Hsa. cbn. by rewrite app_nil_r. }
  split.
  { intros Hno. rewrite !requested_app, Hlr, (Hsr Hno). reflexivity. }
  destruct (crawl_loop _ _ _ _ _ _ _ _ _ _ w2) as [[[[st|]|e] w3] t3];
    cbn [trace_of result_of fst snd].
  all: unfold mbind, M_bind, mret, M_ret, print, emit; cbn.
  all: split; [|split_and!; reflexivity].
  all: by rewrite ?app_nil_r; repeat (rewrite <- app_assoc; cbn).
Qed.

Lemma crawl_peo_parts (depth fuel : nat) (start_url out_dir : string)
    (delay : Q) (max_pages : Z) (use_sitemap : bool) (w : World) :
  ((exists e, result_of (crawl_peo lib net depth fuel start_url out_dir delay
                                   max_pages use_sitemap w) = Raise e) /\
   Forall (fun e => is_setup e = true)
          (trace_of (crawl_peo lib net depth fuel start_url out_dir delay
                               max_pages use_sitemap w)))
  \/
  exists rp parsed q w1 pre post,
    result_of (load_robots lib net start_url w) = Ok rp /\
    Urllib.urlparse lib start_url = Ok parsed /\
    Forall (fun e => is_setup e = true) pre /\ appended pre = q /\
    trace_of (crawl_peo lib net depth fuel start_url out_dir delay
                        max_pages use_sitemap w) =
      pre ++ trace_of (crawl_loop lib net start_url out_dir delay max_pages
                         rp (Urllib.netloc parsed) fuel
                         {| queue := q; seen := ∅; count := 0 |} w1)
          ++ post /\
    result_of (crawl_peo lib net depth fuel start_url out_dir delay
                         max_pages use_sitemap w) =
      result_of (crawl_loop lib net start_url out_dir delay max_pages
                   rp (Urllib.netloc parsed) fuel
                   {| queue := q; seen := ∅; count := 0 |} w1) /\
    post = match result_of (crawl_loop lib net start_url out_dir delay max_pages
                              rp (Urllib.netloc parsed) fuel
                              {| queue := q; seen := ∅; count := 0 |} w1) with
           | Ok (Some st) =>
               [EvPrint (LogDone (count st) (os_path_join out_dir "pages"));
                EvPrint (LogManifest (os_path_join out_dir "manifest.jsonl"))]
           | _ => []
           end /\
    makedirs_error (os_path_join out_dir "pages") = None.
Proof.
  destruct (crawl_peo_parts_requests depth fuel start_url out_dir delay
              max_pages use_sitemap w)
    as [(He & Hpre & _) | (rp & parsed & q & w1 & pre & post & Hrp & Hp & Hpre
                           & Hq & _ & Htr & Hres & Hpost & Hdir)].
  - left. by split.
  - right. by exists rp, parsed, q, w1, pre, post.
Qed.

End RunParts.

(** ** Invariants of a whole run *)

Lemma report_silent (c : Z) (a b : string) :
  let post := [EvPrint (LogDone c a); EvPrint (LogManifest b)] in
  popped post = [] /\ saved_urls post = [] /\ saved_numbers post = [] /\
  file_entries post = [] /\ manifest_entries post = [] /\
  manifest_hosts post = [] /\ appended post = [] /\ requested post = [].
Proof. by repeat split. Qed.

Section RunInvariant.

Context {World : Type}.
Variable lib : Lib.
Variable net : Net World.
Variables (depth fuel : nat) (start_url out_dir : string) (delay : Q).
Variables (max_pages : Z) (use_sitemap : bool) (w : World).

Local Abbreviation the_run :=
  (crawl_peo lib net depth fuel start_url out_dir delay max_pages use_sitemap w).

(** An invariant [I] of the loop that the seeding establishes gives a
    property [Q] of the trace of the run, however it ends, and a property
    [R] of the state and trace of a run that returns.  The loop is
    reached only after the directory of the pages was made. *)
Lemma crawl_peo_invariant
    (I : Frontier -> list Event -> Prop) (Q : list Event -> Prop)
    (R : Frontier -> list Event -> Prop) :
  (forall pre, Forall (fun e => is_setup e = true) pre -> Q pre) ->
  (forall pre,
     Forall (fun e => is_setup e = true) pre ->
     I {| queue := appended pre; seen := ∅; count := 0 |} pre) ->
  (forall st tr, I st tr -> Q tr) ->
  (forall rp parsed st tr0 w0 r w' tr,
     result_of (load_robots lib net start_url w) = Ok rp ->
     Urllib.urlparse lib start_url = Ok parsed ->
     makedirs_error (os_path_join out_dir "pages") = None ->
     I st tr0 -> loop_cond max_pages st = true ->
     loop_body lib net start_url out_dir delay rp (Urllib.netloc parsed) st w0
       = (r, w', tr) ->
     match r with
     | Ok st' => I st' (tr0 ++ tr)
     | Raise _ => Q (tr0 ++ tr)
     end) ->
  (forall st tr,
     I st tr -> loop_cond max_pages st = false ->
     Q (tr ++ [EvPrint (LogDone (count st) (os_path_join out_dir "pages"));
               EvPrint (LogManifest (os_path_join out_dir "manifest.jsonl"))]) /\
     R st (tr ++ [EvPrint (LogDone (count st) (os_path_join out_dir "pages"));
                  EvPrint (LogManifest (os_path_join out_dir "manifest.jsonl"))])) ->
  Q (trace_of the_run) /\
  (forall st, result_of the_run = Ok (Some st) -> R st (trace_of the_run)).
Proof.
  intros Hearly Hinit HQ Hstep Hend.
  destruct (crawl_peo_parts lib net depth fuel start_url out_dir delay
              max_pages use_sitemap w)
    as [[[e He] Hpre] | (rp & parsed & q & w1 & pre & post & Hrp & Hp & Hpre
                          & Hq & Htr & Hres & Hpost & Hdir)].
  { split; [by apply Hearly|]. intros st Hst. congruence. }
  destruct (crawl_loop_invariant lib net start_url out_dir delay max_pages
              rp (Urllib.netloc parsed) I Q HQ)
    with (fuel := fuel) (st := {| queue := q; seen := ∅; count := 0 |})
         (w := w1) (tr0 := pre) as [HQl Hfin].
  { intros st tr0 w0 r w' tr HI Hc Hb. by eapply Hstep. }
  { subst q. by apply Hinit. }
  rewrite Htr, Hres.
  destruct (result_of (crawl_loop lib net start_url out_dir delay max_pages rp
                         (Urllib.netloc parsed) fuel
                         {| queue := q; seen := ∅; count := 0 |} w1))
    as [[st|]|e] eqn:Hloop; subst post.
  - destruct (Hfin st eq_refl) as [HI Hc].
    rewrite app_assoc. destruct (Hend _ _ HI Hc) as [H1 H2].
    split; [exact H1|]. by intros st' [= <-].
  - rewrite app_nil_r. split; [exact HQl|discriminate].
  - rewrite app_nil_r. split; [exact HQl|discriminate].
Qed.

End RunInvariant.

(** The facts of the pass that [Hb] runs, under the loop condition
    [Hc]. *)
Ltac pass_facts Hc Hb :=
  let Hb' := fresh "Hb" in
  apply loop_cond_true in Hc as [(url & rest & Hq) Hcount];
  match type of Hb with
  | loop_body ?lib ?net ?s ?o ?d ?rp ?h ?st ?w = _ =>
      destruct (loop_body_facts lib net s o d rp h st w url rest Hq)
        as (r_ & w_ & tr_ & Hb' & Hpop & Hreq & Hsav & Hok);
      rewrite Hb in Hb'; injection Hb' as <- <- <-
  end.

(** ** What a run saves *)

Section RunExtras.

Context {World : Type}.
Variable lib : Lib.
Variable net : Net World.
Variables (depth fuel : nat) (start_url out_dir : string) (delay : Q).
Variables (max_pages : Z) (use_sitemap : bool) (w : World).

Local Abbreviation the_run :=
  (crawl_peo lib net depth fuel start_url out_dir delay max_pages use_sitemap w).

(** X1: every page a run writes to disk is on the host of the start URL
    and has no excluded extension; when the clock accepts the delay, it
    is not refused by the robots policy that [load_robots] returned for
    the run.  (With a delay [time.sleep] refuses, the exception raised
    in the robots branch is swallowed there and a refused URL goes on to
    the fetch.) *)
Theorem saved_pages_pass_the_checks :
  Forall (fun u =>
            same_domain lib u start_url = true /\
            looks_like_binary lib u = Ok false /\
            (sleep_error net delay = None ->
             exists rp,
               result_of (load_robots lib net start_url w) = Ok rp /\
               can_fetch lib rp USER_AGENT u <> Ok false))
         (saved_urls (trace_of the_run)).
Proof.
  set (P := fun u => _ /\ _ /\ _).
  apply (crawl_peo_invariant lib net depth fuel start_url out_dir delay
           max_pages use_sitemap w
           (fun _ tr => Forall P (saved_urls tr))
           (fun tr => Forall P (saved_urls tr))
           (fun _ _ => True)).
  - intros pre Hpre. apply setup_trace_silent in Hpre as (_ & -> & _). constructor.
  - intros pre Hpre. apply setup_trace_silent in Hpre as (_ & -> & _). constructor.
  - auto.
  - intros rp parsed st tr0 w0 r w' tr Hrp Hp Hdir HI Hc Hb.
    pass_facts Hc Hb.
    assert (HP : Forall P (saved_urls (tr0 ++ tr))).
    { rewrite saved_urls_app, Forall_app. split; [exact HI|].
      destruct Hsav as [(-> & _) | (-> & _ & (_ & Hsd & Hbin) & Hg & _)];
        [constructor|].
      repeat constructor; auto. intros Hsl.
      apply Hg, gate_none in Hsl as (_ & _ & Hcf & _).
      exists rp. by split. }
    by destruct r.
  - intros st tr HI _. split; [|exact I].
    rewrite saved_urls_app, Forall_app. split; [exact HI|constructor].
Qed.

(** X2: no page is written twice in a run, and the pages are written in
    the order in which their URLs were dequeued. *)
Theorem saved_once_in_dequeue_order :
  NoDup (saved_urls (trace_of the_run)) /\
  sublist (saved_urls (trace_of the_run)) (popped (trace_of the_run)).
Proof.
  apply (crawl_peo_invariant lib net depth fuel start_url out_dir delay
           max_pages use_sitemap w
           (fun st tr =>
              (NoDup (saved_urls tr) /\ sublist (saved_urls tr) (popped tr)) /\
              forall u, u ∈ saved_urls tr -> u ∈ seen st)
           (fun tr => NoDup (saved_urls tr) /\ sublist (saved_urls tr) (popped tr))
           (fun _ _ => True)).
  - intros pre Hpre. apply setup_trace_silent in Hpre as (-> & -> & _).
    split; [constructor|reflexivity].
  - intros pre Hpre. apply setup_trace_silent in Hpre as (-> & -> & _).
    split; [split; [constructor|reflexivity]|]. intros u Hu. inversion Hu.
  - tauto.
  - intros rp parsed st tr0 w0 r w' tr Hrp Hp Hdir [[Hnd Hsub] Hseen] Hc Hb.
    pass_facts Hc Hb.
    assert (HQ : NoDup (saved_urls (tr0 ++ tr)) /\
                 sublist (saved_urls (tr0 ++ tr)) (popped (tr0 ++ tr))).
    { rewrite saved_urls_app, popped_app, Hpop.
      destruct Hsav as [(-> & _) | (-> & _ & (Hs & _) & _)].
      - rewrite app_nil_r. split; [exact Hnd|]. by apply sublist_inserts_r.
      - split.
        + apply NoDup_app. split_and!; [exact Hnd| |apply NoDup_singleton].
          intros u Hu ->%list_elem_of_singleton. auto.
        + by apply sublist_app. }
    destruct r as [st'|e]; [|exact HQ].
    split; [exact HQ|].
    destruct (Hok st' eq_refl) as (_ & _ & _ & Hseen').
    intros u. rewrite saved_urls_app, elem_of_app. intros [Hu | Hu].
    + apply Hseen in Hu. rewrite Hseen'. case_bool_decide; [exact Hu|].
      by apply elem_of_union_r.
    + destruct Hsav as [(Hnil & _) | (Hone & _ & (Hs & _) & _)].
      * rewrite Hnil in Hu. inversion Hu.
      * rewrite Hone in Hu. apply list_elem_of_singleton in Hu as ->.
        rewrite Hseen'.
        rewrite bool_decide_eq_false_2 by exact Hs.
        apply elem_of_union_l. by apply elem_of_singleton.
  - intros st tr [HQ _] _. split; [|exact I].
    rewrite saved_urls_app, popped_app.
    cbn [saved_urls popped omap list_omap]. by rewrite !app_nil_r.
Qed.

(** X3: the queue is first-in first-out.  The URLs dequeued in a run are,
    in order, a prefix of the URLs appended to the queue; when the run
    returns, the appended URLs are the dequeued ones followed by what is
    left in the queue, and the set [seen] holds exactly the dequeued
    URLs. *)
Theorem queue_is_fifo :
  popped (trace_of the_run) `prefix_of` appended (trace_of the_run) /\
  (forall st,
     result_of the_run = Ok (Some st) ->
     appended (trace_of the_run) = popped (trace_of the_run) ++ queue st /\
     seen st = list_to_set (popped (trace_of the_run))).
Proof.
  apply (crawl_peo_invariant lib net depth fuel start_url out_dir delay
           max_pages use_sitemap w
           (fun st tr =>
              appended tr = popped tr ++ queue st /\
              seen st = list_to_set (popped tr))
           (fun tr => popped tr `prefix_of` appended tr)
           (fun st tr =>
              appended tr = popped tr ++ queue st /\
              seen st = list_to_set (popped tr))).
  - intros pre Hpre. apply setup_trace_silent in Hpre as (-> & _).
    apply prefix_nil.
  - intros pre Hpre. apply setup_trace_silent in Hpre as (-> & _).
    by split.
  - intros st tr [-> _]. by apply prefix_app_r.
  - intros rp parsed st tr0 w0 r w' tr Hrp Hp Hdir [Happ Hseen] Hc Hb.
    pass_facts Hc Hb.
    rewrite appended_app, popped_app, Hpop, Happ, Hq.
    destruct r as [st'|e].
    + destruct (Hok st' eq_refl) as (_ & -> & _ & ->).
      split; [by rewrite <- !app_assoc|].
      rewrite list_to_set_app_L, Hseen. clear.
      generalize (list_to_set (C:=gset string) (popped tr0)). intros S.
      cbn. rewrite (right_id_L ∅ (∪)), (comm_L (∪) S).
      case_bool_decide as Hin; [|reflexivity].
      symmetry. apply subseteq_union_1_L. by apply singleton_subseteq_l.
    + rewrite <- !app_assoc. apply prefix_app, prefix_cons, prefix_nil.
  - intros st tr [Happ Hseen] _.
    rewrite appended_app, popped_app.
    cbn [appended popped omap list_omap]. rewrite !app_nil_r.
    split; [|by split]. rewrite Happ. by apply prefix_app_r.
Qed.

(** X4: the manifest and the files agree.  The manifest lines of a run
    name, in the same order, the same URL, path, title, description and
    word count as the files written: all of them unless the output
    directory is the empty path, and otherwise all but the last, after
    which the run raises because the directory of the manifest cannot
    be made.  The host of every line is the network location of the
    start URL. *)
Theorem manifest_matches_files :
  manifest_entries (trace_of the_run) `prefix_of` file_entries (trace_of the_run) /\
  (length (file_entries (trace_of the_run))
     <= S (length (manifest_entries (trace_of the_run))))%nat /\
  (out_dir <> "" ->
   manifest_entries (trace_of the_run) = file_entries (trace_of the_run)) /\
  (forall st,
     result_of the_run = Ok (Some st) ->
     manifest_entries (trace_of the_run) = file_entries (trace_of the_run)) /\
  Forall (fun h => exists parsed,
                     Urllib.urlparse lib start_url = Ok parsed /\
                     h = Urllib.netloc parsed)
         (manifest_hosts (trace_of the_run)).
Proof.
  set (H := fun h => exists parsed, _ /\ _).
  set (Q := fun tr : list Event =>
              manifest_entries tr `prefix_of` file_entries tr /\
              (length (file_entries tr) <= S (length (manifest_entries tr)))%nat /\
              (out_dir <> "" -> manifest_entries tr = file_entries tr) /\
              Forall H (manifest_hosts tr)).
  assert (Hall : Q (trace_of the_run) /\
                 (forall st, result_of the_run = Ok (Some st) ->
                    manifest_entries (trace_of the_run)
                      = file_entries (trace_of the_run))).
  { apply (crawl_peo_invariant lib net depth fuel start_url out_dir delay
             max_pages use_sitemap w
             (fun _ tr => manifest_entries tr = file_entries tr /\
                          Forall H (manifest_hosts tr))
             Q
             (fun _ tr => manifest_entries tr = file_entries tr)).
    - intros pre Hpre.
      apply setup_trace_silent in Hpre as (_ & _ & _ & Hf & Hm & Hh).
      unfold Q. rewrite Hf, Hm, Hh. split_and!; [done|cbn; lia|done|constructor].
    - intros pre Hpre.
      apply setup_trace_silent in Hpre as (_ & _ & _ & -> & -> & ->).
      by split.
    - intros st tr [Hme Hh]. unfold Q. rewrite Hme.
      split_and!; [done|lia|done|exact Hh].
    - intros rp parsed st tr0 w0 r w' tr Hrp Hp Hdir [Hme Hh] Hc Hb.
      pass_facts Hc Hb. unfold Q.
      rewrite !manifest_entries_app, !file_entries_app, !manifest_hosts_app, Hme.
      destruct Hsav as [(_ & -> & -> & -> & _)
                       | (_ & _ & _ & _ & (entry & -> & Hcase) & _)].
      { rewrite !app_nil_r. unfold Q.
        destruct r; split_and!; first [done | reflexivity | lia]. }
      destruct Hcase as [(-> & -> & _) | (-> & -> & _ & _ & Hnok & Hunu)].
      + assert (Hh' : Forall H (manifest_hosts tr0 ++ [Urllib.netloc parsed])).
        { apply Forall_app. split; [exact Hh|]. repeat constructor. by exists parsed. }
        unfold Q. rewrite !length_app. cbn [length].
        destruct r; split_and!; first [done | reflexivity | lia].
      + destruct r as [st'|e]; [discriminate|].
        unfold Q. rewrite !app_nil_r, length_app. cbn [length].
        split_and!; [by apply prefix_app_r|lia| |exact Hh].
        intros Hne. rewrite (usable_dir_run out_dir Hdir Hne) in Hunu. discriminate.
    - intros st tr [Hme Hh] _. unfold Q.
      rewrite !manifest_entries_app, !file_entries_app, !manifest_hosts_app.
      cbn [manifest_entries file_entries manifest_hosts omap list_omap].
      rewrite !app_nil_r, Hme.
      split_and!; [done|lia|done|exact Hh|reflexivity]. }
  destruct Hall as [(H1 & H2 & H3 & H4) H5]. by split_and!.
Qed.

(** X5: the pages are numbered as they are recorded.  The numbers
    printed with the saved pages are 1, 2, ... in order, one for each
    manifest line, and so one for each file unless the output directory
    is the empty path; when the run returns, the counter is the number
    of files written and the closing line reports it. *)
Theorem saved_pages_are_numbered :
  saved_numbers (trace_of the_run)
    = map Z.of_nat (seq 1 (length (manifest_entries (trace_of the_run)))) /\
  (out_dir <> "" ->
   saved_numbers (trace_of the_run)
     = map Z.of_nat (seq 1 (length (saved_urls (trace_of the_run))))) /\
  (forall st,
     result_of the_run = Ok (Some st) ->
     saved_numbers (trace_of the_run)
       = map Z.of_nat (seq 1 (length (saved_urls (trace_of the_run)))) /\
     count st = Z.of_nat (length (saved_urls (trace_of the_run))) /\
     In (EvPrint (LogDone (Z.of_nat (length (saved_urls (trace_of the_run))))
                          (os_path_join out_dir "pages")))
        (trace_of the_run)).
Proof.
  set (Q := fun tr : list Event =>
              saved_numbers tr
                = map Z.of_nat (seq 1 (length (manifest_entries tr))) /\
              (out_dir <> "" ->
               saved_numbers tr = map Z.of_nat (seq 1 (length (saved_urls tr))))).
  assert (Hall : Q (trace_of the_run) /\
                 (forall st, result_of the_run = Ok (Some st) ->
                    saved_numbers (trace_of the_run)
                      = map Z.of_nat (seq 1 (length (saved_urls (trace_of the_run)))) /\
                    count st = Z.of_nat (length (saved_urls (trace_of the_run))) /\
                    In (EvPrint (LogDone
                                   (Z.of_nat (length (saved_urls (trace_of the_run))))
                                   (os_path_join out_dir "pages")))
                       (trace_of the_run))).
  { apply (crawl_peo_invariant lib net depth fuel start_url out_dir delay
             max_pages use_sitemap w
             (fun st tr =>
                saved_numbers tr = map Z.of_nat (seq 1 (length (saved_urls tr))) /\
                length (manifest_entries tr) = length (saved_urls tr) /\
                count st = Z.of_nat (length (saved_urls tr)))
             Q
             (fun st tr =>
                saved_numbers tr = map Z.of_nat (seq 1 (length (saved_urls tr))) /\
                count st = Z.of_nat (length (saved_urls tr)) /\
                In (EvPrint (LogDone (Z.of_nat (length (saved_urls tr)))
                                     (os_path_join out_dir "pages"))) tr)).
    - intros pre Hpre.
      apply setup_trace_silent in Hpre as (_ & Hs & Hn & _ & Hm & _).
      unfold Q. by rewrite Hs, Hn, Hm.
    - intros pre Hpre.
      apply setup_trace_silent in Hpre as (_ & Hs & Hn & _ & Hm & _).
      by rewrite Hs, Hn, Hm.
    - intros st tr (Hn & Hlen & _). unfold Q. rewrite Hlen. by split.
    - intros rp parsed st tr0 w0 r w' tr Hrp Hp Hdir (Hn & Hlen & Hcnt) Hc Hb.
      pass_facts Hc Hb. unfold Q.
      rewrite !saved_numbers_app, !saved_urls_app, !manifest_entries_app,
        !length_app, Hn.
      destruct Hsav as [(Hsu & _ & Hme & _ & Hsn & _)
                       | (Hsu & _ & _ & _ & (entry & _ & Hcase) & _)].
      { rewrite Hsu, Hme, Hsn in *. cbn [length]. rewrite !Nat.add_0_r, app_nil_r.
        destruct r as [st'|e].
        - destruct (Hok st' eq_refl) as (_ & _ & -> & _). cbn [length].
          split_and!; [reflexivity|exact Hlen|lia].
        - unfold Q. rewrite Hlen. by split. }
      destruct Hcase as [(Hme & _ & Hsn) | (Hme & _ & Hsn & _ & Hnok & Hunu)].
      + rewrite Hsu, Hme, Hsn in *. cbn [length].
        assert (Hnum : map Z.of_nat (seq 1 (length (saved_urls tr0)))
                         ++ [count st + 1]
                       = map Z.of_nat (seq 1 (length (saved_urls tr0) + 1))).
        { rewrite seq_app, map_app. cbn. rewrite Hcnt. do 3 f_equal. lia. }
        rewrite Hnum.
        destruct r as [st'|e].
        * destruct (Hok st' eq_refl) as (_ & _ & -> & _). cbn [length].
          split_and!; [reflexivity|lia|lia].
        * unfold Q. rewrite Hlen. by split.
      + destruct r as [st'|e]; [discriminate|].
        rewrite Hsu, Hme, Hsn. cbn [length]. rewrite app_nil_r, Nat.add_0_r.
        unfold Q. rewrite Hlen. split; [reflexivity|].
        intros Hne. rewrite (usable_dir_run out_dir Hdir Hne) in Hunu. discriminate.
    - intros st tr (Hn & Hlen & Hcnt) _. unfold Q.
      rewrite !saved_numbers_app, !saved_urls_app, !manifest_entries_app.
      cbn [saved_numbers saved_urls manifest_entries omap list_omap].
      rewrite !app_nil_r, Hlen.
      split_and!; [exact Hn|by intros _|exact Hn|exact Hcnt|].
      rewrite <- Hcnt. apply in_or_app. right. by left. }
  destruct Hall as [[H1 H2] H3]. by split_and!.
Qed.

End RunExtras.

(** ** What a pass and the loop do *)

Section LoopExtras.

Context {World : Type}.
Variable lib : Lib.
Variable net : Net World.
Variables (start_url out_dir : string) (delay : Q) (max_pages : Z).
Variable rp : RobotFileParser.
Variable base_host : string.

Local Abbreviation body := (loop_body lib net start_url out_dir delay rp base_host).
Local Abbreviation page := (save_page lib net start_url out_dir delay base_host).
Local Abbreviation links_in := (enqueue_links (World:=World) lib start_url).
Local Abbreviation loop :=
  (crawl_loop lib net start_url out_dir delay max_pages rp base_host).

Lemma enqueue_links_raise (links : list string) (st : Frontier) (w : World) (e : Exn) :
  result_of (links_in links st w) = Raise e ->
  exists link, link ∈ links /\ normalize_url lib link = Raise e.
Proof.
  revert st. induction links as [|link links IH]; intros st; [discriminate|].
  assert (Hrest : forall st',
            result_of (links_in links st' w) = Raise e ->
            exists l, l ∈ link :: links /\ normalize_url lib l = Raise e).
  { intros st' H. destruct (IH st' H) as (l & Hl & Hn).
    exists l. split; [by apply list_elem_of_further|exact Hn]. }
  cbn. unfold mbind, M_bind, mret, M_ret, emit, lift, result_of. cbn.
  destruct (normalize_url lib link) as [n|e'] eqn:Hn; cbn.
  2: { intros [= ->]. exists link. split; [apply list_elem_of_here|exact Hn]. }
  unfold qualifies. case_bool_decide as Hs; cbn.
  { specialize (Hrest st). unfold result_of in Hrest.
    destruct (links_in links st w) as [[r w'] t]; exact Hrest. }
  destruct (same_domain lib n start_url) eqn:Hsd; cbn.
  2: { specialize (Hrest st). unfold result_of in Hrest.
       destruct (links_in links st w) as [[r w'] t]; exact Hrest. }
  destruct (same_domain_binary_ok lib _ _ Hsd) as [b Hb]. rewrite Hb. cbn.
  destruct b; cbn.
  { specialize (Hrest st). unfold result_of in Hrest.
    destruct (links_in links st w) as [[r w'] t]; exact Hrest. }
  specialize (Hrest (set_queue st (queue st ++ [n]))). unfold result_of in Hrest.
  destruct (links_in links _ w) as [[r w'] t]; exact Hrest.
Qed.

Lemma save_page_raise (url : string) (resp : Response) (st : Frontier)
    (w : World) (e : Exn) :
  sleep_error net delay = None ->
  usable_dir out_dir = true ->
  result_of (page url resp st w) = Raise e ->
  extract_links lib (resp_text resp) url = Raise e \/
  exists links link,
    extract_links lib (resp_text resp) url = Ok links /\
    link ∈ links /\ normalize_url lib link = Raise e.
Proof.
  intros Hsl Hu.
  unfold save_page, save_txt, append_manifest, utcnow, makedirs.
  rewrite (usable_dir_pages out_dir Hu), (manifest_dir_ok out_dir Hu).
  destruct (extract_main_text lib (resp_text resp)) as [[title meta_desc] main_text].
  unfold mbind, M_bind, mret, M_ret, emit, sleep, print, lift, result_of.
  rewrite Hsl. cbn.
  destruct (extract_links lib (resp_text resp) url) as [links|e'] eqn:Hl; cbn.
  2: { intros [= ->]. by left. }
  pose proof (enqueue_links_raise links (incr_count st) w e) as Hraise.
  unfold result_of in Hraise.
  destruct (links_in links (incr_count st) w) as [[[st'|e'] w'] t]; cbn;
    [discriminate|].
  intros [= ->]. right. destruct (Hraise eq_refl) as (link & Hin & Hn).
  by exists links, link.
Qed.

(** The files and the manifest lines of a trace, counted and listed. *)
Lemma saves_saved_urls (tr : list Event) :
  saves tr = Z.of_nat (length (saved_urls tr)).
Proof.
  unfold saves, count_events, saved_urls. f_equal.
  induction tr as [|ev tr IH]; [reflexivity|].
  destruct ev; cbn; rewrite ?IH; reflexivity.
Qed.

Lemma manifests_manifest_entries (tr : list Event) :
  manifests tr = Z.of_nat (length (manifest_entries tr)).
Proof.
  unfold manifests, count_events, manifest_entries. f_equal.
  induction tr as [|ev tr IH]; [reflexivity|].
  destruct ev; cbn; rewrite ?IH; reflexivity.
Qed.

(** X6: with a delay the clock accepts and an output directory that can
    be used, an exception leaves a pass of the loop only from link
    discovery, after the page has been written and recorded in the
    manifest: the checks and the fetch never raise.  The exception comes
    from [urljoin] on a link of the page or from [normalize_url] on a
    resolved link, and the pass ends without its closing sleep. *)
Theorem pass_raises_only_after_saving
    (st : Frontier) (w : World) (url : string) (rest : list string) (e : Exn) :
  sleep_error net delay = None ->
  usable_dir out_dir = true ->
  queue st = url :: rest ->
  result_of (body st w) = Raise e ->
  saved_urls (trace_of (body st w)) = [url] /\
  manifests (trace_of (body st w)) = 1 /\
  count_events is_sleep (trace_of (body st w)) = 0 /\
  exists resp,
    (session_get net url w).1 = Ok resp /\
    (extract_links lib (resp_text resp) url = Raise e \/
     exists links link,
       extract_links lib (resp_text resp) url = Ok links /\
       link ∈ links /\ normalize_url lib link = Raise e).
Proof.
  intros Hsleep Hu Hq Hres.
  destruct (loop_body_facts lib net start_url out_dir delay rp base_host
              st w url rest Hq)
    as (r & w' & tr & Hb & _ & _ & Hsav & _).
  destruct (loop_body_summary lib net start_url out_dir delay rp base_host
              st w url rest Hq)
    as (r2 & w2 & tr2 & Hb2 & _ & _ & _ & _ & _ & _ & Hsl & Hms & _).
  rewrite Hb in Hb2. injection Hb2 as <- <- <-.
  assert (Hr : r = Raise e) by (by rewrite Hb in Hres).
  subst r. rewrite Hb. unfold trace_of. cbn [snd].
  destruct Hsav as [(_ & _ & _ & _ & _ & _ & Hok) | (Hsu & _)].
  { specialize (Hok Hsleep Hu). discriminate. }
  split; [exact Hsu|].
  split; [rewrite (Hms Hu), saves_saved_urls, Hsu; reflexivity|].
  split; [exact Hsl|].
  destruct (verdict lib net start_url rp st url w) eqn:Hv.
  7: {
    destruct (loop_body_saved lib net start_url out_dir delay rp base_host
                st w url rest Hq Hv)
      as (resp & w1 & Hget & _ & _ & _ & Hbody).
    exists resp. split; [by rewrite Hget|].
    apply (save_page_raise url resp (add_seen (set_queue st rest) url) w1 e Hsleep Hu).
    rewrite Hb in Hbody. unfold result_of.
    destruct (page url resp (add_seen (set_queue st rest) url) w1) as [[r1 w3] t].
    by injection Hbody as <- _ _. }
  all: rewrite (loop_body_skip lib net start_url out_dir delay rp base_host
                  st w url rest Hsleep Hq) in Hb by (rewrite Hv; discriminate).
  all: discriminate.
Qed.

(** X7: the links a pass appends to the queue.  Each is on the host of
    the start URL, has no excluded extension, is not in [seen] and is not
    the page itself. *)
Theorem appended_links_qualify
    (st : Frontier) (w : World) (url : string) (rest : list string) :
  queue st = url :: rest ->
  Forall (fun n =>
            n <> url /\ (n ∉ seen st) /\
            same_domain lib n start_url = true /\
            looks_like_binary lib n = Ok false)
         (appended (trace_of (body st w))).
Proof.
  intros Hq.
  destruct (loop_body_facts lib net start_url out_dir delay rp base_host
              st w url rest Hq)
    as (r & w' & tr & Hb & _ & _ & Hsav & _).
  rewrite Hb. unfold trace_of. cbn [snd].
  destruct Hsav as [(_ & _ & _ & _ & _ & -> & _) | (_ & _ & _ & _ & _ & Hall)];
    [constructor|].
  eapply Forall_impl; [exact Hall|].
  intros n (Hn & Hsd & Hbin). split_and!; auto.
  - intros ->. apply Hn. apply elem_of_union_l. by apply elem_of_singleton.
  - intros Hin. apply Hn. by apply elem_of_union_r.
Qed.

(** A pass keeps what the requests so far have in common. *)
Lemma requests_step (seen0 : gset string) (st : Frontier) (tr0 : list Event)
    (w : World) (r : Result Frontier) (w' : World) (tr : list Event) :
  NoDup (requested tr0) ->
  sublist (requested tr0) (popped tr0) ->
  Forall (fun u =>
            (u ∉ seen0) /\
            same_domain lib u start_url = true /\
            looks_like_binary lib u = Ok false /\
            (sleep_error net delay = None ->
             can_fetch lib rp USER_AGENT u <> Ok false))
         (requested tr0) ->
  seen0 ⊆ seen st ->
  (forall u, u ∈ requested tr0 -> u ∈ seen st) ->
  loop_cond max_pages st = true ->
  body st w = (r, w', tr) ->
  (NoDup (requested (tr0 ++ tr)) /\
   sublist (requested (tr0 ++ tr)) (popped (tr0 ++ tr)) /\
   Forall (fun u =>
             (u ∉ seen0) /\
             same_domain lib u start_url = true /\
             looks_like_binary lib u = Ok false /\
             (sleep_error net delay = None ->
              can_fetch lib rp USER_AGENT u <> Ok false))
          (requested (tr0 ++ tr))) /\
  (forall st',
     r = Ok st' ->
     seen0 ⊆ seen st' /\ forall u, u ∈ requested (tr0 ++ tr) -> u ∈ seen st').
Proof.
  set (P := fun u => _ /\ _ /\ _ /\ _).
  intros Hnd Hsub Hall Hmono Hseen Hc Hb.
  pass_facts Hc Hb. split.
  { rewrite requested_app, popped_app, Hpop, Forall_app.
    destruct Hreq as [-> | (-> & (Hs & Hsd & Hbin) & Hg)].
    - rewrite app_nil_r.
      split_and!; [exact Hnd|by apply sublist_inserts_r|exact Hall|constructor].
    - split_and!; [|by apply sublist_app|exact Hall|].
      + apply NoDup_app. split_and!; [exact Hnd| |apply NoDup_singleton].
        intros u Hu ->%list_elem_of_singleton. auto.
      + constructor; [|constructor]. unfold P. split_and!; auto.
        intros Hsl. by apply Hg, gate_none in Hsl as (_ & _ & Hcf & _). }
  intros st' ->.
  destruct (Hok st' eq_refl) as (_ & _ & _ & Hseen').
  assert (Hgrow : seen st ⊆ seen st').
  { rewrite Hseen'. case_bool_decide; [reflexivity|apply union_subseteq_r]. }
  split; [by etrans|].
  intros u. rewrite requested_app, elem_of_app. intros [Hu | Hu].
  - apply Hgrow. by apply Hseen.
  - destruct Hreq as [Hnil | (Hone & (Hs & _) & _)].
    + rewrite Hnil in Hu. inversion Hu.
    + rewrite Hone in Hu. apply list_elem_of_singleton in Hu as ->.
      rewrite Hseen'.
      rewrite bool_decide_eq_false_2 by exact Hs.
      apply elem_of_union_l. by apply elem_of_singleton.
Qed.

(** X8: the requests of the loop.  Whatever state the loop starts from,
    it requests a URL at most once, only URLs it has dequeued, and only
    URLs that were not in [seen] at the start, are on the host of the
    start URL and have no excluded extension; when the clock accepts
    the delay, only URLs that the robots policy does not refuse. *)
Theorem loop_requests_once_and_checked (fuel : nat) (st0 : Frontier) (w : World) :
  NoDup (requested (trace_of (loop fuel st0 w))) /\
  sublist (requested (trace_of (loop fuel st0 w)))
          (popped (trace_of (loop fuel st0 w))) /\
  Forall (fun u =>
            (u ∉ seen st0) /\
            same_domain lib u start_url = true /\
            looks_like_binary lib u = Ok false /\
            (sleep_error net delay = None ->
             can_fetch lib rp USER_AGENT u <> Ok false))
         (requested (trace_of (loop fuel st0 w))).
Proof.
  set (P := fun u => _ /\ _ /\ _ /\ _).
  destruct (crawl_loop_invariant lib net start_url out_dir delay max_pages
              rp base_host
              (fun st tr =>
                 (NoDup (requested tr) /\ sublist (requested tr) (popped tr) /\
                  Forall P (requested tr)) /\
                 seen st0 ⊆ seen st /\
                 forall u, u ∈ requested tr -> u ∈ seen st)
              (fun tr =>
                 NoDup (requested tr) /\ sublist (requested tr) (popped tr) /\
                 Forall P (requested tr)))
    with (fuel := fuel) (st := st0) (w := w) (tr0 := @nil Event) as [HQ _].
  - tauto.
  - intros st tr0 w0 r w' tr [(Hnd & Hsub & Hall) [Hmono Hseen]] Hc Hb.
    destruct (requests_step (seen st0) st tr0 w0 r w' tr
                Hnd Hsub Hall Hmono Hseen Hc Hb) as [HQ Hnext].
    destruct r as [st'|e]; [|exact HQ].
    split; [exact HQ|]. by apply Hnext.
  - split; [split_and!; [constructor|reflexivity|constructor]|].
    split; [reflexivity|]. intros u Hu. inversion Hu.
  - exact HQ.
Qed.

End LoopExtras.

Lemma pass_raises_witness :
  saved_urls (trace_of BrokenLink.pass_start) = ["http://h/"] /\
  manifests (trace_of BrokenLink.pass_start) = 1.
Proof.
  destruct (pass_raises_only_after_saving BrokenLink.lib Demo.net Demo.start_url
              "data/peo" 0%Q Demo.rp "h" BrokenLink.start_first 0%nat
              "http://h/" [] ValueError)
    as (Hs & Hm & _).
  - reflexivity.
  - reflexivity.
  - reflexivity.
  - vm_compute. reflexivity.
  - split; [exact Hs|exact Hm].
Defined.

Lemma appended_links_witness :
  Forall (fun n => n <> "http://h/" /\ same_domain Demo.lib n Demo.start_url = true)
         (appended (trace_of BrokenLink.pass_start_ok)).
Proof.
  pose proof (appended_links_qualify Demo.lib Demo.net Demo.start_url
                "data/peo" 0%Q Demo.rp "h" BrokenLink.start_first 0%nat
                "http://h/" [] eq_refl) as H.
  eapply Forall_impl; [exact H|]. intros n (H1 & _ & H2 & _). by split.
Defined.

Lemma queue_is_fifo_witness :
  appended (trace_of Demo.run_links) = popped (trace_of Demo.run_links).
Proof.
  destruct (queue_is_fifo Demo.lib Demo.net 5 50 Demo.start_url
              "data/peo" 0%Q 20 false 0%nat) as [_ H].
  assert (Hres : exists st, result_of Demo.run_links = Ok (Some st) /\ queue st = []).
  { vm_compute. eexists. split; reflexivity. }
  destruct Hres as (st & Hres & Hq).
  destruct (H st Hres) as [Happ _]. rewrite Hq, app_nil_r in Happ. exact Happ.
Defined.

Lemma saved_pages_numbered_witness :
  In (EvPrint (LogDone 2 "data/peo/pages")) (trace_of Demo.run_links).
Proof.
  destruct (saved_pages_are_numbered Demo.lib Demo.net 5 50 Demo.start_url
              "data/peo" 0%Q 20 false 0%nat) as (_ & _ & H).
  assert (Hres : exists st, result_of Demo.run_links = Ok (Some st)).
  { vm_compute. eexists. reflexivity. }
  destruct Hres as (st & Hres).
  destruct (H st Hres) as (_ & _ & Hin).
  assert (Hlen : length (saved_urls (trace_of Demo.run_links)) = 2%nat)
    by (vm_compute; reflexivity).
  fold Demo.run_links in Hin. rewrite Hlen in Hin. exact Hin.
Defined.

Lemma saved_pages_checks_witness :
  Forall (fun u =>
            same_domain Demo.lib u Demo.start_url = true /\
            exists rp,
              result_of (load_robots Demo.lib Demo.net Demo.start_url 0%nat) = Ok rp /\
              can_fetch Demo.lib rp USER_AGENT u <> Ok false)
         (saved_urls (trace_of Demo.run_links)).
Proof.
  eapply Forall_impl;
    [exact (saved_pages_pass_the_checks Demo.lib Demo.net 5 50 Demo.start_url
              "data/peo" 0%Q 20 false 0%nat)|].
  intros u (Hsd & _ & Hrobots). split; [exact Hsd|exact (Hrobots eq_refl)].
Defined.

Lemma loop_requests_witness :
  Forall (fun u => can_fetch Demo.lib Demo.rp USER_AGENT u <> Ok false)
         (requested (trace_of (crawl_loop Demo.lib Demo.net Demo.start_url
                                 "data/peo" 0%Q 20 Demo.rp "h" 50
                                 BrokenLink.start_first 0%nat))).
Proof.
  destruct (loop_requests_once_and_checked Demo.lib Demo.net Demo.start_url
              "data/peo" 0%Q 20 Demo.rp "h" 50 BrokenLink.start_first 0%nat)
    as (_ & _ & Hall).
  eapply Forall_impl; [exact Hall|].
  intros u (_ & _ & _ & Hrobots). exact (Hrobots eq_refl).
Defined.

(** ** File names *)

Section SlugFacts.

Import PyStr PyStrFacts.

Variable sha1_hexdigest : string -> string.
Variable lib : Lib.

Lemma sub_unsafe_slug_chars (in_run : bool) (raw : string) :
  forallb slug_char (sub_unsafe in_run raw) = true.
Proof.
  revert in_run. induction raw as [|c raw IH]; intros in_run; [reflexivity|].
  cbn [sub_unsafe]. destruct (slug_char c) eqn:Hc.
  - cbn [forallb]. by rewrite Hc, IH.
  - destruct in_run; [apply IH|]. cbn [forallb]. by rewrite IH.
Qed.

Lemma slug_char_lower (c : ascii) :
  slug_char c = true -> plain_char (lower_char c) = true.
Proof. destruct c as [[] [] [] [] [] [] [] []]; vm_compute; congruence. Qed.

Lemma hex_char_lower (c : ascii) :
  hex_char c = true -> plain_char (lower_char c) = true.
Proof. destruct c as [[] [] [] [] [] [] [] []]; vm_compute; congruence. Qed.

Lemma has_app (c : ascii) (a b : string) :
  has c (a +:+ b) = has c a || has c b.
Proof.
  induction a as [|d a IH]; [reflexivity|].
  rewrite append_cons. cbn. rewrite IH. by destruct (ascii_eqb c d).
Qed.

Lemma has_startswith (c : ascii) (s : string) :
  has c s = false -> startswith (String c "") s = false.
Proof.
  destruct s as [|d s]; [reflexivity|]. cbn.
  destruct (ascii_eqb c d); [discriminate|reflexivity].
Qed.

Lemma length_take_min (n : nat) (s : string) :
  String.length (take n s) = Nat.min n (String.length s).
Proof.
  revert n. induction s as [|c s IH]; intros [|n]; cbn; try reflexivity.
  by rewrite IH.
Qed.

(** The part of the slug that comes from the path, after the cut at
    [maxlen]. *)
Lemma slug_parts (url : string) (maxlen : nat) (slug : string) :
  slug_for_file sha1_hexdigest lib url maxlen = Ok slug ->
  exists raw parsed,
    Urllib.urlparse lib url = Ok parsed /\
    forallb slug_char raw = true /\ (String.length raw <= maxlen)%nat /\
    slug = lower (
      let base := raw +:+ "__" +:+ take 8 (sha1_hexdigest url) in
      if negb (String.eqb
                 (if negb (String.eqb (Urllib.query parsed) "")
                  then take 8 (sha1_hexdigest (Urllib.query parsed)) else "") "")
      then base +:+ "_" +:+ take 8 (sha1_hexdigest (Urllib.query parsed))
      else base).
Proof.
  unfold slug_for_file.
  destruct (Urllib.urlparse lib url) as [parsed|e]; [|discriminate].
  cbn [mbind Result_bind]. intros [= <-].
  set (path := if String.eqb (strip_slashes (Urllib.path parsed)) "" then _ else _).
  set (raw0 := sub_unsafe false (replace_slashes path)).
  exists (if (maxlen <? String.length raw0)%nat then take maxlen raw0 else raw0),
    parsed.
  split; [reflexivity|].
  pose proof (sub_unsafe_slug_chars false (replace_slashes path)) as Hraw.
  fold raw0 in Hraw.
  destruct (maxlen <? String.length raw0)%nat eqn:Hlen.
  - split; [by apply forallb_take|]. split; [apply length_take|].
    destruct (negb (String.eqb (Urllib.query parsed) "")); reflexivity.
  - apply Nat.ltb_ge in Hlen. split; [exact Hraw|]. split; [exact Hlen|].
    destruct (negb (String.eqb (Urllib.query parsed) "")); reflexivity.
Qed.

Lemma slug_chars_plain (url : string) (maxlen : nat) (slug : string) :
  (forall s, forallb hex_char (sha1_hexdigest s) = true) ->
  slug_for_file sha1_hexdigest lib url maxlen = Ok slug ->
  forallb plain_char slug = true.
Proof.
  intros Hhex Hslug.
  destruct (slug_parts url maxlen slug Hslug) as (raw & parsed & _ & Hraw & _ & ->).
  assert (Hh : forall s, forallb (fun c => plain_char (lower_char c))
                           (take 8 (sha1_hexdigest s)) = true).
  { intros s. apply forallb_take.
    eapply forallb_impl; [apply hex_char_lower|apply Hhex]. }
  assert (Hr : forallb (fun c => plain_char (lower_char c)) raw = true).
  { eapply forallb_impl; [apply slug_char_lower|exact Hraw]. }
  unfold lower. rewrite forallb_map.
  destruct (negb (String.eqb _ "")).
  all: rewrite !forallb_app, ?Hr, ?Hh; reflexivity.
Qed.

(** X9: the file name is safe.  With a hexadecimal digest, the slug of
    any URL is made only of lower-case ASCII letters, digits, hyphen,
    underscore and full stop, whatever characters the URL has: it holds
    no slash, so it names a file and not a path. *)
Theorem slug_is_a_plain_file_name (url : string) (maxlen : nat) (slug : string) :
  (forall s, forallb hex_char (sha1_hexdigest s) = true) ->
  slug_for_file sha1_hexdigest lib url maxlen = Ok slug ->
  forallb plain_char slug = true /\ has "/" slug = false.
Proof.
  intros Hhex Hslug.
  pose proof (slug_chars_plain url maxlen slug Hhex Hslug) as Hplain.
  split; [exact Hplain|].
  by apply (forallb_has plain_char).
Qed.

(** X10: the length of the file name.  With a digest of 40 characters,
    the slug of a URL has at least 10 and at most [maxlen + 19]
    characters: the part taken from the path is cut at [maxlen], and two
    underscores and 8 characters of the digest of the URL follow, and for
    a URL with a query one more underscore and 8 characters of the
    digest of the query. *)
Theorem slug_length_is_bounded (url : string) (maxlen : nat) (slug : string) :
  (forall s, String.length (sha1_hexdigest s) = 40%nat) ->
  slug_for_file sha1_hexdigest lib url maxlen = Ok slug ->
  (10 <= String.length slug <= maxlen + 19)%nat.
Proof.
  intros Hlen Hslug.
  destruct (slug_parts url maxlen slug Hslug) as (raw & parsed & _ & _ & Hraw & ->).
  unfold lower. rewrite length_map.
  assert (H8 : forall s, String.length (take 8 (sha1_hexdigest s)) = 8%nat).
  { intros s. rewrite length_take_min, Hlen. reflexivity. }
  destruct (negb (String.eqb _ "")).
  all: rewrite !length_app, !H8; cbn [String.length]; lia.
Qed.

(** X11: where [save_txt] writes.  The directory is made first, which
    raises for the empty path, so a path is returned only for a
    directory that is not empty.  The path is the output directory, a
    slash unless the directory ends in one, the slug and the extension
    [.txt]; the file name holds no slash, so the file is a direct child
    of the output directory. *)
Theorem save_txt_writes_inside_out_dir (out_dir url path : string) :
  (forall s, forallb hex_char (sha1_hexdigest s) = true) ->
  save_txt_path sha1_hexdigest lib out_dir url = Ok path ->
  out_dir <> "" /\
  makedirs_error out_dir = None /\
  save_txt_path sha1_hexdigest lib "" url = Raise FileNotFoundError /\
  exists slug,
    slug_for_file sha1_hexdigest lib url 180 = Ok slug /\
    has "/" (slug +:+ ".txt") = false /\
    path = out_dir
           +:+ (if endswith "/" out_dir then "" else "/")
           +:+ (slug +:+ ".txt").
Proof.
  intros Hhex. unfold save_txt_path.
  destruct (makedirs_error out_dir) as [e|] eqn:Hdir; [discriminate|].
  assert (Hne : out_dir <> "").
  { intros ->. discriminate Hdir. }
  destruct (slug_for_file sha1_hexdigest lib url 180) as [slug|e] eqn:Hslug;
    [|discriminate].
  cbn [mbind Result_bind]. intros [= <-].
  split; [exact Hne|]. split; [reflexivity|]. split; [reflexivity|].
  assert (Hno : has "/" slug = false).
  { apply (forallb_has plain_char); [reflexivity|].
    by apply (slug_chars_plain url 180). }
  exists slug. split; [reflexivity|].
  assert (Hfile : has "/" (slug +:+ ".txt") = false).
  { rewrite has_app, Hno. reflexivity. }
  split; [exact Hfile|].
  unfold os_path_join. rewrite (has_startswith _ _ Hfile).
  destruct (String.eqb_spec out_dir "") as [->|_]; [contradiction|].
  cbn [orb]. destruct (endswith "/" out_dir); reflexivity.
Qed.

End SlugFacts.

Lemma sha1_demo_hex (s : string) :
  PyStr.forallb hex_char (SlugDemo.sha1_hexdigest s) = true.
Proof.
  unfold SlugDemo.sha1_hexdigest.
  destruct (String.eqb s SlugDemo.url); [vm_compute; reflexivity|].
  destruct (String.eqb s "page=2"); vm_compute; reflexivity.
Qed.

Lemma sha1_demo_length (s : string) :
  String.length (SlugDemo.sha1_hexdigest s) = 40%nat.
Proof.
  unfold SlugDemo.sha1_hexdigest.
  destruct (String.eqb s SlugDemo.url); [vm_compute; reflexivity|].
  destruct (String.eqb s "page=2"); vm_compute; reflexivity.
Qed.

Lemma slug_demo :
  slug_for_file SlugDemo.sha1_hexdigest Demo.lib SlugDemo.url 180
    = Ok "learn__how-parliament-works__e952dded_b941a131".
Proof. vm_compute. reflexivity. Qed.

Lemma slug_is_a_plain_file_name_witness :
  PyStr.has "/" "learn__how-parliament-works__e952dded_b941a131" = false.
Proof.
  apply (slug_is_a_plain_file_name SlugDemo.sha1_hexdigest Demo.lib
           SlugDemo.url 180 _ sha1_demo_hex slug_demo).
Defined.

Lemma slug_length_witness :
  (10 <= String.length "learn__how-parliament-works__e952dded_b941a131" <= 199)%nat.
Proof.
  apply (slug_length_is_bounded SlugDemo.sha1_hexdigest Demo.lib
           SlugDemo.url 180 _ sha1_demo_length slug_demo).
Defined.

Lemma save_txt_path_witness :
  exists slug,
    slug_for_file SlugDemo.sha1_hexdigest Demo.lib SlugDemo.url 180 = Ok slug /\
    "data/peo/pages/learn__how-parliament-works__e952dded_b941a131.txt"
      = "data/peo/pages" +:+ "/" +:+ (slug +:+ ".txt").
Proof.
  destruct (save_txt_writes_inside_out_dir SlugDemo.sha1_hexdigest Demo.lib
              "data/peo/pages" SlugDemo.url
              "data/peo/pages/learn__how-parliament-works__e952dded_b941a131.txt"
              sha1_demo_hex ltac:(vm_compute; reflexivity))
    as (_ & _ & _ & slug & Hslug & _ & Hpath).
  exists slug. split; [exact Hslug|exact Hpath].
Defined.

(** ** The helpers *)

Section HelperExtras.

Import PyStr PyStrFacts.

Variable lib : Lib.

(** X12: [same_domain] is a partial equivalence.  It is symmetric and
    transitive, holds of a URL and itself exactly when the URL parses,
    and is false as soon as one of the URLs does not parse. *)
Theorem same_domain_partial_equivalence (u v x : string) :
  same_domain lib u v = same_domain lib v u /\
  (same_domain lib u v = true -> same_domain lib v x = true ->
   same_domain lib u x = true) /\
  same_domain lib u u = is_ok (Urllib.urlparse lib u) /\
  (is_ok (Urllib.urlparse lib u) = false -> same_domain lib u v = false).
Proof.
  unfold same_domain.
  destruct (Urllib.urlparse lib u) as [pu|eu], (Urllib.urlparse lib v) as [pv|ev],
    (Urllib.urlparse lib x) as [px|ex]; cbn.
  all: split_and!; try done; try apply String.eqb_sym; try apply String.eqb_refl.
  all: rewrite !String.eqb_eq; congruence.
Qed.

(** X13: [discover_sitemaps] has always something to offer.  When the
    start URL parses it returns a list that is not empty: the sitemaps
    robots.txt declares when there are any, and otherwise the one
    conventional location [/sitemap.xml] on the host of the start URL. *)
Theorem discover_sitemaps_never_empty (rp : RobotFileParser) (start_url : string) :
  is_ok (Urllib.urlparse lib start_url) = true ->
  exists sitemaps,
    discover_sitemaps lib rp start_url = Ok sitemaps /\
    sitemaps <> [] /\
    (site_maps lib rp <> [] -> sitemaps = site_maps lib rp) /\
    (site_maps lib rp = [] ->
     exists parsed,
       Urllib.urlparse lib start_url = Ok parsed /\
       sitemaps = [Urllib.scheme parsed +:+ "://" +:+ Urllib.netloc parsed
                   +:+ "/sitemap.xml"]).
Proof.
  unfold discover_sitemaps.
  destruct (Urllib.urlparse lib start_url) as [parsed|e]; [intros _|discriminate].
  destruct (site_maps lib rp) as [|sm sms]; cbn.
  - eexists. split; [reflexivity|]. split_and!; [done|done|].
    intros _. by exists parsed.
  - eexists. split; [reflexivity|]. by split_and!.
Qed.

(** X14: [extract_links] is a filter followed by a map.  The hrefs that
    are empty or start with [mailto:], [tel:], [javascript:] or [#] are
    left out; every other href is resolved against the base URL, in
    document order and with repetitions kept, and the first href
    [urljoin] rejects makes the whole call raise. *)
Theorem extract_links_filter_map (html base_url : string) :
  extract_links lib html base_url
    = map_result (urljoin lib base_url)
                 (List.filter navigational (anchor_hrefs lib html)).
Proof.
  unfold extract_links.
  induction (anchor_hrefs lib html) as [|href hrefs IH]; [reflexivity|].
  cbn [List.filter]. unfold navigational at 1.
  destruct (String.eqb href ""); cbn [negb andb]; [exact IH|].
  destruct (existsb _ _); cbn [negb]; [exact IH|].
  cbn [map_result]. rewrite <- IH. reflexivity.
Qed.

Lemma startswith_app (p s : string) : startswith p (p +:+ s) = true.
Proof.
  induction p as [|c p IH]; [reflexivity|].
  rewrite append_cons. cbn. unfold ascii_eqb. by rewrite Ascii.eqb_refl, IH.
Qed.

Lemma contains_unfold (sub s : string) :
  contains sub s =
  startswith sub s || match s with EmptyString => false | String _ s' => contains sub s' end.
Proof. destruct s; reflexivity. Qed.

Lemma contains_app (sub a b : string) : contains sub (a +:+ sub +:+ b) = true.
Proof.
  induction a as [|c a IH].
  - change ("" +:+ sub +:+ b) with (sub +:+ b).
    by rewrite contains_unfold, startswith_app.
  - rewrite append_cons, contains_unfold, IH. apply orb_true_r.
Qed.

Lemma lower_app (a b : string) : lower (a +:+ b) = lower a +:+ lower b.
Proof.
  unfold lower. induction a as [|c a IH]; [reflexivity|].
  rewrite append_cons. cbn [map]. by rewrite IH, append_cons.
Qed.

(** X15: [is_html_response] looks for the media type anywhere in the
    header and in any case.  A [Content-Type] that holds [text/html] or
    [application/xhtml+xml], in whatever mix of capitals, with anything
    before and after it, is accepted; a response without the header is
    not. *)
Theorem is_html_response_any_case_any_place
    (resp : Response) (before media after : string) :
  content_type resp = Some (before +:+ media +:+ after) ->
  lower media = "text/html" \/ lower media = "application/xhtml+xml" ->
  is_html_response resp = true /\
  is_html_ctype None = false.
Proof.
  intros Hct Hm. split; [|reflexivity].
  unfold is_html_response, is_html_ctype. rewrite Hct.
  cbv beta zeta. unfold default, id. rewrite !lower_app.
  destruct Hm as [-> | ->]; rewrite contains_app; [reflexivity|apply orb_true_r].
Qed.

End HelperExtras.

Lemma same_domain_witness :
  same_domain Demo.lib "https://PEO.gov.au/a" "https://peo.gov.au/b?x=1#top" = true.
Proof.
  destruct (same_domain_partial_equivalence Demo.lib
              "https://PEO.gov.au/a" "https://peo.GOV.au"
              "https://peo.gov.au/b?x=1#top") as (_ & Htrans & _).
  apply Htrans; vm_compute; reflexivity.
Defined.

Lemma discover_sitemaps_witness :
  discover_sitemaps Demo.lib Demo.rp "http://h/" = Ok ["http://h/sitemap.xml"].
Proof.
  destruct (discover_sitemaps_never_empty Demo.lib Demo.rp "http://h/")
    as (sitemaps & -> & _ & _ & Hdefault).
  - vm_compute. reflexivity.
  - destruct Hdefault as (parsed & Hp & ->); [reflexivity|].
    vm_compute in Hp. injection Hp as <-. reflexivity.
Defined.

Lemma is_html_response_witness :
  is_html_response (Demo.response 200 "Text/HTML; charset=UTF-8" "") = true.
Proof.
  apply (is_html_response_any_case_any_place
           (Demo.response 200 "Text/HTML; charset=UTF-8" "")
           "" "Text/HTML" "; charset=UTF-8").
  - reflexivity.
  - left. vm_compute. reflexivity.
Defined.

(** ** Robots and sitemaps *)

Section SetupExtras.

Context {World : Type}.
Variable lib : Lib.
Variable net : Net World.

(** X16: what an HTTP error for robots.txt does to the crawl.  When the
    request for robots.txt is answered by an HTTP error, the policy
    [load_robots] returns allows every URL for a status from 400 to 499
    other than 401 and 403, and allows no URL for 401, 403 and every
    other status, such as 500. *)
Theorem load_robots_http_error_policy
    (start_url : string) (w : World) (rp : RobotFileParser) (code : Z) :
  result_of (load_robots lib net start_url w) = Ok rp ->
  (urlopen_read net (rp_url rp) w).1 = HTTPError code ->
  (exists parsed,
     Urllib.urlparse lib start_url = Ok parsed /\
     rp_url rp = Urllib.scheme parsed +:+ "://" +:+ Urllib.netloc parsed
                 +:+ "/robots.txt") /\
  forall agent url,
    can_fetch lib rp agent url
      = Ok ((400 <=? code) && (code <? 500)
            && negb ((code =? 401) || (code =? 403))).
Proof.
  unfold load_robots. rewrite bind_run. cbn [lift].
  destruct (Urllib.urlparse lib start_url) as [parsed|e]; [|discriminate].
  cbv beta iota. rewrite bind_run. cbn [lift].
  unfold set_url.
  destruct (Urllib.urlparse lib _) as [p|e]; [|discriminate].
  cbn [mbind Result_bind]. cbv beta iota.
  unfold try_except, read, result_of. cbn [rp_url].
  destruct (urlopen_read net _ w) as [[code'|e|lines] w1] eqn:Hread;
    cbn [fst snd mret M_ret].
  - destruct ((code' =? 401) || (code' =? 403)) eqn:H1;
      [|destruct ((400 <=? code') && (code' <? 500)) eqn:H2].
    all: intros [= <-]; cbn [rp_url with_flags]; rewrite Hread.
    all: intros [= <-]; (split; [by exists parsed|]).
    all: intros agent url; unfold can_fetch; cbn; rewrite ?H1, ?H2.
    all: rewrite ?andb_false_r; reflexivity.
  - intros [= <-]. cbn [rp_url]. rewrite Hread. discriminate.
  - intros [= <-]. cbn [rp_url with_parsed]. rewrite Hread. discriminate.
Qed.

Lemma loc_texts_nonempty (es : list Element) : Forall (fun u => u <> "") (loc_texts es).
Proof.
  unfold loc_texts. apply Forall_forall. intros u Hu.
  by apply list_elem_of_filter in Hu as [Hu _].
Qed.

Lemma parse_sitemap_quiet (depth : nat) (url : string) (w : World) :
  exists urls w' tr,
    parse_sitemap lib net depth url w = (Ok urls, w', tr) /\
    Forall (fun u => u <> "") urls /\ Forall is_get tr.
Proof.
  revert url w. induction depth as [|depth IH]; intros url w.
  { exists [], w, []. split; [reflexivity|]. split; constructor. }
  assert (Hfor : forall locs w1,
            exists urlss w2 t2,
              for_each (parse_sitemap lib net depth) locs w1 = (Ok urlss, w2, t2) /\
              Forall (fun u => u <> "") (concat urlss) /\ Forall is_get t2).
  { induction locs as [|loc locs IHl]; intros w1.
    { exists [], w1, []. split; [reflexivity|]. split; constructor. }
    cbn. unfold mbind, M_bind, mret, M_ret.
    destruct (IH loc w1) as (us & w2 & t2 & -> & Hus & Ht2).
    destruct (IHl w2) as (uss & w3 & t3 & -> & Huss & Ht3).
    eexists _, _, _. split; [reflexivity|].
    cbn. rewrite app_nil_r, !Forall_app. by split_and!. }
  cbn. unfold try_except, mbind, M_bind, mret, M_ret, lift, get. cbn.
  assert (Hget : is_get (EvGet url)) by (by exists url).
  destruct (session_get net url w) as [[r|e] w1]; cbn.
  2: { eexists _, _, _. split; [reflexivity|]. split; by repeat constructor. }
  destruct (negb (status_code r =? 200) || _); cbn.
  { eexists _, _, _. split; [reflexivity|]. split; by repeat constructor. }
  destruct (fromstring lib (content r)) as [root|e]; cbn.
  2: { eexists _, _, _. split; [reflexivity|]. split; by repeat constructor. }
  destruct (PyStr.endswith "sitemapindex" _); cbn.
  { destruct (Hfor (loc_texts (findall root "sitemap" "loc")) w1)
      as (urlss & w2 & t2 & -> & Hne & Ht2).
    eexists _, _, _. split; [reflexivity|].
    rewrite app_nil_r. split; [exact Hne|by constructor]. }
  destruct (PyStr.endswith "urlset" _); cbn.
  all: eexists _, _, _; (split; [reflexivity|]).
  all: split; [|by repeat constructor].
  - apply loc_texts_nonempty.
  - constructor.
Qed.

(** X17: [parse_sitemap] only reads.  Whatever the network answers, it
    returns, every URL it returns is a non-empty string, and its only
    effects are GET requests: it makes them without a sleep in between,
    without consulting robots.txt, and writes nothing. *)
Theorem parse_sitemap_only_requests (depth : nat) (url : string) (w : World) :
  exists urls,
    result_of (parse_sitemap lib net depth url w) = Ok urls /\
    Forall (fun u => u <> "") urls /\
    Forall is_get (trace_of (parse_sitemap lib net depth url w)) /\
    count_events is_sleep (trace_of (parse_sitemap lib net depth url w)) = 0 /\
    saves (trace_of (parse_sitemap lib net depth url w)) = 0.
Proof.
  destruct (parse_sitemap_quiet depth url w) as (urls & w' & tr & -> & Hne & Htr).
  exists urls. unfold result_of, trace_of. cbn [fst snd].
  split_and!; [reflexivity|exact Hne|exact Htr| |].
  all: unfold saves; induction Htr as [|e tr [u ->] _ IH]; [reflexivity|].
  all: rewrite count_events_cons; exact IH.
Qed.

End SetupExtras.

Lemma load_robots_http_error_witness :
  exists rp,
    result_of (load_robots Demo.lib RobotsDemo.net_404 "http://h/" 0%nat) = Ok rp /\
    can_fetch Demo.lib rp USER_AGENT "http://h/a" = Ok true.
Proof.
  assert (Hrp : exists rp,
            result_of (load_robots Demo.lib RobotsDemo.net_404 "http://h/" 0%nat)
              = Ok rp).
  { vm_compute. eexists. reflexivity. }
  destruct Hrp as [rp Hrp]. exists rp. split; [exact Hrp|].
  destruct (load_robots_http_error_policy Demo.lib RobotsDemo.net_404
              "http://h/" 0%nat rp 404 Hrp eq_refl) as [_ Hall].
  apply Hall.
Defined.

(** ** The page cap at its edge *)

Lemma setup_no_sleep (tr : list Event) :
  Forall (fun e => is_setup e = true) tr -> count_events is_sleep tr = 0.
Proof.
  induction 1 as [|e tr He _ IH]; [reflexivity|].
  rewrite count_events_cons.
  destruct e as [| | | | | | | | | | | |[]]; try discriminate; exact IH.
Qed.

(** X18: with a page cap of zero or less the loop is never entered.  The
    run still reads robots.txt and seeds the queue, sitemap requests
    included, but it dequeues nothing, saves nothing and never sleeps;
    when it returns, the queue still holds every seeded URL. *)
Theorem nonpositive_cap_dequeues_nothing {World : Type}
    (lib : Lib) (net : Net World) (depth fuel : nat)
    (start_url out_dir : string) (delay : Q) (max_pages : Z)
    (use_sitemap : bool) (w : World) :
  max_pages <= 0 ->
  popped (trace_of (crawl_peo lib net depth fuel start_url out_dir delay
                              max_pages use_sitemap w)) = [] /\
  saved_urls (trace_of (crawl_peo lib net depth fuel start_url out_dir delay
                                  max_pages use_sitemap w)) = [] /\
  count_events is_sleep
    (trace_of (crawl_peo lib net depth fuel start_url out_dir delay
                         max_pages use_sitemap w)) = 0 /\
  (forall st,
     result_of (crawl_peo lib net depth fuel start_url out_dir delay
                          max_pages use_sitemap w) = Ok (Some st) ->
     queue st = appended (trace_of (crawl_peo lib net depth fuel start_url out_dir
                                              delay max_pages use_sitemap w)) /\
     count st = 0).
Proof.
  intros Hcap.
  destruct (crawl_peo_parts lib net depth fuel start_url out_dir delay
              max_pages use_sitemap w)
    as [[[e He] Hpre] | (rp & parsed & q & w1 & pre & post & _ & _ & Hpre
                          & Hq & Htr & Hres & Hpost & _)].
  { pose proof (setup_trace_silent _ Hpre) as (Hp & Hs & _).
    split_and!; [exact Hp|exact Hs|by apply setup_no_sleep|].
    intros st Hst. congruence. }
  rewrite Htr, Hres. rewrite crawl_loop_unfold in Hpost |- *.
  assert (Hc : loop_cond max_pages {| queue := q; seen := ∅; count := 0 |} = false).
  { apply loop_cond_false. right. exact Hcap. }
  rewrite Hc in Hpost |- *. cbn in Hpost. subst post.
  unfold trace_of, result_of, mret, M_ret. cbn [fst snd].
  pose proof (setup_trace_silent _ Hpre) as (Hp & Hs & _).
  rewrite !popped_app, !saved_urls_app, !appended_app, !count_events_app.
  rewrite Hp, Hs, (setup_no_sleep _ Hpre), Hq. cbn.
  split_and!; try reflexivity.
  intros st [= <-]. cbn. by rewrite app_nil_r.
Qed.

Lemma nonpositive_cap_witness :
  popped (trace_of (crawl_peo Demo.lib Demo.net 5 50 Demo.start_url "data/peo"
                              0%Q 0 true 0%nat)) = [].
Proof.
  destruct (nonpositive_cap_dequeues_nothing Demo.lib Demo.net 5 50 Demo.start_url
              "data/peo" 0%Q 0 true 0%nat ltac:(lia)) as [H _].
  exact H.
Defined.

(** ** Fragments *)

Section FragmentFacts.

Import PyStr PyStrFacts Urllib.

Variable lib : Lib.

Lemma has_take_false (c : ascii) (n : nat) (s : string) :
  has c s = false -> has c (take n s) = false.
Proof.
  revert n. induction s as [|d s IH]; intros [|n]; cbn; try done.
  destruct (ascii_eqb c d); [done|apply IH].
Qed.

Lemma has_drop_false (c : ascii) (n : nat) (s : string) :
  has c s = false -> has c (drop n s) = false.
Proof.
  revert n. induction s as [|d s IH]; intros [|n]; cbn; try done.
  destruct (ascii_eqb c d); [done|apply IH].
Qed.

Lemma has_remove_false (c d : ascii) (s : string) :
  has c s = false -> has c (remove d s) = false.
Proof.
  induction s as [|e s IH]; cbn; [done|].
  destruct (ascii_eqb c e) eqn:Hce; [done|]. intros Hs.
  destruct (ascii_eqb d e); cbn; rewrite ?Hce; by apply IH.
Qed.

Lemma has_lstrip_false (c : ascii) (p : ascii -> bool) (s : string) :
  has c s = false -> has c (lstrip_by p s) = false.
Proof.
  induction s as [|d s IH]; cbn; [done|].
  destruct (ascii_eqb c d) eqn:Hcd; [done|]. intros Hs.
  destruct (p d); cbn; rewrite ?Hcd; auto.
Qed.

Lemma has_lower_hash (s : string) : has "#" (lower s) = has "#" s.
Proof.
  unfold lower. induction s as [|d s IH]; [reflexivity|].
  cbn. rewrite IH. f_equal.
  destruct d as [[] [] [] [] [] [] [] []]; reflexivity.
Qed.

Lemma find_none_has (c : ascii) (s : string) :
  find c s = None -> has c s = false.
Proof.
  induction s as [|d s IH]; cbn; [done|].
  destruct (ascii_eqb c d); [discriminate|].
  destruct (find c s); [discriminate|]. auto.
Qed.

Lemma find_take_le (c : ascii) (s : string) (i n : nat) :
  find c s = Some i -> (n <= i)%nat -> has c (take n s) = false.
Proof.
  revert i n. induction s as [|d s IH]; intros i n; cbn; [discriminate|].
  destruct (ascii_eqb c d) eqn:Hcd.
  - intros [= <-] Hn. by replace n with O by lia.
  - destruct (find c s) as [j|] eqn:Hf; [|discriminate].
    cbn. intros [= <-] Hn. destruct n as [|n]; [reflexivity|].
    cbn. rewrite Hcd. apply (IH j); [reflexivity|lia].
Qed.

(** The part before the separator holds no separator. *)
Lemma split_once_fst (c : ascii) (s : string) :
  has c (split_once c s).1 = false \/ has c s = false.
Proof.
  unfold split_once. destruct (find c s) as [i|] eqn:Hf; cbn [fst snd].
  - left. apply (find_take_le c s i i Hf). lia.
  - right. by apply find_none_has.
Qed.

Lemma split_once_parts (c d : ascii) (s : string) :
  has d s = false ->
  has d (split_once c s).1 = false /\ has d (split_once c s).2 = false.
Proof.
  intros Hs. unfold split_once. destruct (find c s) as [i|]; cbn [fst snd].
  - split; [by apply has_take_false|by apply has_drop_false].
  - by split.
Qed.

(** The network location [_splitnetloc] cuts off stops at the first
    [#]. *)
Lemma splitnetloc_no_hash (url : string) (start : nat) :
  has "#" (_splitnetloc url start).1 = false.
Proof.
  unfold _splitnetloc. cbn [fst fold_left].
  set (d2 := match find_from "?" start url with Some _ => _ | None => _ end).
  unfold find_from at 1.
  destruct (find "#" (drop start url)) as [i|] eqn:Hf; cbn.
  - apply (find_take_le _ _ i); [exact Hf|lia].
  - apply has_take_false. by apply find_none_has.
Qed.

Lemma splitnetloc_rest (url : string) (start : nat) :
  has "#" url = false -> has "#" (_splitnetloc url start).2 = false.
Proof. intros H. unfold _splitnetloc. cbn [snd]. by apply has_drop_false. Qed.


Lemma urlsplit_no_hash (u : string) (sr : SplitResult) :
  urlsplit lib u = Ok sr ->
  has "#" (sr_scheme sr) = false /\ has "#" (sr_netloc sr) = false /\
  has "#" (sr_path sr) = false /\ has "#" (sr_query sr) = false /\
  (has "#" u = false -> sr_fragment sr = "").
Proof.
  unfold urlsplit.
  set (url0 := remove_unsafe (lstrip_by c0_control_or_space u)).
  assert (H0 : has "#" u = false -> has "#" url0 = false).
  { intros Hu. unfold url0, remove_unsafe.
    by do 3 apply has_remove_false; apply has_lstrip_false. }
  cbv zeta.
  match goal with |- context [let '(a, b) := ?t in _] =>
    destruct t as [scheme url1] eqn:Hsch end.
  assert (Hscheme : has "#" scheme = false /\
                    (has "#" url0 = false -> has "#" url1 = false)).
  { revert Hsch. destruct (find ":" url0) as [[|i']|]; destruct url0 as [|c0 rest];
      try (intros [= <- <-]; done).
    destruct (is_ascii_alpha c0 && forallb scheme_char (take (S i') (String c0 rest)))
      eqn:Hc; intros [= <- <-]; [|done].
    apply andb_prop in Hc as [_ Hc]. split.
    - rewrite has_lower_hash. by apply (forallb_has scheme_char).
    - intros Hn. exact (has_drop_false "#" (S (S i')) (String c0 rest) Hn). }
  destruct Hscheme as [Hs1 Hs2].
  match goal with |- context [mbind _ ?t] =>
    assert (Hnet : forall netloc rest, t = Ok (netloc, rest) ->
              has "#" netloc = false /\
              (has "#" url1 = false -> has "#" rest = false));
    [|destruct t as [[netloc rest]|e]; [|discriminate]] end.
  { intros netloc rest. destruct (startswith "//" url1).
    - pose proof (splitnetloc_no_hash url1 2) as Hn1.
      pose proof (splitnetloc_rest url1 2) as Hn2.
      destruct (_splitnetloc url1 2) as [nl rs]. cbn [fst snd] in Hn1, Hn2.
      destruct (_ || _); [discriminate|].
      destruct (_ && _ && _); [discriminate|].
      by intros [= <- <-].
    - by intros [= <- <-]. }
  destruct (Hnet netloc rest eq_refl) as [Hn1 Hn2].
  cbn [mbind Result_bind].
  match goal with |- context [let '(a, b) := ?t in _] =>
    assert (Hfr : has "#" t.1 = false /\ (has "#" rest = false -> t.2 = ""));
    [|destruct t as [url2 frag]; cbn [fst snd] in Hfr] end.
  { destruct (has "#" rest) eqn:Hh; [|by split].
    split; [|discriminate].
    by destruct (split_once_fst "#" rest) as [H|H]; [|congruence]. }
  destruct Hfr as [Hf1 Hf2].
  match goal with |- context [let '(a, b) := ?t in _] =>
    assert (Hq : has "#" t.1 = false /\ has "#" t.2 = false);
    [|destruct t as [url3 qry]; cbn [fst snd] in Hq] end.
  { destruct (has "?" url2); [|by split]. by apply split_once_parts. }
  destruct Hq as [Hq1 Hq2].
  intros [= <-]. cbn. split_and!; auto.
Qed.


Lemma splitparams_no_hash (s : string) :
  has "#" s = false ->
  has "#" (_splitparams s).1 = false /\ has "#" (_splitparams s).2 = false.
Proof.
  intros Hs. unfold _splitparams.
  destruct (has "/" s); [destruct (rfind "/" s) as [r|]|].
  1: destruct (find_from ";" r s) as [i|].
  4: destruct (find ";" s) as [i|].
  all: cbn [fst snd]; split; auto using has_take_false, has_drop_false.
Qed.

Lemma urlparse_no_hash (u : string) (p : ParseResult) :
  urlparse lib u = Ok p ->
  (has "#" (scheme p) = false /\ has "#" (netloc p) = false /\
   has "#" (path p) = false /\ has "#" (params p) = false /\
   has "#" (query p) = false) /\
  (has "#" u = false -> fragment p = "").
Proof.
  unfold urlparse. destruct (urlsplit lib u) as [sr|e] eqn:Hsr; [|discriminate].
  apply urlsplit_no_hash in Hsr as (Hs & Hn & Hp & Hq & Hf).
  cbn [mbind Result_bind].
  match goal with |- context [let '(a, b) := ?t in _] =>
    assert (Hpp : has "#" t.1 = false /\ has "#" t.2 = false);
    [|destruct t as [url prm]; cbn [fst snd] in Hpp] end.
  { destruct (_ && _); [by apply splitparams_no_hash|by split]. }
  destruct Hpp as [Hp1 Hp2]. intros [= <-]. cbn. by split_and!.
Qed.

(** Putting a URL without a fragment together gives no [#]. *)
Lemma urlunparse_no_hash (r : ParseResult) :
  has "#" (scheme r) = false -> has "#" (netloc r) = false ->
  has "#" (path r) = false -> has "#" (params r) = false ->
  has "#" (query r) = false -> fragment r = "" ->
  has "#" (urlunparse r) = false.
Proof.
  intros Hs Hn Hp Hpa Hq Hf. unfold urlunparse, urlunsplit. rewrite Hf.
  replace (negb (String.eqb "" "")) with false by reflexivity.
  cbv zeta.
  repeat match goal with |- context [if ?c then _ else _] => destruct c end.
  all: rewrite ?has_app, ?Hs, ?Hn, ?Hp, ?Hpa, ?Hq; reflexivity.
Qed.

Lemma urlunparse_length (r : ParseResult) :
  (String.length (path r) <= String.length (urlunparse r))%nat.
Proof.
  unfold urlunparse, urlunsplit. cbv zeta.
  repeat match goal with |- context [if ?c then _ else _] => destruct c end.
  all: rewrite ?length_app; lia.
Qed.

Lemma drop_last_nonempty (p : string) :
  endswith "/" p = true -> p <> "/" -> drop_last p <> "".
Proof.
  destruct p as [|c [|d p]]; [discriminate| |discriminate].
  unfold endswith. cbn.
  destruct (Ascii.eqb_spec c "/") as [->|]; [done|discriminate].
Qed.


(** X19: [normalize_url] removes the fragment.  Whatever URL it is given,
    the URL it returns holds no [#]; and it never turns a URL that is not
    empty into the empty string, as a path is always left. *)
Theorem normalize_url_no_fragment (u n : string) :
  normalize_url lib u = Ok n ->
  has "#" n = false /\ (u <> "" -> n <> "").
Proof.
  unfold normalize_url.
  destruct (String.eqb_spec u "") as [->|Hu].
  { intros [= <-]. by split. }
  assert (Hdefrag : forall u',
            urldefrag lib u = Ok u' -> has "#" u' = false).
  { intros u'. unfold urldefrag. destruct (has "#" u) eqn:Hh.
    - destruct (urlparse lib u) as [r|e] eqn:Hr; [|discriminate].
      apply urlparse_no_hash in Hr as [(Hs & Hn & Hp & Hpa & Hq) _].
      intros [= <-]. by apply urlunparse_no_hash.
    - by intros [= <-]. }
  destruct (urldefrag lib u) as [u'|e]; [|discriminate].
  specialize (Hdefrag u' eq_refl). cbn [mbind Result_bind].
  destruct (urlparse lib u') as [parsed|e] eqn:Hparsed; [|discriminate].
  apply urlparse_no_hash in Hparsed as [(Hs & Hn & Hp & Hpa & Hq) Hf].
  specialize (Hf Hdefrag).
  cbn [mbind Result_bind]. cbv zeta.
  set (p1 := if String.eqb (path parsed) "" then "/" else path parsed).
  set (p2 := if endswith "/" p1 && negb (String.eqb p1 "/") then drop_last p1 else p1).
  assert (Hp1 : has "#" p1 = false /\ p1 <> "").
  { unfold p1. destruct (String.eqb_spec (path parsed) ""); by split. }
  assert (Hp2 : has "#" p2 = false /\ p2 <> "").
  { unfold p2. destruct (endswith "/" p1) eqn:He; cbn [andb]; [|exact Hp1].
    destruct (String.eqb_spec p1 "/") as [H1|H1]; cbn [negb]; [exact Hp1|].
    split; [unfold drop_last; apply has_take_false, Hp1
           |by apply drop_last_nonempty]. }
  intros [= <-]. split.
  - apply urlunparse_no_hash; cbn; tauto.
  - intros _ Hempty.
    pose proof (urlunparse_length (replace_path parsed p2)) as Hlen.
    unfold geturl in Hempty. rewrite Hempty in Hlen. cbn in Hlen.
    destruct p2; [by destruct Hp2|cbn in Hlen; lia].
Qed.

End FragmentFacts.

Lemma normalize_url_no_fragment_witness :
  PyStr.has "#" "https://peo.gov.au/learn" = false /\ "https://peo.gov.au/learn" <> "".
Proof.
  destruct (normalize_url_no_fragment Demo.lib "https://peo.gov.au/learn/#top"
              "https://peo.gov.au/learn" ltac:(vm_compute; reflexivity))
    as [H1 H2].
  split; [exact H1|]. apply H2. discriminate.
Defined.

(** ** A run that is not seeded from sitemaps *)

(** X20: without sitemap seeding, every request of a run is checked.
    Run with [use_sitemap=False], the crawler requests a URL at most
    once, only after dequeuing it, and only when it is on the host of the
    start URL and has no excluded extension; when the clock accepts the
    delay, only when the robots policy [load_robots] returned does not
    refuse it. *)
Theorem no_sitemap_requests_checked {World : Type}
    (lib : Lib) (net : Net World) (depth fuel : nat)
    (start_url out_dir : string) (delay : Q) (max_pages : Z) (w : World) :
  NoDup (requested (trace_of (crawl_peo lib net depth fuel start_url out_dir
                                        delay max_pages false w))) /\
  sublist (requested (trace_of (crawl_peo lib net depth fuel start_url out_dir
                                          delay max_pages false w)))
          (popped (trace_of (crawl_peo lib net depth fuel start_url out_dir
                                       delay max_pages false w))) /\
  Forall (fun u =>
            same_domain lib u start_url = true /\
            looks_like_binary lib u = Ok false /\
            (sleep_error net delay = None ->
             exists rp,
               result_of (load_robots lib net start_url w) = Ok rp /\
               can_fetch lib rp USER_AGENT u <> Ok false))
         (requested (trace_of (crawl_peo lib net depth fuel start_url out_dir
                                         delay max_pages false w))).
Proof.
  destruct (crawl_peo_parts_requests lib net depth fuel start_url out_dir delay
              max_pages false w)
    as [(_ & _ & Hnone) | (rp & parsed & q & w1 & pre & post & Hrp & Hp & Hsetup
                           & _ & Hpre & Htr & _ & Hpost & _)].
  { rewrite (Hnone eq_refl).
    split_and!; [constructor|apply sublist_nil_l|constructor]. }
  specialize (Hpre eq_refl).
  apply setup_trace_silent in Hsetup as (Hpp & _).
  set (P := fun u : string =>
              (u ∉ (∅ : gset string)) /\
              same_domain lib u start_url = true /\
              looks_like_binary lib u = Ok false /\
              (sleep_error net delay = None ->
               can_fetch lib rp USER_AGENT u <> Ok false)).
  destruct (crawl_loop_invariant lib net start_url out_dir delay max_pages
              rp (Urllib.netloc parsed)
              (fun st tr =>
                 (NoDup (requested tr) /\ sublist (requested tr) (popped tr) /\
                  Forall P (requested tr)) /\
                 (∅ : gset string) ⊆ seen st /\
                 forall u, u ∈ requested tr -> u ∈ seen st)
              (fun tr =>
                 NoDup (requested tr) /\ sublist (requested tr) (popped tr) /\
                 Forall P (requested tr)))
    with (fuel := fuel) (st := {| queue := q; seen := ∅; count := 0 |})
         (w := w1) (tr0 := pre) as [(Hnd & Hsub & Hall) _].
  - tauto.
  - intros st tr0 w0 r w' tr [(Hnd & Hsub & Hall) [Hmono Hseen]] Hc Hb.
    destruct (requests_step lib net start_url out_dir delay max_pages rp
                (Urllib.netloc parsed) ∅ st tr0 w0 r w' tr
                Hnd Hsub Hall Hmono Hseen Hc Hb) as [HQ Hnext].
    destruct r as [st'|e]; [|exact HQ].
    split; [exact HQ|]. by apply Hnext.
  - rewrite Hpre, Hpp.
    split; [split_and!; [constructor|reflexivity|constructor]|].
    split; [reflexivity|]. intros u Hu. inversion Hu.
  - assert (Hsilent : requested post = [] /\ popped post = []).
    { rewrite Hpost.
      by destruct (result_of (crawl_loop _ _ _ _ _ _ _ _ _ _ w1)) as [[st|]|e]. }
    destruct Hsilent as [Hpr Hppo].
    rewrite Htr, app_assoc, requested_app, popped_app, Hpr, Hppo, !app_nil_r.
    split_and!; [exact Hnd|exact Hsub|].
    eapply Forall_impl; [exact Hall|].
    intros u (_ & Hsd & Hbin & Hcf). split_and!; auto.
    intros Hsl. exists rp. split; [exact Hrp|by apply Hcf].
Qed.

Lemma no_sitemap_requests_witness :
  Forall (fun u =>
            exists rp,
              result_of (load_robots Demo.lib Demo.net Demo.start_url 0%nat) = Ok rp /\
              can_fetch Demo.lib rp USER_AGENT u <> Ok false)
         (requested (trace_of Demo.run_links)).
Proof.
  destruct (no_sitemap_requests_checked Demo.lib Demo.net 5 50 Demo.start_url
              "data/peo" 0%Q 20 0%nat) as (_ & _ & Hall).
  eapply Forall_impl; [exact Hall|].
  intros u (_ & _ & Hrobots). exact (Hrobots eq_refl).
Defined.

(** ** The cleaned text *)

Section CleanFacts.

Import PyStr PyStrFacts.

Lemma runs_startswith (c : ascii) (k n m : nat) (s : string) :
  (0 < m)%nat -> (k < n + m)%nat ->
  startswith (repeat_char c m) s = true ->
  runs_at_most (Ascii.eqb c) k n s = false.
Proof.
  revert n s. induction m as [|m IH]; intros n s Hm Hk; [lia|].
  destruct s as [|d s]; [discriminate|].
  cbn [runs_at_most startswith repeat_char]. unfold ascii_eqb.
  destruct (Ascii.eqb c d); [|discriminate]. cbn [andb].
  intros Hs. destruct (S n <=? k)%nat eqn:Hle; [|reflexivity]. cbn [andb].
  apply Nat.leb_le in Hle. apply IH; [lia|lia|exact Hs].
Qed.

Lemma runs_contains (c : ascii) (k n : nat) (s : string) :
  runs_at_most (Ascii.eqb c) k n s = true ->
  contains (repeat_char c (S k)) s = false.
Proof.
  revert n. induction s as [|d s IH]; intros n; [reflexivity|].
  intros Hr. change (contains ?sub (String d s))
    with (startswith sub (String d s) || contains sub s).
  apply orb_false_intro.
  - destruct (startswith (repeat_char c (S k)) (String d s)) eqn:Hs; [|reflexivity].
    rewrite (runs_startswith c k n (S k) _ ltac:(lia) ltac:(lia) Hs) in Hr.
    discriminate.
  - cbn [runs_at_most] in Hr. destruct (Ascii.eqb c d).
    + apply andb_prop in Hr as [_ Hr]. by apply (IH (S n)).
    + by apply (IH 0%nat).
Qed.


Lemma has_sub_runs_class (p : ascii -> bool) (r c : ascii) (b : bool) (s : string) :
  p c = true -> Ascii.eqb c r = false -> has c (sub_runs p r b s) = false.
Proof.
  intros Hp Hr. revert b. induction s as [|d s IH]; intros b; [reflexivity|].
  cbn [sub_runs]. destruct (p d) eqn:Hd.
  - destruct b; [apply IH|]. cbn [has]. unfold ascii_eqb. by rewrite Hr, IH.
  - cbn [has]. unfold ascii_eqb.
    destruct (Ascii.eqb_spec c d) as [->|_]; [congruence|apply IH].
Qed.

Lemma has_sub_runs_other (p : ascii -> bool) (r c : ascii) (b : bool) (s : string) :
  Ascii.eqb c r = false -> has c s = false -> has c (sub_runs p r b s) = false.
Proof.
  intros Hr. revert b. induction s as [|d s IH]; intros b; [reflexivity|].
  cbn [sub_runs has]. unfold ascii_eqb.
  destruct (Ascii.eqb c d) eqn:Hcd; [discriminate|]. intros Hs.
  destruct (p d).
  - destruct b; [by apply IH|]. cbn [has]. unfold ascii_eqb. rewrite Hr. by apply IH.
  - cbn [has]. unfold ascii_eqb. rewrite Hcd. by apply IH.
Qed.

Lemma has_cap_newlines (c : ascii) (n : nat) (s : string) :
  has c s = false -> has c (cap_newlines n s) = false.
Proof.
  revert n. induction s as [|d s IH]; intros n; [reflexivity|].
  cbn [cap_newlines has]. unfold ascii_eqb.
  destruct (Ascii.eqb c d) eqn:Hcd; [discriminate|]. intros Hs.
  destruct (Ascii.eqb d "010"); [destruct (n <? 2)%nat|].
  all: cbn [has]; unfold ascii_eqb; rewrite ?Hcd; by apply IH.
Qed.

(** After the second substitution no two spaces are adjacent. *)
Lemma sub_runs_blank_spaces (b : bool) (s : string) :
  runs_at_most (Ascii.eqb " ") 1 (if b then 1 else 0)
               (sub_runs is_blank " " b s) = true.
Proof.
  revert b. induction s as [|d s IH]; intros b; [reflexivity|].
  cbn [sub_runs]. destruct (is_blank d) eqn:Hd.
  - destruct b; [apply (IH true)|].
    cbn [runs_at_most]. rewrite Ascii.eqb_refl. exact (IH true).
  - cbn [runs_at_most].
    destruct (Ascii.eqb_spec " " d) as [<-|_]; [discriminate|]. exact (IH false).
Qed.

(** The third substitution removes line feeds only where one is left,
    so it joins no two spaces. *)
Lemma cap_newlines_spaces (n m : nat) (s : string) :
  ((0 < n)%nat -> m = 0%nat) ->
  runs_at_most (Ascii.eqb " ") 1 m s = true ->
  runs_at_most (Ascii.eqb " ") 1 m (cap_newlines n s) = true.
Proof.
  revert n m. induction s as [|d s IH]; intros n m Hn; [reflexivity|].
  cbn [cap_newlines runs_at_most].
  destruct (Ascii.eqb_spec d "010") as [->|Hd].
  - change (Ascii.eqb " " "010") with false. cbv iota.
    intros Hs. destruct (n <? 2)%nat eqn:Hlt.
    + cbn [runs_at_most]. change (Ascii.eqb " " "010") with false. cbv iota.
      apply IH; [done|exact Hs].
    + apply Nat.ltb_ge in Hlt. rewrite Hn by lia.
      apply IH; [done|exact Hs].
  - cbn [runs_at_most]. destruct (Ascii.eqb " " d) eqn:Hsp.
    + intros [Hle Hs]%andb_prop. rewrite Hle. cbn [andb].
      apply IH; [lia|exact Hs].
    + apply IH. lia.
Qed.

Lemma cap_newlines_runs (n : nat) (s : string) :
  runs_at_most (Ascii.eqb "010") 2 (Nat.min n 2) (cap_newlines n s) = true.
Proof.
  revert n. induction s as [|d s IH]; intros n; [reflexivity|].
  cbn [cap_newlines]. destruct (Ascii.eqb_spec d "010") as [->|Hd].
  - destruct (n <? 2)%nat eqn:Hlt.
    + apply Nat.ltb_lt in Hlt. cbn [runs_at_most]. rewrite Ascii.eqb_refl.
      replace (Nat.min n 2) with n by lia.
      replace (S n <=? 2)%nat with true by (symmetry; apply Nat.leb_le; lia).
      cbn [andb]. specialize (IH (S n)).
      by replace (Nat.min (S n) 2) with (S n) in IH by lia.
    + apply Nat.ltb_ge in Hlt. specialize (IH (S n)).
      replace (Nat.min (S n) 2) with 2%nat in IH by lia.
      by replace (Nat.min n 2) with 2%nat by lia.
  - cbn [runs_at_most].
    destruct (Ascii.eqb_spec "010" d) as [<-|_]; [done|]. exact (IH 0%nat).
Qed.

(** On a text that is clean already each substitution changes
    nothing. *)
Lemma sub_runs_none (p : ascii -> bool) (r : ascii) (s : string) :
  forallb (fun c => negb (p c)) s = true -> sub_runs p r false s = s.
Proof.
  induction s as [|d s IH]; [reflexivity|].
  cbn [forallb sub_runs]. intros [Hd Hs]%andb_prop.
  apply negb_true_iff in Hd. rewrite Hd. by rewrite IH.
Qed.

Lemma sub_runs_blank_fixed (m : nat) (s : string) :
  has "009" s = false ->
  runs_at_most (Ascii.eqb " ") 1 m s = true ->
  sub_runs is_blank " " (0 <? m)%nat s = s.
Proof.
  revert m. induction s as [|d s IH]; intros m; [reflexivity|].
  cbn [has sub_runs runs_at_most]. unfold ascii_eqb, is_blank.
  rewrite (Ascii.eqb_sym d " "), (Ascii.eqb_sym d "009").
  destruct (Ascii.eqb "009" d); [discriminate|]. intros Ht.
  destruct (Ascii.eqb_spec " " d) as [<-|_]; cbn [orb].
  - intros [Hle Hs]%andb_prop. apply Nat.leb_le in Hle.
    assert (m = 0%nat) as -> by lia.
    cbn [Nat.ltb Nat.leb]. f_equal. exact (IH 1%nat Ht Hs).
  - intros Hs. f_equal. exact (IH 0%nat Ht Hs).
Qed.

Lemma cap_newlines_fixed (n : nat) (s : string) :
  runs_at_most (Ascii.eqb "010") 2 n s = true -> cap_newlines n s = s.
Proof.
  revert n. induction s as [|d s IH]; intros n; [reflexivity|].
  cbn [cap_newlines runs_at_most]. rewrite (Ascii.eqb_sym d "010").
  destruct (Ascii.eqb "010" d).
  - intros [Hle Hs]%andb_prop. apply Nat.leb_le in Hle.
    replace (n <? 2)%nat with true by (symmetry; apply Nat.ltb_lt; lia).
    f_equal. by apply IH.
  - intros Hs. f_equal. by apply IH.
Qed.

Lemma has_forallb_not (c : ascii) (s : string) :
  has c s = false -> forallb (fun d => negb (Ascii.eqb c d)) s = true.
Proof.
  induction s as [|d s IH]; [reflexivity|]. cbn. unfold ascii_eqb.
  destruct (Ascii.eqb c d); [discriminate|]. exact IH.
Qed.

(** X21: the text [extract_main_text] returns is in normal form.  After
    the three substitutions it holds no carriage return and no tab, no
    two spaces in a row and no three line feeds in a row; cleaning it
    again changes nothing. *)
Theorem clean_whitespace_normal_form (text : string) :
  has "013" (clean_whitespace text) = false /\
  has "009" (clean_whitespace text) = false /\
  contains "  " (clean_whitespace text) = false /\
  contains (String "010" (String "010" (String "010" "")))
           (clean_whitespace text) = false /\
  clean_whitespace (clean_whitespace text) = clean_whitespace text.
Proof.
  assert (Hcr : has "013" (clean_whitespace text) = false).
  { unfold clean_whitespace. apply has_cap_newlines.
    apply has_sub_runs_other; [reflexivity|].
    by apply has_sub_runs_class; [apply Ascii.eqb_refl|]. }
  assert (Htab : has "009" (clean_whitespace text) = false).
  { unfold clean_whitespace. apply has_cap_newlines.
    by apply has_sub_runs_class. }
  assert (Hsp : runs_at_most (Ascii.eqb " ") 1 0 (clean_whitespace text) = true).
  { unfold clean_whitespace. apply cap_newlines_spaces; [lia|].
    apply (sub_runs_blank_spaces false). }
  assert (Hnl : runs_at_most (Ascii.eqb "010") 2 0 (clean_whitespace text) = true).
  { unfold clean_whitespace. apply (cap_newlines_runs 0). }
  split_and!; [exact Hcr|exact Htab| | |].
  - exact (runs_contains " " 1 0 _ Hsp).
  - exact (runs_contains "010" 2 0 _ Hnl).
  - unfold clean_whitespace at 1.
    rewrite (sub_runs_none (Ascii.eqb "013")) by (by apply has_forallb_not).
    pose proof (sub_runs_blank_fixed 0 _ Htab Hsp) as Hfix.
    change (0 <? 0)%nat with false in Hfix. rewrite Hfix.
    by apply cap_newlines_fixed.
Qed.

End CleanFacts.

(** ** A run that is stopped by an exception *)

Section RunRaises.

Context {World : Type}.
Variable lib : Lib.
Variable net : Net World.

Lemma save_page_no_report (start_url out_dir : string) (delay : Q)
    (base_host url : string) (resp : Response) (st : Frontier) (w : World) :
  count_events is_report
    (trace_of (save_page lib net start_url out_dir delay base_host url resp st w)) = 0.
Proof.
  pose proof (save_page_cases lib net start_url out_dir delay base_host
                url resp st w) as Hc.
  destruct (makedirs_error (os_path_join out_dir "pages")) as [e1|].
  { rewrite Hc. reflexivity. }
  destruct (makedirs_error (os_path_dirname _)) as [e2|].
  { rewrite Hc. reflexivity. }
  destruct Hc as (app & r & w' & tail & -> & _ & Hr).
  unfold trace_of. cbn [snd].
  destruct Hr as [(_ & _ & -> & _)|(e & _ & ->)].
  all: repeat (rewrite count_events_app || rewrite count_events_cons ||
               rewrite count_events_nil ||
               rewrite count_events_appends by reflexivity).
  all: reflexivity.
Qed.

(** The closing report is printed by no pass of the loop. *)
Lemma loop_body_no_report (start_url out_dir : string) (delay : Q)
    (rp : RobotFileParser) (base_host : string)
    (st : Frontier) (w : World) (url : string) (rest : list string) :
  queue st = url :: rest ->
  count_events is_report
    (trace_of (loop_body lib net start_url out_dir delay rp base_host st w)) = 0.
Proof.
  intros Hq. unfold loop_body. rewrite Hq.
  unfold robots_denied, fetch, get.
  unfold mbind, M_bind, mret, M_ret, emit, sleep, print, lift, try_except.
  destruct (sleep_error net delay) as [es|] eqn:Hsl; cbn.
  all: case_bool_decide as Hs; cbn; [reflexivity|].
  all: destruct (same_domain lib url start_url) eqn:Hsd; cbn; [|reflexivity].
  all: destruct (same_domain_binary_ok lib _ _ Hsd) as [b Hb]; rewrite Hb.
  all: destruct (can_fetch lib rp USER_AGENT url) as [[|]|e] eqn:Hcf; cbn.
  all: destruct b; cbn; try reflexivity.
  all: destruct (session_get net url w) as [[resp|e'] w1]; cbn;
    try reflexivity.
  all: destruct (status_code resp =? 200); cbn; try reflexivity.
  all: destruct (is_html_response resp); cbn; try reflexivity.
  all: pose proof (save_page_no_report start_url out_dir delay base_host url resp
                     (add_seen (set_queue st rest) url) w1) as Hno.
  all: destruct (save_page lib net start_url out_dir delay base_host url resp
                   (add_seen (set_queue st rest) url) w1) as [[r w2] t].
  all: unfold trace_of in *; cbn [snd] in *.
  all: repeat rewrite count_events_cons; cbn; exact Hno.
Qed.

Lemma crawl_loop_no_report (start_url out_dir : string) (delay : Q)
    (max_pages : Z) (rp : RobotFileParser) (base_host : string)
    (fuel : nat) (st : Frontier) (w : World) :
  count_events is_report
    (trace_of (crawl_loop lib net start_url out_dir delay max_pages rp base_host
                          fuel st w)) = 0.
Proof.
  destruct (crawl_loop_invariant lib net start_url out_dir delay max_pages
              rp base_host
              (fun _ tr => count_events is_report tr = 0)
              (fun tr => count_events is_report tr = 0))
    with (fuel := fuel) (st := st) (w := w) (tr0 := @nil Event) as [HQ _];
    [auto| |reflexivity|exact HQ].
  intros st1 tr0 w0 r w' tr HI Hc Hb.
  apply loop_cond_true in Hc as [(url & rest & Hq) _].
  pose proof (loop_body_no_report start_url out_dir delay rp base_host
                st1 w0 url rest Hq) as Hno.
  rewrite Hb in Hno. unfold trace_of in Hno. cbn [snd] in Hno.
  assert (count_events is_report (tr0 ++ tr) = 0)
    by (rewrite count_events_app; lia).
  by destruct r.
Qed.

Lemma setup_no_report (tr : list Event) :
  Forall (fun e => is_setup e = true) tr -> count_events is_report tr = 0.
Proof.
  induction 1 as [|ev tr Hev _ IH]; [reflexivity|].
  rewrite count_events_cons.
  destruct ev as [| | | | | | | | | | | |[]]; try discriminate; exact IH.
Qed.

Lemma crawl_loop_raise (start_url out_dir : string) (delay : Q) (max_pages : Z)
    (rp : RobotFileParser) (base_host : string)
    (fuel : nat) (st : Frontier) (w : World) (e : Exn) :
  sleep_error net delay = None ->
  usable_dir out_dir = true ->
  result_of (crawl_loop lib net start_url out_dir delay max_pages rp base_host
                        fuel st w) = Raise e ->
  exists url,
    last (popped (trace_of (crawl_loop lib net start_url out_dir delay max_pages
                                       rp base_host fuel st w))) = Some url /\
    last (saved_urls (trace_of (crawl_loop lib net start_url out_dir delay
                                           max_pages rp base_host fuel st w)))
      = Some url.
Proof.
  intros Hsl Hu. revert st w. induction fuel as [|fuel IH]; intros st w.
  all: rewrite crawl_loop_unfold; destruct (loop_cond max_pages st) eqn:Hc;
    try discriminate.
  unfold mbind, M_bind.
  destruct (loop_body lib net start_url out_dir delay rp base_host st w)
    as [[r w'] tr] eqn:Hb.
  pose proof Hc as Hc'. pass_facts Hc' Hb.
  destruct r as [st'|e'].
  - specialize (IH st' w'). unfold result_of, trace_of in *.
    destruct (crawl_loop lib net start_url out_dir delay max_pages rp base_host
                         fuel st' w') as [[r2 w2] t2]. cbn [fst snd] in *.
    intros Hr. destruct (IH Hr) as (u & Hp & Hs). exists u.
    rewrite popped_app, saved_urls_app, !last_app, Hp, Hs. by split.
  - unfold result_of, trace_of. cbn [fst snd]. intros _.
    destruct Hsav as [(_ & _ & _ & _ & _ & _ & Hfine) | (Hsu & _)].
    { specialize (Hfine Hsl Hu). discriminate. }
    exists url. by rewrite Hpop, Hsu.
Qed.

(** X22: how an exception can end a run.  In no case is the closing
    report printed.  With a delay the clock accepts and an output
    directory that is not the empty path, the exception is either raised
    before the first URL is dequeued, while robots.txt is set up, the
    start URL parsed, the directory of the pages made or the queue
    seeded, and then nothing was saved; or it is raised by the link
    discovery of a page that has just been saved, so that the last URL
    dequeued is the last URL saved. *)
Theorem run_raises_early_or_after_saving
    (depth fuel : nat) (start_url out_dir : string) (delay : Q)
    (max_pages : Z) (use_sitemap : bool) (w : World) (e : Exn) :
  result_of (crawl_peo lib net depth fuel start_url out_dir delay max_pages
                       use_sitemap w) = Raise e ->
  count_events is_report (trace_of (crawl_peo lib net depth fuel start_url out_dir
                                              delay max_pages use_sitemap w)) = 0 /\
  (sleep_error net delay = None ->
   out_dir <> "" ->
   popped (trace_of (crawl_peo lib net depth fuel start_url out_dir delay
                               max_pages use_sitemap w)) = [] /\
   saved_urls (trace_of (crawl_peo lib net depth fuel start_url out_dir delay
                                   max_pages use_sitemap w)) = []
   \/
   exists url,
     last (popped (trace_of (crawl_peo lib net depth fuel start_url out_dir delay
                                       max_pages use_sitemap w))) = Some url /\
     last (saved_urls (trace_of (crawl_peo lib net depth fuel start_url out_dir
                                           delay max_pages use_sitemap w)))
       = Some url).
Proof.
  intros Hraise.
  destruct (crawl_peo_parts lib net depth fuel start_url out_dir delay
              max_pages use_sitemap w)
    as [[_ Hpre] | (rp & parsed & q & w1 & pre & post & _ & _ & Hpre
                    & _ & Htr & Hres & Hpost & Hdir)].
  { pose proof (setup_trace_silent _ Hpre) as (Hp & Hs & _).
    split; [by apply setup_no_report|]. intros _ _. by left. }
  rewrite Hres in Hraise. rewrite Hraise in Hpost. subst post.
  rewrite Htr, app_nil_r. split.
  - rewrite count_events_app, (setup_no_report _ Hpre), crawl_loop_no_report.
    reflexivity.
  - intros Hsl Hne.
    destruct (crawl_loop_raise start_url out_dir delay max_pages rp
                (Urllib.netloc parsed) fuel _ w1 e Hsl
                (usable_dir_run out_dir Hdir Hne) Hraise) as (url & Hp & Hs).
    right. exists url. rewrite popped_app, saved_urls_app, !last_app, Hp, Hs.
    by split.
Qed.

End RunRaises.

Lemma run_raises_witness :
  count_events is_report (trace_of BrokenLink.run) = 0 /\
  last (popped (trace_of BrokenLink.run)) = Some "http://h/" /\
  last (saved_urls (trace_of BrokenLink.run)) = Some "http://h/".
Proof.
  destruct (run_raises_early_or_after_saving BrokenLink.lib Demo.net 5 50
              Demo.start_url "data/peo" 0%Q 20 false 0%nat ValueError
              ltac:(vm_compute; reflexivity)) as [Hreport Hlast].
  split; [exact Hreport|].
  destruct (Hlast eq_refl ltac:(discriminate)) as [[Hp _] | (url & Hp & Hs)].
  - vm_compute in Hp. discriminate Hp.
  - fold BrokenLink.run in Hp, Hs.
    assert (Hurl : last (popped (trace_of BrokenLink.run)) = Some "http://h/")
      by (vm_compute; reflexivity).
    rewrite Hurl in Hp. injection Hp as <-. by split.
Defined.
